(** * CulinaryLens: resilience layer and confidence fusion

    A shallow embedding of [services/geminiService.ts] (retry wrappers,
    session failover latch, health check, staged remote operations), of
    the repository's second copy of that module (which routes image calls
    through the critical wrapper), and of [calculateCompositeConfidence]
    (confidence fusion), together with the properties the specification
    states about them.

    JavaScript numbers are IEEE-754 binary64 values; they are modelled by
    Rocq's primitive floats, which implement the same format with the same
    rounding, so every arithmetic step below evaluates as it does in the
    browser. Asynchronous functions are modelled as computations over an
    explicit world: the latch, the surroundings the module reads, the
    number of remote invocations made so far and a trace of invocations,
    sleeps and console lines. A remote call is given by what each of its
    invocations settles to. *)

From Stdlib Require Import ZArith List String Ascii Bool Lia.
From Stdlib Require Uint63.
From Stdlib Require Import PrimFloat SpecFloat FloatOps FloatAxioms.
Import ListNotations.

Set Warnings "-inexact-float".

(* ===================================================================== *)
(** ** JavaScript primitives used by the source *)
(* ===================================================================== *)

Module JS.

Local Open Scope float_scope.

(** ToBoolean on a number: [0], [-0] and [NaN] are falsy. *)
Definition truthy (x : float) : bool :=
  negb (PrimFloat.is_nan x || PrimFloat.is_zero x).

(** [a || b] on numbers. *)
Definition or_else (a b : float) : float :=
  if truthy a then a else b.

(** [Math.max(a, b)]: NaN if either argument is NaN, and [+0] is larger
    than [-0]. *)
Definition Math_max (a b : float) : float :=
  if PrimFloat.is_nan a || PrimFloat.is_nan b then nan
  else if a <? b then b
  else if b <? a then a
  else if PrimFloat.get_sign a then b else a.

(** [Math.min(a, b)]: NaN if either argument is NaN, and [-0] is smaller
    than [+0]. *)
Definition Math_min (a b : float) : float :=
  if PrimFloat.is_nan a || PrimFloat.is_nan b then nan
  else if a <? b then a
  else if b <? a then b
  else if PrimFloat.get_sign a then a else b.

(** An array length (or any small natural number) as a number. *)
Definition of_nat (n : nat) : float :=
  PrimFloat.of_uint63 (Uint63.of_Z (Z.of_nat n)).

(** A non-zero integer of magnitude below 2^63 as a number. *)
Definition of_Z (z : Z) : float :=
  match z with
  | Z0 => zero
  | Zpos p => PrimFloat.of_uint63 (Uint63.of_Z (Zpos p))
  | Zneg p => PrimFloat.opp (PrimFloat.of_uint63 (Uint63.of_Z (Zpos p)))
  end.

(** [Math.round(x)]: the integer nearest to [x], ties towards +infinity;
    NaN, infinities and zeros are returned as they are, and a result of
    zero keeps the sign of [x]. A finite value with a non-negative
    exponent is already an integer. *)
Definition Math_round (x : float) : float :=
  match Prim2SF x with
  | S754_finite s m e =>
      if (0 <=? e)%Z then x
      else
        let n := if s then Zneg m else Zpos m in
        let z := ((2 * n + 2 ^ (- e)) / 2 ^ (1 - e))%Z in
        if (z =? 0)%Z then (if s then neg_zero else zero) else of_Z z
  | _ => x
  end.

(** [String.prototype.toLowerCase] on ASCII text: the letters A to Z are
    mapped and every other byte is left as it is, so cased letters outside
    ASCII are not covered. *)
Definition lower_ascii (c : ascii) : ascii :=
  let n := nat_of_ascii c in
  if (65 <=? n)%nat && (n <=? 90)%nat then ascii_of_nat (n + 32) else c.

Fixpoint toLowerCase (s : string) : string :=
  match s with
  | EmptyString => EmptyString
  | String c r => String (lower_ascii c) (toLowerCase r)
  end.

(** [hay.includes(needle)]. *)
Fixpoint includes (hay needle : string) : bool :=
  String.prefix needle hay ||
  match hay with
  | EmptyString => false
  | String _ r => includes r needle
  end.

(** ToBoolean on a string: only the empty string is falsy. *)
Definition truthy_str (s : string) : bool :=
  negb (String.eqb s EmptyString).

End JS.

(* ===================================================================== *)
(** ** Data model ([types.ts]) *)
(* ===================================================================== *)

Inductive VerificationStatus := unverified | confirmed | dismissed.

Record Ingredient := mkIngredient {
  ing_id : string;
  name : string;
  scientificName : string;
  category : string;
  mass_grams : float;
  vitality_score : float;
  expires_in_days : float;
  confidence : float;
  verificationStatus : option VerificationStatus
}.

Record ProtocolStep := mkStep {
  order : float;
  instruction : string;
  technique : string
}.

Record NeuralProtocol := mkProtocol {
  proto_id : string;
  title : string;
  description : string;
  ingredients_used : list string;
  instructions : list ProtocolStep;
  groundingSources : list string;
  isOffline : option bool
}.

(** [Record<string, number>]: the own numeric properties of a parsed JSON
    object, in the order they were written. *)
Definition NumberRecord := list (string * float).

Record UserPreferences := mkPrefs {
  dietary : string;
  allergies : list string;
  cuisinePreference : option string;
  confidenceMemory : option NumberRecord
}.

(** The own property [key] of [obj]; [None] when [obj] has no own property
    of that name. *)
Fixpoint get_property (obj : NumberRecord) (key : string) : option float :=
  match obj with
  | [] => None
  | (k, v) :: rest => if String.eqb k key then Some v else get_property rest key
  end.

(** The names every plain object inherits from [Object.prototype]. *)
Definition Object_prototype_keys : list string :=
  [ "constructor"; "__proto__"; "hasOwnProperty"; "isPrototypeOf";
    "propertyIsEnumerable"; "toLocaleString"; "toString"; "valueOf";
    "__defineGetter__"; "__defineSetter__"; "__lookupGetter__";
    "__lookupSetter__" ]%string.

(** [obj[key]] on a plain object: an own number, a member inherited from
    [Object.prototype] (a function, or the prototype itself), or
    [undefined]. *)
Inductive Property :=
| OwnNumber (v : float)
| Inherited
| Undefined.

Definition lookup (obj : NumberRecord) (key : string) : Property :=
  match get_property obj key with
  | Some v => OwnNumber v
  | None =>
      if existsb (String.eqb key) Object_prototype_keys then Inherited else Undefined
  end.

Record RecallHypothesis := mkHypothesis {
  hyp_name : string;
  justification : string;
  visualHint : string;
  hyp_confidence : float
}.

(** The parts of a [GenerateContentResponse] the module reads:
    [response.text]; the grounding chunks of the first candidate, each as
    its [chunk.web?.uri]; the content parts of the first candidate, each
    as its [p?.inlineData?.data]. *)
Record GenerateContentResponse := mkResponse {
  text : option string;
  groundingChunks : option (list (option string));
  parts : option (list (option string))
}.

(* ===================================================================== *)
(** ** Confidence fusion ([calculateCompositeConfidence]) *)
(* ===================================================================== *)

Module Fusion.

Import JS.
Local Open Scope float_scope.

(** [const memory = prefs.confidenceMemory || {};] where [saved] is the
    object [JSON.parse] made of what the preference store holds, and
    [None] stands for the [{}] taken when the store holds nothing. Reading
    and parsing the store, which may throw, is modelled in [FusionStore]
    below. *)
Definition memory_of (saved : option UserPreferences) : NumberRecord :=
  match saved with
  | Some prefs =>
      match confidenceMemory prefs with
      | Some m => m
      | None => []
      end
  | None => []
  end.

(** [(memory[key] || 0)] as the number the multiplication that follows
    sees: an inherited member is truthy and is not a number. *)
Definition memory_count (memory : NumberRecord) (key : string) : float :=
  match lookup memory key with
  | OwnNumber v => or_else v 0
  | Inherited => nan
  | Undefined => 0
  end.

(** The body of the reducer without the accumulator: the capped,
    bias-adjusted score of one ingredient. *)
Definition item_score (memory : NumberRecord) (curr : Ingredient) : float :=
  let score := confidence curr in
  let score :=
    match verificationStatus curr with
    | Some confirmed => Math_max score 0.85
    | _ => score
    end in
  let bias := Math_min (memory_count memory (toLowerCase (name curr)) * 0.02) 0.10 in
  Math_min (score + bias) 1.0.

(** [mlInventory.reduce(..., 0)] *)
Definition score_sum (memory : NumberRecord) (mlInventory : list Ingredient) : float :=
  fold_left (fun acc curr => acc + item_score memory curr) mlInventory 0.

(** [const mlConfidence = mlInventory.reduce(...) / mlInventory.length || 1;]
    Division binds tighter than [||]. *)
Definition mlConfidence (memory : NumberRecord) (mlInventory : list Ingredient) : float :=
  or_else (score_sum memory mlInventory / of_nat (List.length mlInventory)) 1.

(** [protocol.instructions.length > 3 ? 1.0 : 0.7] *)
Definition geminiCoherence (protocol : NeuralProtocol) : float :=
  if (3 <? List.length (instructions protocol))%nat then 1.0 else 0.7.

(** [new Set(mlInventory.map(i => i.name.toLowerCase()))] and [has]. *)
Definition mlNames (mlInventory : list Ingredient) : list string :=
  map (fun i => toLowerCase (name i)) mlInventory.

Definition has (s : list string) (x : string) : bool :=
  existsb (String.eqb x) s.

Definition hallucinations (mlInventory : list Ingredient) (protocol : NeuralProtocol) : nat :=
  List.length (filter (fun ing => negb (has (mlNames mlInventory) (toLowerCase ing)))
                 (ingredients_used protocol)).

(** [Math.max(0, 1 - (hallucinations / protocol.ingredients_used.length))] *)
Definition constraintSatisfaction (mlInventory : list Ingredient) (protocol : NeuralProtocol) : float :=
  Math_max 0 (1 - (of_nat (hallucinations mlInventory protocol)
                   / of_nat (List.length (ingredients_used protocol)))).

Definition calculateCompositeConfidence
    (saved : option UserPreferences)
    (mlInventory : list Ingredient) (protocol : NeuralProtocol) : float :=
  let memory := memory_of saved in
  let composite :=
    (0.5 * mlConfidence memory mlInventory)
    + (0.3 * geminiCoherence protocol)
    + (0.2 * constraintSatisfaction mlInventory protocol) in
  Math_round (composite * 100).

(** The perception term as the specification words it: the average of the
    per-item scores, and 1.0 for an empty list. *)
Definition perception_average (memory : NumberRecord) (mlInventory : list Ingredient) : float :=
  match mlInventory with
  | [] => 1
  | _ => score_sum memory mlInventory / of_nat (List.length mlInventory)
  end.

(** The composite score with the specification's averaging formula as its
    perception term. *)
Definition composite_by_average
    (saved : option UserPreferences)
    (mlInventory : list Ingredient) (protocol : NeuralProtocol) : float :=
  Math_round (100 * (0.5 * perception_average (memory_of saved) mlInventory
                     + 0.3 * geminiCoherence protocol
                     + 0.2 * constraintSatisfaction mlInventory protocol)).

(** The result is one of the integers 0..100. *)
Definition is_score (x : float) : Prop :=
  exists n : nat, (n <= 100)%nat /\ x = of_nat n.

End Fusion.

(* ===================================================================== *)
(** ** The composite score as the specification words it *)
(* ===================================================================== *)

(** The specification's [CompositeConfidence(ingredients, protocol,
    memoryBias)], term by term, written from its section 4.3 and its
    boundary conventions and not from the code. Numbers are binary64 here
    too, summed in the order of the list. *)
Module Formula.

Import JS.
Local Open Scope float_scope.

(** The historical confirmation count of an ingredient name: what the
    preferences remember under the name without regard to letter case,
    and 0 when they remember nothing. *)
Definition confirmations (saved : option UserPreferences) (nm : string) : float :=
  match saved with
  | Some prefs =>
      match confidenceMemory prefs with
      | Some remembered =>
          match get_property remembered (toLowerCase nm) with
          | Some count => count
          | None => 0
          end
      | None => 0
      end
  | None => 0
  end.

(** One ingredient: its raw confidence, raised to at least 0.85 when it is
    confirmed, plus a bias of 0.02 per confirmation up to 0.10, capped at
    1.0. *)
Definition item (saved : option UserPreferences) (i : Ingredient) : float :=
  let raised :=
    match verificationStatus i with
    | Some confirmed => Math_max (confidence i) 0.85
    | _ => confidence i
    end in
  let bias := Math_min (0.02 * confirmations saved (name i)) 0.10 in
  Math_min (raised + bias) 1.0.

Fixpoint total (saved : option UserPreferences) (ingredients : list Ingredient)
    (sofar : float) : float :=
  match ingredients with
  | [] => sofar
  | i :: rest => total saved rest (sofar + item saved i)
  end.

(** The average across all ingredients; an empty set yields 1.0 by
    convention. *)
Definition perception (saved : option UserPreferences) (ingredients : list Ingredient) : float :=
  match ingredients with
  | [] => 1
  | _ => total saved ingredients 0 / of_nat (List.length ingredients)
  end.

(** 1.0 if the protocol has more than 3 instruction steps, else 0.7. *)
Definition coherence (protocol : NeuralProtocol) : float :=
  if (List.length (instructions protocol) <=? 3)%nat then 0.7 else 1.0.

(** A referenced name is present in the perceived set when an ingredient
    bears it, letter case apart. *)
Definition perceived (ingredients : list Ingredient) (referenced : string) : bool :=
  existsb (fun i => String.eqb (toLowerCase (name i)) (toLowerCase referenced))
    ingredients.

Fixpoint missing (ingredients : list Ingredient) (referenced : list string) : nat :=
  match referenced with
  | [] => 0
  | r :: rest =>
      (if perceived ingredients r then 0 else 1) + missing ingredients rest
  end.

(** [1 - missing / referenced], floored at 0; zero referenced ingredients
    yield 1.0 by convention. *)
Definition constraint (ingredients : list Ingredient) (protocol : NeuralProtocol) : float :=
  match ingredients_used protocol with
  | [] => 1
  | referenced =>
      Math_max 0 (1 - of_nat (missing ingredients referenced)
                      / of_nat (List.length referenced))
  end.

(** [round(100 x (0.5 x perception + 0.3 x coherence + 0.2 x constraint))] *)
Definition composite
    (saved : option UserPreferences)
    (ingredients : list Ingredient) (protocol : NeuralProtocol) : float :=
  Math_round (100 * (0.5 * perception saved ingredients
                     + 0.3 * coherence protocol
                     + 0.2 * constraint ingredients protocol)).

(** A remembered count a JSON text can carry and [|| 0] leaves as it is:
    not NaN and not the negative zero. *)
Definition plain_count (count : float) : Prop :=
  PrimFloat.is_nan count = false /\ count <> neg_zero.

(** Inputs on which the conventions for degenerate cases play no part:
    the protocol references an ingredient, the average of the scores is
    neither zero nor NaN, the remembered counts are plain, and no
    ingredient bears a name every object inherits from [Object.prototype]
    ([constructor], [__proto__]). *)
Definition regular
    (saved : option UserPreferences)
    (ingredients : list Ingredient) (protocol : NeuralProtocol) : Prop :=
  ingredients_used protocol <> []
  /\ truthy (perception saved ingredients) = true
  /\ (forall prefs remembered,
        saved = Some prefs -> confidenceMemory prefs = Some remembered ->
        Forall (fun entry => plain_count (snd entry)) remembered)
  /\ Forall (fun i => existsb (String.eqb (toLowerCase (name i)))
                        Object_prototype_keys = false) ingredients.

End Formula.

(** Sample data of the end-to-end scenarios. *)
Definition sample_ingredient (nm : string) (conf : float) : Ingredient :=
  mkIngredient "i1" nm "" "produce" 100 90 5 conf None.

Definition sample_steps (n : nat) : list ProtocolStep :=
  repeat (mkStep 1 "Prepare" "knife") n.

Definition sample_protocol (steps : nat) (used : list string) : NeuralProtocol :=
  mkProtocol "p1" "Dish" "A dish" used (sample_steps steps) [] (Some false).

(* ===================================================================== *)
(** ** Effects: thrown values, the environment, the session and a trace *)
(* ===================================================================== *)

(** A thrown value as the wrappers see it: [err?.message]. *)
Record JsError := mkError { message : option string }.

(** [new Error(msg)] *)
Definition Error (msg : string) : JsError := mkError (Some msg).

Inductive Outcome (T : Type) : Type :=
| Returned (v : T)
| Thrown (e : JsError).
Arguments Returned {T} v.
Arguments Thrown {T} e.

(** [localStorage.getItem(key)]: a string, [null], or an exception. *)
Inductive StorageRead :=
| ReadFails (e : JsError)
| ReadItem (v : option string).

(** What the module reads from its surroundings and never writes. *)
Record Env := mkEnv {
  VITE_GEMINI_API_KEY : option string;
  stored_GEMINI_API_KEY : StorageRead;
  navigator_onLine : bool;
  development : bool
}.

(** Observable steps of a run, oldest first. *)
Inductive Event :=
| Invoked
| Slept (ms : float)
| Warned (text : string)
| WarnedRetrying (wrapper : string) (delay : float) (attemptsLeft : nat)
| Errored (text : string).

(** [sessionForceOffline] is the module-level [let]; [calls] counts the
    remote invocations made so far. *)
Record World := mkWorld {
  sessionForceOffline : bool;
  env : Env;
  calls : nat;
  trace : list Event
}.

(** A computation may change the world and may throw; the world survives
    the throw. *)
Definition M (T : Type) : Type := World -> Outcome T * World.

Definition ret {T} (v : T) : M T := fun w => (Returned v, w).

Definition throw {T} (e : JsError) : M T := fun w => (Thrown e, w).

Definition bind {A B} (m : M A) (k : A -> M B) : M B :=
  fun w =>
    match m w with
    | (Returned a, w') => k a w'
    | (Thrown e, w') => (Thrown e, w')
    end.

Definition try_catch {T} (body : M T) (handler : JsError -> M T) : M T :=
  fun w =>
    match body w with
    | (Returned v, w') => (Returned v, w')
    | (Thrown e, w') => handler e w'
    end.

Declare Scope js_scope.
Delimit Scope js_scope with js.
Notation "x <- m ;; k" := (bind m (fun x => k))
  (at level 61, m at next level, right associativity) : js_scope.
Notation "m ;; k" := (bind m (fun _ => k))
  (at level 61, right associativity) : js_scope.
Open Scope js_scope.

Definition read_latch : M bool :=
  fun w => (Returned (sessionForceOffline w), w).

Definition write_latch (b : bool) : M unit :=
  fun w => (Returned tt, mkWorld b (env w) (calls w) (trace w)).

Definition read_env : M Env :=
  fun w => (Returned (env w), w).

Definition emit (e : Event) : M unit :=
  fun w => (Returned tt,
            mkWorld (sessionForceOffline w) (env w) (calls w) (trace w ++ [e])).

(** The moment of a [Math.random()] draw, told by the invocation count. *)
Definition read_calls : M nat :=
  fun w => (Returned (calls w), w).

(** Lift a value that was computed outside the monad and may be a throw. *)
Definition lift {T} (o : Outcome T) : M T := fun w => (o, w).

(** The wrapped remote call: what its [k]-th invocation of the session
    settles to. *)
Definition Attempt (T : Type) : Type := nat -> Outcome T.

(** [await fn()] *)
Definition await_call {T} (fn : Attempt T) : M T :=
  fun w => (fn (calls w),
            mkWorld (sessionForceOffline w) (env w) (S (calls w))
                    (trace w ++ [Invoked])).

(** [await new Promise(resolve => setTimeout(resolve, delay))] *)
Definition sleep (delay : float) : M unit := emit (Slept delay).

Definition run_state {T} (m : M T) (w : World) : World := snd (m w).
Definition run_value {T} (m : M T) (w : World) : Outcome T := fst (m w).

(* ===================================================================== *)
(** ** Confidence fusion: reading the remembered confirmations *)
(* ===================================================================== *)

Module FusionStore.

Import JS.

(** [const saved = localStorage.getItem(STORAGE_KEYS.USER_PREFERENCES);
     const prefs = saved ? JSON.parse(saved) : {};]
    and the read of [prefs.confidenceMemory] that follows, which throws
    when the stored text parsed to [null]. [JSON_parse] may throw and
    yields [None] for [null]; [null_read] is the [TypeError] the engine
    throws on reading a property of [null]. The result [None] stands for
    the [{}] taken when the store holds nothing or the empty string. *)
Definition stored_preferences
    (stored : StorageRead)
    (JSON_parse : string -> Outcome (option UserPreferences))
    (null_read : JsError) : Outcome (option UserPreferences) :=
  match stored with
  | ReadFails e => Thrown e
  | ReadItem None => Returned None
  | ReadItem (Some saved) =>
      if truthy_str saved then
        match JSON_parse saved with
        | Thrown e => Thrown e
        | Returned None => Thrown null_read
        | Returned (Some prefs) => Returned (Some prefs)
        end
      else Returned None
  end.

(** [calculateCompositeConfidence] from its first line: the store is read
    and parsed, then the score is computed. *)
Definition calculateCompositeConfidence
    (stored : StorageRead)
    (JSON_parse : string -> Outcome (option UserPreferences))
    (null_read : JsError)
    (mlInventory : list Ingredient) (protocol : NeuralProtocol) : Outcome float :=
  match stored_preferences stored JSON_parse null_read with
  | Returned saved =>
      Returned (Fusion.calculateCompositeConfidence saved mlInventory protocol)
  | Thrown e => Thrown e
  end.

End FusionStore.

(* ===================================================================== *)
(** ** The service module ([services/geminiService.ts]) *)
(* ===================================================================== *)

Module Service.

Import JS.
Local Open Scope float_scope.
Local Open Scope string_scope.

(** [err?.message || ''] *)
Definition errorMsg_of (err : JsError) : string :=
  match message err with
  | Some m => m
  | None => ""
  end.

Definition logModeChange (source reason : string) (newState : bool) : M unit :=
  e <- read_env ;;
  if development e then emit (Warned "SYSTEM MODE CHANGE") else ret tt.

(** The classification made in the [catch] of [withRetry]. *)
Definition isQuotaExceeded (errorMsg : string) : bool :=
  includes (toLowerCase errorMsg) "quota"
  || includes errorMsg "429"
  || includes errorMsg "RESOURCE_EXHAUSTED".

Definition isTransient (errorMsg : string) : bool :=
  isQuotaExceeded errorMsg || includes errorMsg "500" || includes errorMsg "fetch".

(** [withRetry(fn, retries = 3, delay = 2000)]. [retries] is a count that
    the source only tests against zero and decrements. *)
Fixpoint withRetry {T} (fn : Attempt T) (retries : nat) (delay : float) : M T :=
  latched <- read_latch ;;
  if latched then throw (Error "SESSION_OFFLINE_FAILOVER") else
  try_catch (await_call fn) (fun err =>
    let errorMsg := errorMsg_of err in
    let quota := isQuotaExceeded errorMsg in
    let transient := isTransient errorMsg in
    (if quota then
       emit (Warned "[Gemini Handshake] Quota exceeded. Enabling session failover to Edge Compute.") ;;
       write_latch true ;;
       logModeChange "withRetry" "Quota exceeded on critical operation" true
     else ret tt) ;;
    match retries with
    | S retries' =>
        if transient && negb quota then
          emit (WarnedRetrying "[Gemini Handshake]" delay retries) ;;
          sleep delay ;;
          withRetry fn retries' (delay * 2)
        else throw err
    | O => throw err
    end).

(** The classification made in the [catch] of [withImageRetry]. *)
Definition isImageTransient (errorMsg : string) : bool :=
  includes errorMsg "500" || includes errorMsg "fetch" || includes errorMsg "timeout".

(** [withImageRetry(fn, retries = 2, delay = 1000)] *)
Fixpoint withImageRetry {T} (fn : Attempt T) (retries : nat) (delay : float) : M T :=
  try_catch (await_call fn) (fun err =>
    let errorMsg := errorMsg_of err in
    match retries with
    | S retries' =>
        if isImageTransient errorMsg then
          emit (WarnedRetrying "[Image Generation]" delay retries) ;;
          sleep delay ;;
          withImageRetry fn retries' (delay * 1.5)
        else throw err
    | O => throw err
    end).

Definition API_KEY_NOT_CONFIGURED : string := "Gemini API key not configured".

(** The second half of [resolveGeminiApiKey]: the stored key, else an
    error. *)
Definition resolveStoredKey : M string :=
  e <- read_env ;;
  match stored_GEMINI_API_KEY e with
  | ReadFails err => throw err
  | ReadItem (Some storedKey) =>
      if truthy_str storedKey then ret storedKey
      else throw (Error (API_KEY_NOT_CONFIGURED ++ ". Please add your API key in Settings."))
  | ReadItem None =>
      throw (Error (API_KEY_NOT_CONFIGURED ++ ". Please add your API key in Settings."))
  end.

(** [resolveGeminiApiKey]: the build-time key, else the stored key, else an
    error. The store is only read when the build-time key is falsy. *)
Definition resolveGeminiApiKey : M string :=
  e <- read_env ;;
  match VITE_GEMINI_API_KEY e with
  | Some envKey => if truthy_str envKey then ret envKey else resolveStoredKey
  | None => resolveStoredKey
  end.

(** [getAi]: builds the client from the resolved key. *)
Definition getAi : M unit :=
  apiKey <- resolveGeminiApiKey ;;
  ret tt.

Definition checkOnlineStatus : M bool :=
  latched <- read_latch ;;
  if latched then ret false else
  try_catch
    (key <- resolveGeminiApiKey ;;
     let hasKey := negb (negb (truthy_str key)) in
     e <- read_env ;;
     ret (navigator_onLine e && hasKey))
    (fun _ => ret false).

Definition resetHandshake : M unit :=
  write_latch false ;;
  logModeChange "resetHandshake" "Manual reset via settings or API key validation" false.

(** [s.replace(/```json\n?|```/g, "")]: [skip] characters of a match are
    still to be dropped. *)
Fixpoint strip_fences_from (skip : nat) (s : string) : string :=
  match s with
  | EmptyString => EmptyString
  | String c r =>
      match skip with
      | S k => strip_fences_from k r
      | O =>
          if String.prefix ("```json" ++ String (ascii_of_nat 10) "") s
          then strip_fences_from 7 r
          else if String.prefix "```json" s then strip_fences_from 6 r
          else if String.prefix "```" s then strip_fences_from 2 r
          else String c (strip_fences_from 0 r)
      end
  end.

Definition strip_fences (s : string) : string := strip_fences_from 0 s.

(** [a || b] on an optional string. *)
Definition or_str (a : option string) (b : string) : string :=
  match a with
  | Some x => if truthy_str x then x else b
  | None => b
  end.

(** Code this module calls and does not define. [JSON.parse] may throw;
    [fuseResults] comes from [../fusion/pipeline]; [random_id] stands for
    [Math.random().toString(36).substr(2, 9)] at a given moment. *)
Record Collaborators := mkCollaborators {
  JSON_parse_protocol : string -> Outcome NeuralProtocol;
  JSON_parse_hypotheses : string -> Outcome (list RecallHypothesis);
  JSON_parse_ingredients : string -> Outcome (list Ingredient);
  fuseResults : list Ingredient -> NeuralProtocol -> Outcome NeuralProtocol;
  (** Modelled from the spec: [synthesizeOfflineProtocol] lives in
      [./offlineService], which is not among the sources; the
      specification gives it as
      [OfflineSynthesize(ingredients, preferences) -> Protocol], a pure
      local fallback that never fails. *)
  synthesizeOfflineProtocol : list Ingredient -> UserPreferences -> NeuralProtocol;
  random_id : nat -> string
}.

(** Modelled from the spec: the offline generator of [./offlineService] is
    not among the sources; the specification says the offline path marks
    its Protocol with [isOffline = true]. *)
Definition offline_generator_marks (lib : Collaborators) : Prop :=
  forall ingredients preferences,
    isOffline (synthesizeOfflineProtocol lib ingredients preferences) = Some true.

Section Operations.

Variable lib : Collaborators.

(** [chunks?.map(chunk => chunk.web?.uri).filter(Boolean) || []] *)
Definition groundingSources_of (response : GenerateContentResponse) : list string :=
  match groundingChunks response with
  | Some chunks =>
      flat_map (fun uri =>
                  match uri with
                  | Some u => if truthy_str u then [u] else []
                  | None => []
                  end) chunks
  | None => []
  end.

Definition synthesizeProtocol
    (ingredients : list Ingredient) (preferences : UserPreferences)
    (remote : Attempt GenerateContentResponse) : M NeuralProtocol :=
  online <- checkOnlineStatus ;;
  if negb online then ret (synthesizeOfflineProtocol lib ingredients preferences) else
  try_catch
    (getAi ;;
     response <- withRetry remote 3 2000 ;;
     parsed <- lift (JSON_parse_protocol lib
                       (or_str (option_map strip_fences (text response)) "{}")) ;;
     n <- read_calls ;;
     let rawProtocol :=
       mkProtocol (random_id lib n) (title parsed) (description parsed)
                  (ingredients_used parsed) (instructions parsed)
                  (groundingSources_of response) (Some false) in
     lift (fuseResults lib ingredients rawProtocol))
    (fun err =>
       emit (Warned "[Synthesis] Handshake Failed. Reverting to edge node compute.") ;;
       ret (synthesizeOfflineProtocol lib ingredients preferences)).

Definition auditRecall
    (ingredients : list Ingredient)
    (remote : Attempt GenerateContentResponse) : M (list RecallHypothesis) :=
  online <- checkOnlineStatus ;;
  if negb online then ret [] else
  try_catch
    (getAi ;;
     response <- withRetry remote 3 2000 ;;
     lift (JSON_parse_hypotheses lib (or_str (text response) "[]")))
    (fun err =>
       emit (Errored "Recall Audit Error:") ;;
       ret []).

Definition refineManifestWithEnsemble
    (ingredients : list Ingredient)
    (remote : Attempt GenerateContentResponse) : M (list Ingredient) :=
  online <- checkOnlineStatus ;;
  if negb online then ret ingredients else
  try_catch
    (getAi ;;
     response <- withRetry remote 3 2000 ;;
     lift (JSON_parse_ingredients lib (or_str (text response) "[]")))
    (fun err =>
       emit (Errored "Manifest Fusion Error:") ;;
       ret ingredients).

End Operations.

(** The tail shared by the four image functions:
    [parts.find(p => p?.inlineData?.data)] and the data URL built from it,
    or [''] when no part carries data. *)
Definition image_data_url (response : GenerateContentResponse) : string :=
  let parts := match parts response with Some ps => ps | None => [] end in
  let imgPart :=
    find (fun p => match p with Some d => truthy_str d | None => false end) parts in
  match imgPart with
  | Some (Some data) =>
      if truthy_str data then "data:image/png;base64," ++ data else ""
  | _ => ""
  end.

Definition generatePlatingVisual
    (protocol : NeuralProtocol)
    (remote : Attempt GenerateContentResponse) : M string :=
  online <- checkOnlineStatus ;;
  if negb online then ret "" else
  try_catch
    (getAi ;;
     response <- withImageRetry remote 2 1000 ;;
     ret (image_data_url response))
    (fun err =>
       emit (Warned "[Image Generation] Plating visual failed:") ;;
       ret "").

Definition generateDrinkVisual
    (drinkName : string)
    (remote : Attempt GenerateContentResponse) : M string :=
  online <- checkOnlineStatus ;;
  if negb online then ret "" else
  try_catch
    (getAi ;;
     response <- withImageRetry remote 2 1000 ;;
     ret (image_data_url response))
    (fun err =>
       emit (Warned "[Image Generation] Drink visual failed:") ;;
       ret "").

Definition generateIngredientVisual
    (ingredientName : string)
    (remote : Attempt GenerateContentResponse) : M string :=
  online <- checkOnlineStatus ;;
  if negb online then ret "" else
  try_catch
    (getAi ;;
     response <- withImageRetry remote 2 1000 ;;
     ret (image_data_url response))
    (fun err =>
       emit (Warned "[Image Generation] Ingredient visual failed:") ;;
       ret "").

Definition generateSchematic
    (protocol : NeuralProtocol)
    (remote : Attempt GenerateContentResponse) : M string :=
  online <- checkOnlineStatus ;;
  if negb online then ret "" else
  try_catch
    (getAi ;;
     response <- withImageRetry remote 2 1000 ;;
     ret (image_data_url response))
    (fun err =>
       emit (Warned "[Image Generation] Schematic failed:") ;;
       ret "").

(** The calls a session is made of, and a change of the surroundings
    between two calls. *)
Inductive Call :=
| CallSynthesizeProtocol
    (ingredients : list Ingredient) (preferences : UserPreferences)
    (remote : Attempt GenerateContentResponse)
| CallAuditRecall
    (ingredients : list Ingredient) (remote : Attempt GenerateContentResponse)
| CallRefineManifest
    (ingredients : list Ingredient) (remote : Attempt GenerateContentResponse)
| CallPlatingVisual
    (protocol : NeuralProtocol) (remote : Attempt GenerateContentResponse)
| CallDrinkVisual
    (drinkName : string) (remote : Attempt GenerateContentResponse)
| CallIngredientVisual
    (ingredientName : string) (remote : Attempt GenerateContentResponse)
| CallSchematic
    (protocol : NeuralProtocol) (remote : Attempt GenerateContentResponse)
| CallCheckOnlineStatus
| CallResetHandshake
| SurroundingsChange (e : Env).

Definition is_reset (c : Call) : bool :=
  match c with
  | CallResetHandshake => true
  | _ => false
  end.

Definition perform (lib : Collaborators) (c : Call) (w : World) : World :=
  match c with
  | CallSynthesizeProtocol i p r => run_state (synthesizeProtocol lib i p r) w
  | CallAuditRecall i r => run_state (auditRecall lib i r) w
  | CallRefineManifest i r => run_state (refineManifestWithEnsemble lib i r) w
  | CallPlatingVisual p r => run_state (generatePlatingVisual p r) w
  | CallDrinkVisual d r => run_state (generateDrinkVisual d r) w
  | CallIngredientVisual i r => run_state (generateIngredientVisual i r) w
  | CallSchematic p r => run_state (generateSchematic p r) w
  | CallCheckOnlineStatus => run_state checkOnlineStatus w
  | CallResetHandshake => run_state resetHandshake w
  | SurroundingsChange e => mkWorld (sessionForceOffline w) e (calls w) (trace w)
  end.

Definition perform_all (lib : Collaborators) (cs : list Call) (w : World) : World :=
  fold_left (fun w c => perform lib c w) cs w.

(** The worlds [withRetry] leaves behind, case by case. *)

(** After one invocation of the remote call. *)
Definition after_call (w : World) : World :=
  mkWorld (sessionForceOffline w) (env w) (S (calls w)) (trace w ++ [Invoked]).

(** After one invocation that ended in a quota error: the latch is set. *)
Definition tripped (w : World) : World :=
  let warned :=
    ((trace w ++ [Invoked])
     ++ [Warned "[Gemini Handshake] Quota exceeded. Enabling session failover to Edge Compute."])%list in
  mkWorld true (env w) (S (calls w))
    (if development (env w) then (warned ++ [Warned "SYSTEM MODE CHANGE"])%list else warned).

(** After one invocation that ended in a retryable error and the sleep
    that follows it, when [retries] retries were left. *)
Definition backed_off (retries : nat) (delay : float) (w : World) : World :=
  mkWorld (sessionForceOffline w) (env w) (S (calls w))
    (((trace w ++ [Invoked]) ++ [WarnedRetrying "[Gemini Handshake]" delay retries])
     ++ [Slept delay])%list.

(** A credential resolves: the build-time key is a non-empty string, or
    the store can be read and holds a non-empty string. *)
Definition credentialPresent (e : Env) : bool :=
  match VITE_GEMINI_API_KEY e with
  | Some k => truthy_str k
  | None => false
  end
  || match stored_GEMINI_API_KEY e with
     | ReadItem (Some k) => truthy_str k
     | _ => false
     end.

(** The health signal as the specification computes it:
    [(networkUp AND credentialPresent) AND NOT failoverLatched]. *)
Definition reachable (w : World) : bool :=
  (navigator_onLine (env w) && credentialPresent (env w))
  && negb (sessionForceOffline w).

(** The world after one more line on the console. *)
Definition logged (ev : Event) (w : World) : World :=
  mkWorld (sessionForceOffline w) (env w) (calls w) (trace w ++ [ev]).

(** The warning [synthesizeProtocol] logs when it falls back. *)
Definition synthesis_failed : Event :=
  Warned "[Synthesis] Handshake Failed. Reverting to edge node compute.".

(** A computation leaves the latch alone at [w]: the latch and the answer
    of the health check are the same after it as before. *)
Definition leaves_latch {A} (stage : M A) (w : World) : Prop :=
  sessionForceOffline (run_state stage w) = sessionForceOffline w
  /\ run_value checkOnlineStatus (run_state stage w) = run_value checkOnlineStatus w.

(** A computation trips the latch at [w]: the latch is clear before and
    set after, and the health check answers [false] after. *)
Definition trips_latch {A} (stage : M A) (w : World) : Prop :=
  sessionForceOffline w = false
  /\ sessionForceOffline (run_state stage w) = true
  /\ run_value checkOnlineStatus (run_state stage w) = Returned false.

(** Whether the attempts [withRetry] makes, starting with invocation [k]
    and with [retries] retries left, run into a quota error. *)
Fixpoint meets_quota {T} (fn : Attempt T) (retries : nat) (k : nat) : bool :=
  match fn k with
  | Returned _ => false
  | Thrown e =>
      isQuotaExceeded (errorMsg_of e)
      || (isTransient (errorMsg_of e)
          && match retries with
             | S retries' => meets_quota fn retries' (S k)
             | O => false
             end)
  end.

(** The shape the four image functions share; they differ in the prompt
    they send and in the label of the warning they log. *)
Definition image_stage
    (label : string) (remote : Attempt GenerateContentResponse) : M string :=
  online <- checkOnlineStatus ;;
  if negb online then ret "" else
  try_catch
    (getAi ;;
     response <- withImageRetry remote 2 1000 ;;
     ret (image_data_url response))
    (fun err => emit (Warned label) ;; ret "").


End Service.

(* ===================================================================== *)
(** ** The second copy of the service module in the repository

    The repository holds another [geminiService.ts]. It has no
    [withImageRetry] and no [logModeChange]; its health check, key
    resolution and reset read as in the first copy, and its four image
    functions go through its [withRetry]. *)
(* ===================================================================== *)

Module Legacy.

Import JS.
Local Open Scope float_scope.
Local Open Scope string_scope.

Fixpoint withRetry {T} (fn : Attempt T) (retries : nat) (delay : float) : M T :=
  latched <- read_latch ;;
  if latched then throw (Error "SESSION_OFFLINE_FAILOVER") else
  try_catch (await_call fn) (fun err =>
    let errorMsg := Service.errorMsg_of err in
    let quota := Service.isQuotaExceeded errorMsg in
    let transient := Service.isTransient errorMsg in
    (if quota then
       emit (Warned "[Gemini Handshake] Quota exceeded. Enabling session failover to Edge Compute.") ;;
       write_latch true
     else ret tt) ;;
    match retries with
    | S retries' =>
        if transient && negb quota then
          emit (WarnedRetrying "[Gemini Handshake]" delay retries) ;;
          sleep delay ;;
          withRetry fn retries' (delay * 2)
        else throw err
    | O => throw err
    end).

Definition generatePlatingVisual
    (protocol : NeuralProtocol)
    (remote : Attempt GenerateContentResponse) : M string :=
  online <- Service.checkOnlineStatus ;;
  if negb online then ret "" else
  try_catch
    (Service.getAi ;;
     response <- withRetry remote 3 2000 ;;
     ret (Service.image_data_url response))
    (fun err => ret "").

Definition generateDrinkVisual
    (drinkName : string)
    (remote : Attempt GenerateContentResponse) : M string :=
  online <- Service.checkOnlineStatus ;;
  if negb online then ret "" else
  try_catch
    (Service.getAi ;;
     response <- withRetry remote 3 2000 ;;
     ret (Service.image_data_url response))
    (fun err => ret "").

Definition generateIngredientVisual
    (ingredientName : string)
    (remote : Attempt GenerateContentResponse) : M string :=
  online <- Service.checkOnlineStatus ;;
  if negb online then ret "" else
  try_catch
    (Service.getAi ;;
     response <- withRetry remote 3 2000 ;;
     ret (Service.image_data_url response))
    (fun err => ret "").

Definition generateSchematic
    (protocol : NeuralProtocol)
    (remote : Attempt GenerateContentResponse) : M string :=
  online <- Service.checkOnlineStatus ;;
  if negb online then ret "" else
  try_catch
    (Service.getAi ;;
     response <- withRetry remote 3 2000 ;;
     ret (Service.image_data_url response))
    (fun err => ret "").

(** The shape the four image functions of this copy share. *)
Definition image_stage (remote : Attempt GenerateContentResponse) : M string :=
  online <- Service.checkOnlineStatus ;;
  if negb online then ret "" else
  try_catch
    (Service.getAi ;;
     response <- withRetry remote 3 2000 ;;
     ret (Service.image_data_url response))
    (fun err => ret "").

End Legacy.

(* ===================================================================== *)
(** ** Sample session data *)
(* ===================================================================== *)

Definition sample_env : Env :=
  mkEnv (Some "AIza-sample-key"%string) (ReadItem None) true false.

(** A fresh session: latch clear, nothing called yet. *)
Definition fresh_world : World := mkWorld false sample_env 0 [].

(** A session whose latch is set. *)
Definition latched_world : World := mkWorld true sample_env 0 [].

Definition sample_response : GenerateContentResponse :=
  mkResponse (Some "[]"%string) None None.

(** A remote call that always answers. *)
Definition remote_ok : Attempt GenerateContentResponse :=
  fun _ => Returned sample_response.

(** A remote call that always fails with a rate-limit error. *)
Definition remote_quota : Attempt GenerateContentResponse :=
  fun _ => Thrown (Error "429 RESOURCE_EXHAUSTED: quota exceeded").

(** A remote call that always fails with a server error. *)
Definition remote_500 : Attempt GenerateContentResponse :=
  fun _ => Thrown (Error "500 Internal Server Error").

(** A remote call that always fails with an error that is neither. *)
Definition remote_denied : Attempt GenerateContentResponse :=
  fun _ => Thrown (Error "PERMISSION_DENIED").

Definition sample_preferences : UserPreferences :=
  mkPrefs "None" [] None None.

Definition offline_protocol : NeuralProtocol :=
  mkProtocol "offline" "Pantry plate" "Edge-computed" [] [] [] (Some true).

Definition sample_lib : Service.Collaborators :=
  Service.mkCollaborators
    (fun _ => Thrown (Error "Unexpected token"))
    (fun _ => Returned [])
    (fun _ => Returned [])
    (fun _ p => Returned p)
    (fun _ _ => offline_protocol)
    (fun _ => "abc123xyz"%string).

(* ===================================================================== *)
(** ** The rest of the service module ([services/geminiService.ts]) *)
(* ===================================================================== *)

Module ServiceRest.

Import JS Service.
Local Open Scope float_scope.
Local Open Scope string_scope.

(** What [verifyTechnique] returns; a parsed answer may lack either
    field. *)
Record TechniqueVerdict := mkVerdict {
  success : option bool;
  feedback : option string
}.

Record VisualBlueprint := mkBlueprint {
  plating : string;
  colors : string;
  textures : string;
  garnish : string;
  lighting : string;
  composition : string
}.

(** The channel data of a mono [AudioBuffer] at 24 kHz. *)
Definition AudioBuffer := list float.

(** Host functions the rest of the module calls. [JSON.parse] may throw
    and, for the blueprint, may yield [null]; [undefined_read] is the
    [TypeError] the engine throws on reading a property of [undefined];
    [new_AudioContext], [atob] and [createBuffer] are the browser's, each
    of which may throw ([atob] yields a string of bytes, [createBuffer]
    is given the number of frames). *)
Record Host := mkHost {
  JSON_parse_verdict : string -> Outcome TechniqueVerdict;
  JSON_parse_blueprint : string -> Outcome (option VisualBlueprint);
  undefined_read : JsError;
  new_AudioContext : Outcome unit;
  atob : string -> Outcome string;
  createBuffer : nat -> Outcome unit
}.

(** The immediately invoked
    [(() => { try { return resolveGeminiApiKey(); } catch { return undefined; } })()] *)
Definition resolvedKeyOrUndefined : M (option string) :=
  try_catch (k <- resolveGeminiApiKey ;; ret (Some k)) (fun _ => ret None).

(** [key || (...)()] *)
Definition apiKeyToTest (key : option string) : M (option string) :=
  match key with
  | Some k => if truthy_str k then ret (Some k) else resolvedKeyOrUndefined
  | None => resolvedKeyOrUndefined
  end.

(** [response.text?.toLowerCase().includes('ok') || false] *)
Definition answers_ok (response : GenerateContentResponse) : bool :=
  match text response with
  | Some t => includes (toLowerCase t) "ok"
  | None => false
  end.

(** [validateApiKey(key?)]. The test request goes straight to the client,
    not through a retry wrapper. *)
Definition validateApiKey
    (key : option string) (remote : Attempt GenerateContentResponse) : M bool :=
  toTest <- apiKeyToTest key ;;
  e <- read_env ;;
  if negb (match toTest with Some k => truthy_str k | None => false end)
     || negb (navigator_onLine e)
  then ret false else
  try_catch
    (response <- await_call remote ;;
     let isValid := answers_ok response in
     (if isValid then resetHandshake else ret tt) ;;
     ret isValid)
    (fun _ => ret false).

(** [withRetry] once more, for an arrow function that may throw before
    it reaches the service: [fn] is the whole body of the arrow function.
    [Service.withRetry] is the case of a body that is one remote call. *)
Fixpoint withRetry_thunk {T} (fn : M T) (retries : nat) (delay : float) : M T :=
  latched <- read_latch ;;
  if latched then throw (Error "SESSION_OFFLINE_FAILOVER") else
  try_catch fn (fun err =>
    let errorMsg := errorMsg_of err in
    let quota := isQuotaExceeded errorMsg in
    let transient := isTransient errorMsg in
    (if quota then
       emit (Warned "[Gemini Handshake] Quota exceeded. Enabling session failover to Edge Compute.") ;;
       write_latch true ;;
       logModeChange "withRetry" "Quota exceeded on critical operation" true
     else ret tt) ;;
    match retries with
    | S retries' =>
        if transient && negb quota then
          emit (WarnedRetrying "[Gemini Handshake]" delay retries) ;;
          sleep delay ;;
          withRetry_thunk fn retries' (delay * 2)
        else throw err
    | O => throw err
    end).

Section Assistants.

Variable host : Host.

Definition verifyTechnique
    (base64Image instruction : string)
    (remote : Attempt GenerateContentResponse) : M TechniqueVerdict :=
  online <- checkOnlineStatus ;;
  if negb online
  then ret (mkVerdict (Some true) (Some "Technique verified via edge ensemble models."))
  else
  try_catch
    (getAi ;;
     response <- withRetry remote 3 2000 ;;
     lift (JSON_parse_verdict host (or_str (text response) "{}")))
    (fun err =>
       ret (mkVerdict (Some true) (Some "Handshake stable via local logic."))).

(** The blueprint returned without asking the service. *)
Definition offline_blueprint : VisualBlueprint :=
  mkBlueprint
    "Minimalist composition with deliberate negative space"
    "Earthy tones with accent highlights"
    "Contrasting smooth and rough elements"
    "Fresh herb sprigs and microgreens"
    "Natural diffused overhead lighting"
    "Asymmetric balance following rule of thirds".

(** The blueprint returned when asking the service failed. *)
Definition fallback_blueprint : VisualBlueprint :=
  mkBlueprint
    "Artful arrangement with careful attention to spacing and height variation"
    "Rich, complementary color palette with visual depth"
    "Varied surface qualities from glossy sauces to matte garnishes"
    "Edible flowers, microgreens, and precise herb placement"
    "Studio-quality illumination highlighting key elements"
    "Balanced asymmetry with focal point emphasis".

Definition generateVisualBlueprint
    (dishName description : string)
    (remote : Attempt GenerateContentResponse) : M (option VisualBlueprint) :=
  online <- checkOnlineStatus ;;
  if negb online then ret (Some offline_blueprint) else
  try_catch
    (getAi ;;
     response <- withImageRetry remote 2 1000 ;;
     lift (JSON_parse_blueprint host (or_str (text response) "null")))
    (fun err =>
       emit (Warned "[Visual Blueprint] Generation failed:") ;;
       ret (Some fallback_blueprint)).

(** [protocol.instructions[stepIndex]]: [undefined] outside the array. *)
Definition step_at (protocol : NeuralProtocol) (stepIndex : Z) : option ProtocolStep :=
  if (stepIndex <? 0)%Z then None
  else nth_error (instructions protocol) (Z.to_nat stepIndex).

(** The arrow function [askSousChef] hands to [withRetry]: building the
    request reads [currentStep.instruction], which throws when
    [currentStep] is [undefined]; [generateContent] is then not called and
    nothing is sent. *)
Definition sousChef_request
    (currentStep : option ProtocolStep)
    (remote : Attempt GenerateContentResponse) : M GenerateContentResponse :=
  match currentStep with
  | Some _ => await_call remote
  | None => throw (undefined_read host)
  end.

Definition askSousChef
    (question : string) (protocol : NeuralProtocol) (stepIndex : Z)
    (remote : Attempt GenerateContentResponse) : M string :=
  online <- checkOnlineStatus ;;
  if negb online
  then ret "Local edge compute active. Focus on maintaining steady temperature and precision cuts for this technique."
  else
  try_catch
    (getAi ;;
     let currentStep := step_at protocol stepIndex in
     response <- withRetry_thunk (sousChef_request currentStep remote) 3 2000 ;;
     ret (or_str (text response) "I'm unable to provide advice at this moment."))
    (fun err =>
       ret "Neural handshake interrupted. Falling back to fundamental technique rules.").

(** One signed 16-bit sample from its two bytes, low byte first (typed
    arrays use the platform's byte order, little-endian on the platforms
    browsers run on), scaled by [/ 32768.0]. *)
Definition pcm16_sample (lo hi : ascii) : float :=
  let u := (Z.of_nat (nat_of_ascii lo) + 256 * Z.of_nat (nat_of_ascii hi))%Z in
  let i16 := if (32768 <=? u)%Z then (u - 65536)%Z else u in
  of_Z i16 / 32768.0.

(** The two loops of [synthesizeVoiceInstruction]: bytes to 16-bit
    samples to channel data. *)
Fixpoint pcm16_samples (binary : string) : list float :=
  match binary with
  | String lo (String hi rest) => pcm16_sample lo hi :: pcm16_samples rest
  | _ => []
  end.

(** From [new AudioContext] to [return buffer]. [new Int16Array(buffer)]
    throws a [RangeError] on an odd number of bytes. *)
Definition decodeAudio (base64Audio : string) : Outcome AudioBuffer :=
  match new_AudioContext host with
  | Thrown e => Thrown e
  | Returned _ =>
      match atob host base64Audio with
      | Thrown e => Thrown e
      | Returned binary =>
          if Nat.odd (String.length binary)
          then Thrown (Error "byte length of Int16Array should be a multiple of 2")
          else
            match createBuffer host (Nat.div2 (String.length binary)) with
            | Thrown e => Thrown e
            | Returned _ => Returned (pcm16_samples binary)
            end
      end
  end.

(** [response.candidates?.[0]?.content?.parts?.[0]?.inlineData?.data] *)
Definition first_part_data (response : GenerateContentResponse) : option string :=
  match parts response with
  | Some (p :: _) => p
  | _ => None
  end.

(** The [try] block of [synthesizeVoiceInstruction]. *)
Definition requestVoice
    (remote : Attempt GenerateContentResponse) : M AudioBuffer :=
  getAi ;;
  response <- withRetry remote 3 2000 ;;
  match first_part_data response with
  | Some base64Audio =>
      if truthy_str base64Audio then lift (decodeAudio base64Audio)
      else throw (Error "TTS_NULL")
  | None => throw (Error "TTS_NULL")
  end.

(** [synthesizeVoiceInstruction(text)]. The second component of the state
    lists what [window.speechSynthesis.speak] was given, oldest first. *)
Definition synthesizeVoiceInstruction
    (spokenText : string) (remote : Attempt GenerateContentResponse)
    (state : World * list string) : Outcome AudioBuffer * (World * list string) :=
  let '(w, spoken) := state in
  match checkOnlineStatus w with
  | (Returned true, w0) =>
      match requestVoice remote w0 with
      | (Returned buffer, w1) => (Returned buffer, (w1, spoken))
      | (Thrown err, w1) => (Thrown err, (w1, (spoken ++ [spokenText])%list))
      end
  | (Returned false, w0) =>
      (Thrown (Error "LocalTTS_Active"), (w0, (spoken ++ [spokenText])%list))
  | (Thrown err, w0) => (Thrown err, (w0, spoken))
  end.

End Assistants.

End ServiceRest.

(* ===================================================================== *)
(** ** The vision service ([services/geminiVision.ts]) *)
(* ===================================================================== *)

Module Vision.

Import JS.
Local Open Scope float_scope.
Local Open Scope string_scope.

(** A parsed analysis; any field may be missing from what the service
    sent. A missing or falsy [ingredients] is [None]. *)
Record FoodAnalysisResult := mkAnalysis {
  ingredients : option (list string);
  cuisine : option string;
  cookingStyle : option string;
  freshness : option string;
  visualDescription : option string;
  generatedImage : option string
}.

(** This file's own [withRetry]: the same classification as the service
    module's, and no latch. *)
Fixpoint withRetry {T} (fn : Attempt T) (retries : nat) (delay : float) : M T :=
  try_catch (await_call fn) (fun err =>
    let errorMsg := Service.errorMsg_of err in
    let quota := Service.isQuotaExceeded errorMsg in
    let transient := Service.isTransient errorMsg in
    match retries with
    | S retries' =>
        if transient && negb quota then
          emit (WarnedRetrying "[Gemini Vision]" delay retries) ;;
          sleep delay ;;
          withRetry fn retries' (delay * 2)
        else throw err
    | O => throw err
    end).

(** This file's own [getAi]: it reads [process.env.API_KEY], which the
    build replaces by a constant. *)
Definition getAi (API_KEY : option string) : M unit :=
  match API_KEY with
  | Some k => if truthy_str k then ret tt else throw (Error "API_KEY_NULL")
  | None => throw (Error "API_KEY_NULL")
  end.

Definition getFallbackAnalysis : FoodAnalysisResult :=
  mkAnalysis
    (Some ["unknown"])
    (Some "Mixed")
    (Some "varied")
    (Some "analysis unavailable - offline mode")
    (Some "A culinary composition awaiting detailed analysis. Visual assessment requires online connectivity.")
    None.

(** ToBoolean of an optional string field. *)
Definition present (field : option string) : bool :=
  match field with
  | Some v => truthy_str v
  | None => false
  end.

(** [!analysis.ingredients || !analysis.cuisine || !analysis.cookingStyle] *)
Definition invalid_structure (analysis : FoodAnalysisResult) : bool :=
  negb (match ingredients analysis with Some _ => true | None => false end)
  || negb (present (cuisine analysis))
  || negb (present (cookingStyle analysis)).

Section Analysis.

(** The build-time key; [JSON.parse], which may throw or yield [null]
    ([None]); the [TypeError] of a property read on [null]. *)
Variable API_KEY : option string.
Variable JSON_parse_analysis : string -> Outcome (option FoodAnalysisResult).
Variable null_read : JsError.

(** [analyzeFoodImage(imageBase64)]. The health check is the service
    module's. The [console.log] of a completed analysis is not part of the
    trace, which records warnings and errors. *)
Definition analyzeFoodImage
    (imageBase64 : string)
    (remote : Attempt GenerateContentResponse) : M FoodAnalysisResult :=
  online <- Service.checkOnlineStatus ;;
  if negb online then
    emit (Warned "[Gemini Vision] Offline mode - returning fallback analysis") ;;
    ret getFallbackAnalysis
  else
  try_catch
    (getAi API_KEY ;;
     response <- withRetry remote 3 2000 ;;
     let analysisText := Service.or_str (text response) "{}" in
     parsed <- lift (JSON_parse_analysis analysisText) ;;
     match parsed with
     | None => throw null_read
     | Some analysis =>
         if invalid_structure analysis then
           emit (Warned "[Gemini Vision] Invalid response structure, using fallback") ;;
           ret getFallbackAnalysis
         else ret analysis
     end)
    (fun err =>
       emit (Errored "[Gemini Vision] Analysis failed:") ;;
       ret getFallbackAnalysis).

End Analysis.

End Vision.

(* ===================================================================== *)
(** ** Progress steps of the components ([updateStep]) *)
(* ===================================================================== *)

Module Progress.

Local Open Scope string_scope.

Inductive StepStatus := pending | active | complete | failed.

Record AnalysisStep := mkAnalysisStep {
  step_id : string;
  label : string;
  status : StepStatus
}.

(** [prev.map(s => s.id === id ? { ...s, status } : s)], the function
    [updateStep] hands to [setSteps]. *)
Definition updateStep (id : string) (newStatus : StepStatus)
    (prev : list AnalysisStep) : list AnalysisStep :=
  map (fun s =>
         if String.eqb (step_id s) id
         then mkAnalysisStep (step_id s) (label s) newStatus
         else s) prev.

Definition SYNTHESIS_STEPS : list AnalysisStep :=
  [ mkAnalysisStep "manifest" "Alignment" pending;
    mkAnalysisStep "plating" "Plating" pending;
    mkAnalysisStep "sommelier" "Sommelier" pending;
    mkAnalysisStep "blueprint" "Blueprint" pending;
    mkAnalysisStep "procurement" "Procurement" pending ].

Definition INITIAL_STEPS : list AnalysisStep :=
  [ mkAnalysisStep "detect" "Optical Initialization" pending;
    mkAnalysisStep "segment" "Boundary Refinement" pending;
    mkAnalysisStep "audit" "Semantic Recall Audit" pending;
    mkAnalysisStep "rescan" "Targeted Re-scan" pending;
    mkAnalysisStep "fuse" "Manifest Fusion" pending;
    mkAnalysisStep "vision" "Vision Analysis" pending ].

End Progress.

(* ===================================================================== *)
(** ** Vocabulary for statements about whole sessions *)
(* ===================================================================== *)

(** No invocation of the remote call ends in an error that [withRetry]
    classifies as quota exceeded. *)
Definition never_quota {T} (fn : Attempt T) : Prop :=
  forall k e, fn k = Thrown e ->
              Service.isQuotaExceeded (Service.errorMsg_of e) = false.

(** Every invocation of the remote call ends in an error that [withRetry]
    retries: transient and not quota exceeded. *)
Definition always_retryable {T} (fn : Attempt T) : Prop :=
  forall k, exists e,
    fn k = Thrown e
    /\ Service.isQuotaExceeded (Service.errorMsg_of e) = false
    /\ Service.isTransient (Service.errorMsg_of e) = true.

(** A call whose remote service never answers with a quota error; calls
    that do not go through [withRetry] qualify as they are. *)
Definition quota_free (c : Service.Call) : Prop :=
  match c with
  | Service.CallSynthesizeProtocol _ _ remote => never_quota remote
  | Service.CallAuditRecall _ remote => never_quota remote
  | Service.CallRefineManifest _ remote => never_quota remote
  | _ => True
  end.

(** A call of any function the service module exports: the staged
    operations, the image functions, the health check, the reset and a
    change of the surroundings (as [Staged]), and the rest of the
    module. *)
Inductive Request :=
| Staged (c : Service.Call)
| CallResolveGeminiApiKey
| CallValidateApiKey
    (key : option string) (remote : Attempt GenerateContentResponse)
| CallVerifyTechnique
    (base64Image instruction : string) (remote : Attempt GenerateContentResponse)
| CallVisualBlueprint
    (dishName description : string) (remote : Attempt GenerateContentResponse)
| CallAskSousChef
    (question : string) (protocol : NeuralProtocol) (stepIndex : Z)
    (remote : Attempt GenerateContentResponse)
| CallVoiceInstruction
    (spokenText : string) (remote : Attempt GenerateContentResponse).

(** One request against a session: the world and what the browser's
    speech synthesis was given so far. *)
Definition request
    (lib : Service.Collaborators) (host : ServiceRest.Host)
    (r : Request) (session : World * list string) : World * list string :=
  match r with
  | Staged c => (Service.perform lib c (fst session), snd session)
  | CallResolveGeminiApiKey =>
      (run_state Service.resolveGeminiApiKey (fst session), snd session)
  | CallValidateApiKey key remote =>
      (run_state (ServiceRest.validateApiKey key remote) (fst session), snd session)
  | CallVerifyTechnique image instruction remote =>
      (run_state (ServiceRest.verifyTechnique host image instruction remote)
         (fst session), snd session)
  | CallVisualBlueprint dishName description remote =>
      (run_state (ServiceRest.generateVisualBlueprint host dishName description remote)
         (fst session), snd session)
  | CallAskSousChef question protocol stepIndex remote =>
      (run_state (ServiceRest.askSousChef host question protocol stepIndex remote)
         (fst session), snd session)
  | CallVoiceInstruction spokenText remote =>
      snd (ServiceRest.synthesizeVoiceInstruction host spokenText remote
             (fst session, snd session))
  end.

Definition requests
    (lib : Service.Collaborators) (host : ServiceRest.Host)
    (rs : list Request) (session : World * list string) : World * list string :=
  fold_left (fun session r => request lib host r session) rs session.

(** A request in which nothing [withRetry] wraps can end in an error it
    classifies as quota exceeded: neither an answer of the service nor,
    for a sous-chef question about a step that does not exist, the
    engine's own error. Requests that do not go through [withRetry]
    qualify as they are. *)
Definition quota_free_request (host : ServiceRest.Host) (r : Request) : Prop :=
  match r with
  | Staged c => quota_free c
  | CallVerifyTechnique _ _ remote => never_quota remote
  | CallAskSousChef _ protocol stepIndex remote =>
      match ServiceRest.step_at protocol stepIndex with
      | Some _ => never_quota remote
      | None =>
          Service.isQuotaExceeded
            (Service.errorMsg_of (ServiceRest.undefined_read host)) = false
      end
  | CallVoiceInstruction _ remote => never_quota remote
  | _ => True
  end.

(** The remote invocations a trace records. *)
Fixpoint invocations (tr : list Event) : nat :=
  match tr with
  | [] => 0
  | Invoked :: rest => S (invocations rest)
  | _ :: rest => invocations rest
  end.

(** The sleeps of a trace, oldest first. *)
Fixpoint sleeps (tr : list Event) : list float :=
  match tr with
  | [] => []
  | Slept ms :: rest => ms :: sleeps rest
  | _ :: rest => sleeps rest
  end.

(** The world after one invocation that ended in a retryable error and
    the sleep that follows it, for the wrapper that logs under [wrapper]. *)
Definition retried (wrapper : string) (retries : nat) (delay : float) (w : World) : World :=
  mkWorld (sessionForceOffline w) (env w) (S (calls w))
    (((trace w ++ [Invoked]) ++ [WarnedRetrying wrapper delay retries])
     ++ [Slept delay]).

(** The delays of [n] successive retries that start at [delay] and grow by
    [factor]. *)
Fixpoint backoff_delays (factor : float) (n : nat) (delay : float) : list float :=
  match n with
  | O => []
  | S n' => delay :: backoff_delays factor n' (delay * factor)%float
  end.

(** Every invocation of the remote call ends in an error that
    [withImageRetry] retries. *)
Definition always_image_retryable {T} (fn : Attempt T) : Prop :=
  forall k, exists e,
    fn k = Thrown e /\ Service.isImageTransient (Service.errorMsg_of e) = true.

(** A key [validateApiKey] can test: the one it is given, if non-empty,
    or else one that resolves. *)
Definition key_to_test (key : option string) (e : Env) : bool :=
  match key with
  | Some k => JS.truthy_str k
  | None => false
  end
  || Service.credentialPresent e.

(** A host whose engine words the property-read error as V8 does, whose
    [atob] stands for an already decoded payload and whose [createBuffer]
    refuses an empty buffer. *)
Definition sample_host : ServiceRest.Host :=
  ServiceRest.mkHost
    (fun _ => Thrown (Error "Unexpected end of JSON input"))
    (fun _ => Returned None)
    (Error "Cannot read properties of undefined (reading 'instruction')")
    (Returned tt)
    (fun payload => Returned payload)
    (fun frames => match frames with
                   | O => Thrown (Error "NotSupportedError")
                   | S _ => Returned tt
                   end).

(** A host whose [JSON.parse] reads the text [{}] as the empty object and
    rejects everything else. *)
Definition braces_host : ServiceRest.Host :=
  ServiceRest.mkHost
    (fun s => if String.eqb s "{}"
              then Returned (ServiceRest.mkVerdict None None)
              else Thrown (Error "Unexpected token"))
    (fun _ => Returned None)
    (Error "Cannot read properties of undefined (reading 'instruction')")
    (Returned tt)
    (fun payload => Returned payload)
    (fun _ => Returned tt).

(** A channel value a [Float32Array] sample of PCM audio may take: at
    least -1 and below 1. *)
Definition unit_sample (x : float) : bool :=
  (PrimFloat.leb (-1)%float x && PrimFloat.ltb x 1%float)%bool.

(** All 256 byte values. *)
Definition all_bytes : list ascii := map ascii_of_nat (seq 0 256).

(** The error line [analyzeFoodImage] logs when it falls back. *)
Definition analysis_failed : Event := Errored "[Gemini Vision] Analysis failed:".

(** The latch after a stage that reaches the service through the critical
    [withRetry] with the default budget: set before, or reachable and
    running into a quota error. *)
Definition latch_after_critical
    (remote : Attempt GenerateContentResponse) (w : World) : bool :=
  sessionForceOffline w
  || (Service.reachable w && Service.meets_quota remote 3 (calls w)).

(** A string an image function may return: nothing, or a PNG data URL with
    a payload. *)
Definition url_or_nothing (url : string) : Prop :=
  url = EmptyString
  \/ exists data, data <> EmptyString
                  /\ url = String.append "data:image/png;base64," data.

(** A collaborator set whose parser accepts every answer as one fixed
    protocol and whose fusion returns what it is given. *)
Definition accepting_lib : Service.Collaborators :=
  Service.mkCollaborators
    (fun _ => Returned (sample_protocol 4 ["tomato"%string]))
    (fun _ => Returned [])
    (fun _ => Returned [])
    (fun _ p => Returned p)
    (fun _ _ => offline_protocol)
    (fun _ => "abc123xyz"%string).

(* ===================================================================== *)
(** A service that answers 500 twice and then replies. *)
Definition remote_flaky : Attempt GenerateContentResponse :=
  fun k => if (k <? 2)%nat
           then Thrown (Error "500 Internal Server Error")
           else Returned sample_response.

(** * Properties *)
(* ===================================================================== *)

(** ** Facts about binary64 arithmetic *)

Section FloatFacts.

Local Open Scope float_scope.

Lemma float_mul_comm (x y : float) : x * y = y * x.
Proof.
  apply Prim2SF_inj. rewrite !mul_spec. unfold SF64mul.
  destruct (Prim2SF x) as [sx|sx| |sx mx ex], (Prim2SF y) as [sy|sy| |sy my ey];
    cbn [SFmul]; rewrite ?(xorb_comm sx sy); try reflexivity.
  now rewrite (Pos.mul_comm mx my), (Z.add_comm ex ey).
Qed.

Lemma float_add_nan_r (x : float) : x + nan = nan.
Proof.
  apply Prim2SF_inj. rewrite add_spec.
  change (Prim2SF nan) with S754_nan. unfold SF64add.
  destruct (Prim2SF x) as [sx|sx| |sx mx ex]; reflexivity.
Qed.

Lemma of_nat_small_not_nan (n : nat) :
  (n <= 100)%nat -> PrimFloat.is_nan (JS.of_nat n) = false.
Proof.
  intros Hn.
  assert (H : forallb (fun k => negb (PrimFloat.is_nan (JS.of_nat k))) (seq 0 101) = true)
    by (vm_compute; reflexivity).
  rewrite forallb_forall in H.
  specialize (H n). rewrite negb_true_iff in H.
  apply H, in_seq. lia.
Qed.

(** [v || 0] is [v] for a number that is neither NaN nor the negative
    zero. *)
Lemma or_else_plain (v : float) : Formula.plain_count v -> JS.or_else v 0 = v.
Proof.
  intros [Hnan Hneg]. unfold JS.or_else, JS.truthy. rewrite Hnan. cbn [orb].
  destruct (PrimFloat.is_zero v) eqn:Hz; [|reflexivity]. cbn [negb].
  unfold PrimFloat.is_zero in Hz. rewrite eqb_spec in Hz.
  change (Prim2SF zero) with (S754_zero false) in Hz.
  rewrite <- (SF2Prim_Prim2SF v) in Hneg |- *.
  destruct (Prim2SF v) as [[|]| [|] | |[|] m e]; try discriminate Hz.
  - now elim Hneg.
  - reflexivity.
Qed.

Lemma get_property_In obj key v :
  get_property obj key = Some v -> exists k, In (k, v) obj.
Proof.
  induction obj as [|[k x] rest IH]; [discriminate|].
  cbn [get_property]. destruct (String.eqb k key).
  - intros [= ->]. exists k. now left.
  - intros H. destruct (IH H) as [k' Hin]. exists k'. now right.
Qed.

End FloatFacts.

(** ** Confidence fusion *)

Section FusionFacts.

Import Fusion JS.
Local Open Scope float_scope.
Local Open Scope string_scope.

Lemma mlConfidence_empty (memory : NumberRecord) : mlConfidence memory [] = 1.
Proof. reflexivity. Qed.

Lemma constraintSatisfaction_no_references mlInventory protocol :
  ingredients_used protocol = [] ->
  constraintSatisfaction mlInventory protocol = nan.
Proof.
  intros H. unfold constraintSatisfaction, hallucinations. rewrite H.
  reflexivity.
Qed.

Lemma not_score_nan (x : float) : PrimFloat.is_nan x = true -> ~ is_score x.
Proof.
  intros Hx (n & Hn & ->).
  rewrite (of_nat_small_not_nan n Hn) in Hx. discriminate.
Qed.

(** An ingredient that is not confirmed and has no remembered
    confirmations scores its raw confidence, capped at 1. *)
Lemma item_score_plain memory curr :
  verificationStatus curr <> Some confirmed ->
  lookup memory (toLowerCase (name curr)) = Undefined ->
  item_score memory curr = Math_min (confidence curr + 0) 1.
Proof.
  intros Hv Hm. unfold item_score, memory_count. rewrite Hm.
  destruct (verificationStatus curr) as [[ | | ]|]; try reflexivity.
  now elim Hv.
Qed.

(** C4. [calculateCompositeConfidence] is claimed to return an integer in
    [0,100] on every input, with a perception term of 1.0 for an empty
    ingredient list and a constraint term of 1.0 for a protocol that
    references no ingredient. The first convention holds. The second does
    not: with an empty [ingredients_used] the division is 0/0, the
    constraint term is NaN ([Math.max(0, NaN)] is NaN), and the function
    returns NaN for every inventory and every such protocol. *)
Theorem calculateCompositeConfidence_NaN_without_references :
  forall (saved : option UserPreferences)
         (mlInventory : list Ingredient) (protocol : NeuralProtocol),
    ingredients_used protocol = [] ->
    mlConfidence (memory_of saved) [] = 1
    /\ constraintSatisfaction mlInventory protocol = nan
    /\ PrimFloat.is_nan (calculateCompositeConfidence saved mlInventory protocol) = true
    /\ ~ is_score (calculateCompositeConfidence saved mlInventory protocol).
Proof.
  intros saved mlInventory protocol Hused.
  assert (Hnan : calculateCompositeConfidence saved mlInventory protocol = nan).
  { unfold calculateCompositeConfidence.
    rewrite (constraintSatisfaction_no_references _ _ Hused).
    change (0.2 * nan) with nan.
    rewrite float_add_nan_r. reflexivity. }
  repeat split.
  - now apply constraintSatisfaction_no_references.
  - now rewrite Hnan.
  - apply not_score_nan. now rewrite Hnan.
Qed.

(** The failing input of C4, evaluated: one tomato at confidence 0.6 and a
    five-step protocol that references nothing. *)
Lemma calculateCompositeConfidence_NaN_without_references_witness :
  ingredients_used (sample_protocol 5 []) = []
  /\ PrimFloat.is_nan
       (calculateCompositeConfidence None [sample_ingredient "tomato" 0.6]
          (sample_protocol 5 [])) = true.
Proof.
  split; [reflexivity|].
  apply (calculateCompositeConfidence_NaN_without_references
           None [sample_ingredient "tomato" 0.6] (sample_protocol 5 [])).
  reflexivity.
Defined.

(** The code's terms against the specification's, one by one. *)

Lemma memory_count_confirmations saved nm :
  (forall prefs remembered,
      saved = Some prefs -> confidenceMemory prefs = Some remembered ->
      Forall (fun entry => Formula.plain_count (snd entry)) remembered) ->
  existsb (String.eqb (toLowerCase nm)) Object_prototype_keys = false ->
  memory_count (memory_of saved) (toLowerCase nm) = Formula.confirmations saved nm.
Proof.
  intros Hplain Hown.
  unfold memory_count, lookup, memory_of, Formula.confirmations.
  destruct saved as [prefs|]; [destruct (confidenceMemory prefs) as [m|] eqn:Hm|];
    try (cbn [get_property]; now rewrite Hown).
  destruct (get_property m (toLowerCase nm)) as [v|] eqn:Hv; [|now rewrite Hown].
  apply or_else_plain.
  destruct (get_property_In _ _ _ Hv) as [k Hin].
  pose proof (Hplain prefs m eq_refl Hm) as Hall.
  rewrite Forall_forall in Hall. exact (Hall _ Hin).
Qed.

Lemma item_score_item saved i :
  (forall prefs remembered,
      saved = Some prefs -> confidenceMemory prefs = Some remembered ->
      Forall (fun entry => Formula.plain_count (snd entry)) remembered) ->
  existsb (String.eqb (toLowerCase (name i))) Object_prototype_keys = false ->
  item_score (memory_of saved) i = Formula.item saved i.
Proof.
  intros Hplain Hown. unfold item_score, Formula.item.
  rewrite (memory_count_confirmations saved (name i) Hplain Hown).
  now rewrite (float_mul_comm (Formula.confirmations saved (name i)) 0.02).
Qed.

Lemma score_sum_total saved inventory :
  (forall prefs remembered,
      saved = Some prefs -> confidenceMemory prefs = Some remembered ->
      Forall (fun entry => Formula.plain_count (snd entry)) remembered) ->
  Forall (fun i => existsb (String.eqb (toLowerCase (name i)))
                     Object_prototype_keys = false) inventory ->
  forall acc,
    fold_left (fun acc curr => acc + item_score (memory_of saved) curr) inventory acc
    = Formula.total saved inventory acc.
Proof.
  intros Hplain Hown.
  induction Hown as [|i rest Hi Hrest IH]; intros acc; [reflexivity|].
  cbn [fold_left Formula.total].
  now rewrite (item_score_item saved i Hplain Hi), IH.
Qed.

Lemma has_perceived inventory referenced :
  has (mlNames inventory) (toLowerCase referenced)
  = Formula.perceived inventory referenced.
Proof.
  unfold has, mlNames, Formula.perceived.
  induction inventory as [|i rest IH]; [reflexivity|].
  cbn [map existsb]. now rewrite IH, String.eqb_sym.
Qed.

Lemma hallucinations_missing inventory referenced :
  List.length (filter (fun ing => negb (has (mlNames inventory) (toLowerCase ing)))
                 referenced)
  = Formula.missing inventory referenced.
Proof.
  induction referenced as [|r rest IH]; [reflexivity|].
  cbn [filter Formula.missing]. rewrite has_perceived.
  destruct (Formula.perceived inventory r); cbn [negb List.length]; now rewrite IH.
Qed.

Lemma geminiCoherence_coherence protocol :
  geminiCoherence protocol = Formula.coherence protocol.
Proof.
  unfold geminiCoherence, Formula.coherence.
  destruct (Nat.ltb_spec 3 (List.length (instructions protocol))) as [H|H];
    destruct (Nat.leb_spec (List.length (instructions protocol)) 3) as [H'|H'];
    solve [reflexivity | lia].
Qed.

(** C5. The score is claimed to be [round(100 x (0.5 x perception + 0.3 x
    coherence + 0.2 x constraint))] with the three terms of the
    specification. On every regular input (the protocol references an
    ingredient, the average score is neither zero nor NaN, remembered
    counts are plain numbers, no ingredient bears an inherited property
    name) each term of the code is the specification's term and the
    result is the specification's composite; the coherence term is 1.0 for
    more than three instruction steps and 0.7 otherwise; and one
    unconfirmed "tomato" at 0.6 without memory bias against a five-step
    protocol that references only "tomato" scores exactly 80. Off the
    regular inputs the code leaves the formula: the same tomato against a
    five-step protocol that references nothing scores NaN where the
    formula gives 80, and a tomato at confidence 0 scores 100 where the
    formula gives 50. *)
Theorem calculateCompositeConfidence_against_formula :
  forall (saved : option UserPreferences)
         (mlInventory : list Ingredient) (protocol : NeuralProtocol),
    (Formula.regular saved mlInventory protocol ->
     mlConfidence (memory_of saved) mlInventory = Formula.perception saved mlInventory
     /\ geminiCoherence protocol = Formula.coherence protocol
     /\ constraintSatisfaction mlInventory protocol
        = Formula.constraint mlInventory protocol
     /\ calculateCompositeConfidence saved mlInventory protocol
        = Formula.composite saved mlInventory protocol)
    /\ ((3 < List.length (instructions protocol))%nat -> geminiCoherence protocol = 1.0)
    /\ ((List.length (instructions protocol) <= 3)%nat -> geminiCoherence protocol = 0.7)
    /\ (forall tomato : Ingredient,
          mlInventory = [tomato] ->
          name tomato = "tomato" ->
          confidence tomato = 0.6 ->
          verificationStatus tomato <> Some confirmed ->
          get_property (memory_of saved) "tomato" = None ->
          List.length (instructions protocol) = 5%nat ->
          ingredients_used protocol = ["tomato"] ->
          calculateCompositeConfidence saved mlInventory protocol = 80
          /\ Formula.composite saved mlInventory protocol = 80)
    /\ (PrimFloat.is_nan
          (calculateCompositeConfidence None [sample_ingredient "tomato" 0.6]
             (sample_protocol 5 [])) = true
        /\ Formula.composite None [sample_ingredient "tomato" 0.6]
             (sample_protocol 5 []) = 80)
    /\ (calculateCompositeConfidence None [sample_ingredient "tomato" 0]
          (sample_protocol 5 ["tomato"]) = 100
        /\ Formula.composite None [sample_ingredient "tomato" 0]
             (sample_protocol 5 ["tomato"]) = 50).
Proof.
  intros saved mlInventory protocol.
  split; [|split; [|split; [|split; [|split]]]].
  - intros (Hused & Havg & Hplain & Hown).
    assert (Hp : mlConfidence (memory_of saved) mlInventory
                 = Formula.perception saved mlInventory).
    { unfold Formula.perception in *. destruct mlInventory as [|i rest];
        [reflexivity|].
      unfold mlConfidence, score_sum.
      rewrite (score_sum_total saved (i :: rest) Hplain Hown).
      unfold or_else. now rewrite Havg. }
    assert (Hc : constraintSatisfaction mlInventory protocol
                 = Formula.constraint mlInventory protocol).
    { unfold constraintSatisfaction, hallucinations, Formula.constraint.
      rewrite hallucinations_missing.
      destruct (ingredients_used protocol); [now elim Hused|reflexivity]. }
    split; [exact Hp|]. split; [apply geminiCoherence_coherence|].
    split; [exact Hc|].
    unfold calculateCompositeConfidence, Formula.composite.
    rewrite Hp, Hc, geminiCoherence_coherence. now rewrite float_mul_comm.
  - intros H. unfold geminiCoherence.
    apply Nat.ltb_lt in H. now rewrite H.
  - intros H. unfold geminiCoherence.
    apply Nat.ltb_ge in H. now rewrite H.
  - intros tomato -> Hname Hconf Hstatus Hmem Hsteps Hused.
    assert (Hcount : Formula.confirmations saved (name tomato) = 0).
    { unfold Formula.confirmations. unfold memory_of in Hmem. rewrite Hname.
      destruct saved as [prefs|]; [|reflexivity].
      destruct (confidenceMemory prefs) as [m|]; [|reflexivity].
      change (toLowerCase "tomato") with "tomato". now rewrite Hmem. }
    split.
    + unfold calculateCompositeConfidence, mlConfidence, score_sum,
        geminiCoherence, constraintSatisfaction, hallucinations, mlNames.
      cbn [fold_left List.length map].
      rewrite item_score_plain;
        [|assumption|unfold lookup; rewrite Hname;
                     change (toLowerCase "tomato") with "tomato"; now rewrite Hmem].
      rewrite Hconf, Hsteps, Hused, Hname.
      vm_compute. reflexivity.
    + unfold Formula.composite, Formula.perception, Formula.coherence,
        Formula.constraint, Formula.item.
      cbn [Formula.total List.length]. unfold Formula.item. rewrite Hcount.
      assert (Hraised : match verificationStatus tomato with
                        | Some confirmed => Math_max (confidence tomato) 0.85
                        | _ => confidence tomato
                        end = 0.6).
      { destruct (verificationStatus tomato) as [[ | | ]|]; try exact Hconf.
        now elim Hstatus. }
      rewrite Hraised, Hsteps, Hused.
      cbn [Formula.missing Formula.perceived existsb]. rewrite Hname.
      vm_compute. reflexivity.
  - split; vm_compute; reflexivity.
  - split; vm_compute; reflexivity.
Qed.

(** Scenario A on concrete data: a regular input, on which the code and
    the formula agree on 80. *)
Lemma calculateCompositeConfidence_against_formula_witness :
  Formula.regular None [sample_ingredient "tomato" 0.6] (sample_protocol 5 ["tomato"])
  /\ calculateCompositeConfidence None [sample_ingredient "tomato" 0.6]
       (sample_protocol 5 ["tomato"])
     = Formula.composite None [sample_ingredient "tomato" 0.6]
         (sample_protocol 5 ["tomato"])
  /\ calculateCompositeConfidence None [sample_ingredient "tomato" 0.6]
       (sample_protocol 5 ["tomato"]) = 80.
Proof.
  assert (Hreg : Formula.regular None [sample_ingredient "tomato" 0.6]
                   (sample_protocol 5 ["tomato"])).
  { split; [discriminate|]. split; [vm_compute; reflexivity|].
    split; [discriminate|]. repeat constructor. }
  pose proof (calculateCompositeConfidence_against_formula None
                [sample_ingredient "tomato" 0.6] (sample_protocol 5 ["tomato"]))
    as (Hagree & _ & _ & Htomato & _).
  split; [exact Hreg|]. split.
  - exact (proj2 (proj2 (proj2 (Hagree Hreg)))).
  - apply (Htomato (sample_ingredient "tomato" 0.6));
      solve [reflexivity | discriminate].
Defined.

(** C10. There is a non-empty ingredient list whose perception term is 1.0
    although the average of its scores is 0: a single unconfirmed
    ingredient at confidence 0 without memory bias. The computed average 0
    is falsy, so [|| 1] replaces it, and the composite score is 50 points
    above what the averaging formula gives (100 against 50 for a five-step
    protocol that references only that ingredient, 91 against 41 for a
    three-step one). *)
Theorem zero_average_perception_becomes_one :
  exists mlInventory : list Ingredient,
    mlInventory <> []
    /\ Forall (fun i => confidence i = 0 /\ verificationStatus i = None) mlInventory
    /\ score_sum [] mlInventory / of_nat (List.length mlInventory) = 0
    /\ perception_average [] mlInventory = 0
    /\ mlConfidence [] mlInventory = 1
    /\ calculateCompositeConfidence None mlInventory (sample_protocol 5 ["tomato"]) = 100
    /\ composite_by_average None mlInventory (sample_protocol 5 ["tomato"]) = 50
    /\ calculateCompositeConfidence None mlInventory (sample_protocol 3 ["tomato"]) = 91
    /\ composite_by_average None mlInventory (sample_protocol 3 ["tomato"]) = 41.
Proof.
  exists [sample_ingredient "tomato" 0].
  split; [discriminate|].
  split; [repeat constructor|].
  repeat split; vm_compute; reflexivity.
Qed.

End FusionFacts.

(** ** The health check and the reset *)

Section HealthFacts.

Import Service JS.

(** Key resolution never changes the world; it returns a non-empty key
    exactly when a credential is present. *)
Lemma resolveGeminiApiKey_reads (w : World) :
  (exists key, resolveGeminiApiKey w = (Returned key, w)
               /\ truthy_str key = true
               /\ credentialPresent (env w) = true)
  \/ (exists e, resolveGeminiApiKey w = (Thrown e, w)
                /\ credentialPresent (env w) = false).
Proof.
  destruct w as [latch [envKey stored online dev] n tr].
  unfold resolveGeminiApiKey, resolveStoredKey, credentialPresent, bind, read_env, ret, throw.
  cbn [env VITE_GEMINI_API_KEY stored_GEMINI_API_KEY].
  destruct envKey as [k|]; [destruct (truthy_str k) eqn:Hk|].
  - left. exists k. split; [reflexivity | split; [assumption | reflexivity]].
  - destruct stored as [e|[s|]]; [| destruct (truthy_str s) eqn:Hs |]; cbn;
      rewrite ?Hs; solve [left; eauto | right; eauto].
  - destruct stored as [e|[s|]]; [| destruct (truthy_str s) eqn:Hs |]; cbn;
      rewrite ?Hs; solve [left; eauto | right; eauto].
Qed.

Lemma checkOnlineStatus_eq (w : World) :
  checkOnlineStatus w
  = (Returned (reachable w), w).
Proof.
  unfold reachable, checkOnlineStatus, bind at 1, read_latch.
  destruct (sessionForceOffline w) eqn:Hl.
  - cbn. unfold ret. now rewrite andb_false_r.
  - unfold try_catch, bind, read_env, ret.
    destruct (resolveGeminiApiKey_reads w) as [(key & -> & Hk & Hc)|(e & -> & Hc)];
      rewrite Hc.
    + rewrite Hk. cbn. now rewrite !andb_true_r.
    + cbn. now rewrite andb_false_r.
Qed.

Lemma getAi_reads (w : World) :
  (getAi w = (Returned tt, w) /\ credentialPresent (env w) = true)
  \/ (exists e, getAi w = (Thrown e, w) /\ credentialPresent (env w) = false).
Proof.
  unfold getAi, bind, ret.
  destruct (resolveGeminiApiKey_reads w) as [(key & -> & Hk & Hc)|(e & -> & Hc)];
    eauto.
Qed.

End HealthFacts.

(** ** The critical retry wrapper *)

Section RetryFacts.

Import Service JS.
Local Open Scope float_scope.
Local Open Scope string_scope.

Context {T : Type}.
Implicit Types (fn : Attempt T) (w : World) (retries : nat) (delay : float).

Local Ltac run_retry Hlatch Hfn :=
  cbn [withRetry];
  unfold bind at 1, read_latch; rewrite Hlatch;
  unfold try_catch at 1, await_call; rewrite Hfn.

Lemma withRetry_latched fn retries delay w :
  sessionForceOffline w = true ->
  withRetry fn retries delay w = (Thrown (Error "SESSION_OFFLINE_FAILOVER"), w).
Proof.
  intros Hlatch.
  destruct retries; cbn [withRetry]; unfold bind at 1, read_latch;
    rewrite Hlatch; reflexivity.
Qed.

Lemma withRetry_returned fn retries delay w v :
  sessionForceOffline w = false ->
  fn (calls w) = Returned v ->
  withRetry fn retries delay w = (Returned v, after_call w).
Proof.
  intros Hlatch Hfn.
  destruct retries; run_retry Hlatch Hfn; reflexivity.
Qed.

Lemma withRetry_quota fn retries delay w e :
  sessionForceOffline w = false ->
  fn (calls w) = Thrown e ->
  isQuotaExceeded (errorMsg_of e) = true ->
  withRetry fn retries delay w = (Thrown e, tripped w).
Proof.
  intros Hlatch Hfn Hq.
  destruct retries; run_retry Hlatch Hfn; rewrite Hq;
    destruct w as [latch [envKey stored online dev] n tr];
    destruct dev; rewrite ?andb_false_r; reflexivity.
Qed.

Lemma withRetry_retry fn retries delay w e :
  sessionForceOffline w = false ->
  fn (calls w) = Thrown e ->
  isQuotaExceeded (errorMsg_of e) = false ->
  isTransient (errorMsg_of e) = true ->
  withRetry fn (S retries) delay w
  = withRetry fn retries (delay * 2) (backed_off (S retries) delay w).
Proof.
  intros Hlatch Hfn Hq Ht.
  run_retry Hlatch Hfn. rewrite Hq, Ht.
  reflexivity.
Qed.

Lemma withRetry_giveup fn retries delay w e :
  sessionForceOffline w = false ->
  fn (calls w) = Thrown e ->
  isQuotaExceeded (errorMsg_of e) = false ->
  isTransient (errorMsg_of e) = false \/ retries = 0%nat ->
  withRetry fn retries delay w = (Thrown e, after_call w).
Proof.
  intros Hlatch Hfn Hq Hstop.
  destruct retries as [|r]; run_retry Hlatch Hfn; rewrite Hq.
  - reflexivity.
  - destruct Hstop as [Ht|Hr]; [|discriminate].
    rewrite Ht. reflexivity.
Qed.

End RetryFacts.

(** ** What a call may do to the latch *)

Section LatchFacts.

Import Service JS.
Local Open Scope float_scope.
Local Open Scope string_scope.

Lemma withRetry_latch_env {T} (fn : Attempt T) retries : forall delay w,
  sessionForceOffline (run_state (withRetry fn retries delay) w)
  = sessionForceOffline w || meets_quota fn retries (calls w)
  /\ env (run_state (withRetry fn retries delay) w) = env w.
Proof.
  unfold run_state.
  induction retries as [|r IH]; intros delay w.
  all: destruct (sessionForceOffline w) eqn:Hlatch.
  all: try (rewrite withRetry_latched by assumption; cbn [snd]; now rewrite Hlatch).
  all: cbn [orb meets_quota].
  all: destruct (fn (calls w)) as [v|e] eqn:Hfn.
  all: try (rewrite (withRetry_returned _ _ _ _ _ Hlatch Hfn); now cbn).
  all: destruct (isQuotaExceeded (errorMsg_of e)) eqn:Hq.
  all: try (rewrite (withRetry_quota _ _ _ _ _ Hlatch Hfn Hq); now cbn).
  all: cbn [orb].
  - rewrite (withRetry_giveup _ _ _ _ _ Hlatch Hfn Hq) by now right.
    cbn. now rewrite andb_false_r.
  - destruct (isTransient (errorMsg_of e)) eqn:Ht.
    + rewrite (withRetry_retry _ _ _ _ _ Hlatch Hfn Hq Ht).
      destruct (IH (delay * 2) (backed_off (S r) delay w)) as [-> ->].
      cbn. now rewrite Hlatch.
    + rewrite (withRetry_giveup _ _ _ _ _ Hlatch Hfn Hq) by now left.
      now cbn.
Qed.

Lemma withImageRetry_latch_env {T} (fn : Attempt T) retries : forall delay w,
  sessionForceOffline (run_state (withImageRetry fn retries delay) w)
  = sessionForceOffline w
  /\ env (run_state (withImageRetry fn retries delay) w) = env w.
Proof.
  unfold run_state.
  induction retries as [|r IH]; intros delay w; cbn [withImageRetry];
    unfold try_catch, await_call;
    destruct (fn (calls w)) as [v|e]; try (now cbn).
  destruct (isImageTransient (errorMsg_of e)); [|now cbn].
  unfold bind, sleep, emit.
  cbn [sessionForceOffline env calls trace].
  apply (IH (delay * 1.5)
            (mkWorld (sessionForceOffline w) (env w) (S (calls w))
               (((trace w ++ [Invoked])
                 ++ [WarnedRetrying "[Image Generation]" delay (S r)])
                ++ [Slept delay])%list)).
Qed.

End LatchFacts.

(** ** The staged operations, unfolded *)

Section StageFacts.

Import Service JS.
Local Open Scope float_scope.
Local Open Scope string_scope.

Variable lib : Collaborators.

Lemma reachable_credential (w : World) :
  reachable w = true -> getAi w = (Returned tt, w).
Proof.
  unfold reachable. intros H.
  destruct (getAi_reads w) as [[-> _]|(e & _ & Hc)]; [reflexivity|].
  rewrite Hc, andb_false_r in H. discriminate.
Qed.

Lemma reachable_unlatched (w : World) :
  reachable w = true -> sessionForceOffline w = false.
Proof.
  unfold reachable. intros H.
  apply andb_true_iff in H as [_ H]. now apply negb_true_iff in H.
Qed.

Local Ltac enter_stage w Hon :=
  unfold bind at 1; rewrite checkOnlineStatus_eq;
  destruct (reachable w) eqn:Hon; cbn [negb];
  [ unfold try_catch, bind; rewrite (reachable_credential w Hon) | reflexivity ].

Lemma auditRecall_eq ingredients remote w :
  auditRecall lib ingredients remote w
  = if reachable w then
      match withRetry remote 3 2000 w with
      | (Returned response, w') =>
          match JSON_parse_hypotheses lib (or_str (text response) "[]") with
          | Returned hs => (Returned hs, w')
          | Thrown _ => (Returned [], logged (Errored "Recall Audit Error:") w')
          end
      | (Thrown _, w') => (Returned [], logged (Errored "Recall Audit Error:") w')
      end
    else (Returned [], w).
Proof.
  unfold auditRecall. enter_stage w Hon.
  destruct (withRetry remote 3 2000 w) as [[response|e] w']; [|reflexivity].
  unfold lift. destruct (JSON_parse_hypotheses lib _); reflexivity.
Qed.

Lemma refineManifestWithEnsemble_eq ingredients remote w :
  refineManifestWithEnsemble lib ingredients remote w
  = if reachable w then
      match withRetry remote 3 2000 w with
      | (Returned response, w') =>
          match JSON_parse_ingredients lib (or_str (text response) "[]") with
          | Returned refined => (Returned refined, w')
          | Thrown _ => (Returned ingredients, logged (Errored "Manifest Fusion Error:") w')
          end
      | (Thrown _, w') => (Returned ingredients, logged (Errored "Manifest Fusion Error:") w')
      end
    else (Returned ingredients, w).
Proof.
  unfold refineManifestWithEnsemble. enter_stage w Hon.
  destruct (withRetry remote 3 2000 w) as [[response|e] w']; [|reflexivity].
  unfold lift. destruct (JSON_parse_ingredients lib _); reflexivity.
Qed.

Lemma synthesizeProtocol_eq ingredients preferences remote w :
  synthesizeProtocol lib ingredients preferences remote w
  = if reachable w then
      match withRetry remote 3 2000 w with
      | (Returned response, w') =>
          match JSON_parse_protocol lib
                  (or_str (option_map strip_fences (text response)) "{}") with
          | Returned parsed =>
              match fuseResults lib ingredients
                      (mkProtocol (random_id lib (calls w')) (title parsed)
                         (description parsed) (ingredients_used parsed)
                         (instructions parsed) (groundingSources_of response)
                         (Some false)) with
              | Returned fused => (Returned fused, w')
              | Thrown _ =>
                  (Returned (synthesizeOfflineProtocol lib ingredients preferences),
                   logged synthesis_failed w')
              end
          | Thrown _ =>
              (Returned (synthesizeOfflineProtocol lib ingredients preferences),
               logged synthesis_failed w')
          end
      | (Thrown _, w') =>
          (Returned (synthesizeOfflineProtocol lib ingredients preferences),
           logged synthesis_failed w')
      end
    else (Returned (synthesizeOfflineProtocol lib ingredients preferences), w).
Proof.
  unfold synthesizeProtocol. enter_stage w Hon.
  destruct (withRetry remote 3 2000 w) as [[response|e] w']; [|reflexivity].
  unfold lift, read_calls. destruct (JSON_parse_protocol lib _); [|reflexivity].
  destruct (fuseResults lib _ _); reflexivity.
Qed.

Lemma image_stage_eq label remote w :
  image_stage label remote w
  = if reachable w then
      match withImageRetry remote 2 1000 w with
      | (Returned response, w') => (Returned (image_data_url response), w')
      | (Thrown _, w') => (Returned "", logged (Warned label) w')
      end
    else (Returned "", w).
Proof.
  unfold image_stage. enter_stage w Hon.
  destruct (withImageRetry remote 2 1000 w) as [[response|e] w']; reflexivity.
Qed.

Lemma legacy_image_stage_eq remote w :
  Legacy.image_stage remote w
  = if reachable w then
      match Legacy.withRetry remote 3 2000 w with
      | (Returned response, w') => (Returned (image_data_url response), w')
      | (Thrown _, w') => (Returned "", w')
      end
    else (Returned "", w).
Proof.
  unfold Legacy.image_stage. enter_stage w Hon.
  destruct (Legacy.withRetry remote 3 2000 w) as [[response|e] w']; reflexivity.
Qed.

End StageFacts.

(** ** The latch across whole calls *)

Section SessionFacts.

Import Service JS.
Local Open Scope float_scope.
Local Open Scope string_scope.

Variable lib : Collaborators.

Lemma latched_unreachable (w : World) :
  sessionForceOffline w = true -> reachable w = false.
Proof. unfold reachable. intros ->. apply andb_false_r. Qed.

(** The four image functions are instances of the shared shape. *)
Lemma image_functions_shape protocol name remote :
  generatePlatingVisual protocol remote
  = image_stage "[Image Generation] Plating visual failed:" remote
  /\ generateDrinkVisual name remote
     = image_stage "[Image Generation] Drink visual failed:" remote
  /\ generateIngredientVisual name remote
     = image_stage "[Image Generation] Ingredient visual failed:" remote
  /\ generateSchematic protocol remote
     = image_stage "[Image Generation] Schematic failed:" remote.
Proof. repeat split. Qed.

Lemma legacy_image_functions_shape protocol name remote :
  Legacy.generatePlatingVisual protocol remote = Legacy.image_stage remote
  /\ Legacy.generateDrinkVisual name remote = Legacy.image_stage remote
  /\ Legacy.generateIngredientVisual name remote = Legacy.image_stage remote
  /\ Legacy.generateSchematic protocol remote = Legacy.image_stage remote.
Proof. repeat split. Qed.

(** An image call of the service module leaves the latch and the
    surroundings as they were, so the health check answers as before. *)
Lemma image_stage_frame label remote w :
  sessionForceOffline (run_state (image_stage label remote) w) = sessionForceOffline w
  /\ env (run_state (image_stage label remote) w) = env w
  /\ reachable (run_state (image_stage label remote) w) = reachable w.
Proof.
  assert (H : sessionForceOffline (run_state (image_stage label remote) w)
              = sessionForceOffline w
              /\ env (run_state (image_stage label remote) w) = env w).
  { unfold run_state. rewrite image_stage_eq.
    destruct (reachable w); [|now cbn].
    pose proof (withImageRetry_latch_env remote 2 1000 w) as Hframe.
    unfold run_state in Hframe.
    destruct (withImageRetry remote 2 1000 w) as [[response|e] w']; exact Hframe. }
  destruct H as [Hl He]. repeat split; try assumption.
  unfold reachable. now rewrite Hl, He.
Qed.

(** Every modelled stage that goes through [withRetry] sets the latch
    exactly when it is reachable and its attempts meet a quota error. *)
Lemma critical_stage_latch {A} (stage : M A) remote w
    (on_success : GenerateContentResponse -> World -> Outcome A * World)
    (on_failure : World -> Outcome A * World) (fallback : Outcome A) :
  (forall r w', sessionForceOffline (snd (on_success r w')) = sessionForceOffline w'
                /\ env (snd (on_success r w')) = env w') ->
  (forall w', sessionForceOffline (snd (on_failure w')) = sessionForceOffline w'
              /\ env (snd (on_failure w')) = env w') ->
  stage w = (if reachable w then
               match withRetry remote 3 2000 w with
               | (Returned r, w') => on_success r w'
               | (Thrown _, w') => on_failure w'
               end
             else (fallback, w)) ->
  sessionForceOffline (run_state stage w)
  = sessionForceOffline w || (reachable w && meets_quota remote 3 (calls w))
  /\ env (run_state stage w) = env w.
Proof.
  intros Hs Hf Heq. unfold run_state. rewrite Heq.
  destruct (reachable w); cbn [andb snd].
  - destruct (withRetry_latch_env remote 3 2000 w) as [Hl He].
    unfold run_state in Hl, He.
    destruct (withRetry remote 3 2000 w) as [[r|e] w']; cbn [snd] in Hl, He.
    + destruct (Hs r w') as [-> ->]. now rewrite Hl, He.
    + destruct (Hf w') as [-> ->]. now rewrite Hl, He.
  - now rewrite orb_false_r.
Qed.

Lemma auditRecall_latch ingredients remote w :
  sessionForceOffline (run_state (auditRecall lib ingredients remote) w)
  = sessionForceOffline w || (reachable w && meets_quota remote 3 (calls w))
  /\ env (run_state (auditRecall lib ingredients remote) w) = env w.
Proof.
  eapply critical_stage_latch with
    (on_success := fun response w' =>
       match JSON_parse_hypotheses lib (or_str (text response) "[]") with
       | Returned hs => (Returned hs, w')
       | Thrown _ => (Returned [], logged (Errored "Recall Audit Error:") w')
       end)
    (on_failure := fun w' => (Returned [], logged (Errored "Recall Audit Error:") w')).
  - intros r w'. destruct (JSON_parse_hypotheses lib _); now cbn.
  - now cbn.
  - apply auditRecall_eq.
Qed.

Lemma refineManifestWithEnsemble_latch ingredients remote w :
  sessionForceOffline (run_state (refineManifestWithEnsemble lib ingredients remote) w)
  = sessionForceOffline w || (reachable w && meets_quota remote 3 (calls w))
  /\ env (run_state (refineManifestWithEnsemble lib ingredients remote) w) = env w.
Proof.
  eapply critical_stage_latch with
    (on_success := fun response w' =>
       match JSON_parse_ingredients lib (or_str (text response) "[]") with
       | Returned refined => (Returned refined, w')
       | Thrown _ => (Returned ingredients, logged (Errored "Manifest Fusion Error:") w')
       end)
    (on_failure := fun w' =>
       (Returned ingredients, logged (Errored "Manifest Fusion Error:") w')).
  - intros r w'. destruct (JSON_parse_ingredients lib _); now cbn.
  - now cbn.
  - apply refineManifestWithEnsemble_eq.
Qed.

Lemma synthesizeProtocol_latch ingredients preferences remote w :
  sessionForceOffline (run_state (synthesizeProtocol lib ingredients preferences remote) w)
  = sessionForceOffline w || (reachable w && meets_quota remote 3 (calls w))
  /\ env (run_state (synthesizeProtocol lib ingredients preferences remote) w) = env w.
Proof.
  unfold run_state. rewrite synthesizeProtocol_eq.
  destruct (reachable w); cbn [andb snd]; [|now rewrite orb_false_r].
  destruct (withRetry_latch_env remote 3 2000 w) as [Hl He].
  unfold run_state in Hl, He.
  destruct (withRetry remote 3 2000 w) as [[r|e] w']; cbn [snd] in Hl, He;
    [destruct (JSON_parse_protocol lib _); [destruct (fuseResults lib _ _)|]|];
    cbn [snd logged sessionForceOffline env]; split; assumption.
Qed.

(** A call other than the reset never clears a latch that is set. *)
Lemma perform_keeps_latch (c : Call) (w : World) :
  is_reset c = false ->
  sessionForceOffline w = true ->
  sessionForceOffline (perform lib c w) = true.
Proof.
  intros Hc Hl.
  destruct c; cbn [perform]; try discriminate.
  - destruct (synthesizeProtocol_latch ingredients preferences remote w) as [-> _].
    now rewrite Hl.
  - destruct (auditRecall_latch ingredients remote w) as [-> _]. now rewrite Hl.
  - destruct (refineManifestWithEnsemble_latch ingredients remote w) as [-> _].
    now rewrite Hl.
  - rewrite <- Hl.
    exact (proj1 (image_stage_frame "[Image Generation] Plating visual failed:" remote w)).
  - rewrite <- Hl.
    exact (proj1 (image_stage_frame "[Image Generation] Drink visual failed:" remote w)).
  - rewrite <- Hl.
    exact (proj1 (image_stage_frame "[Image Generation] Ingredient visual failed:" remote w)).
  - rewrite <- Hl.
    exact (proj1 (image_stage_frame "[Image Generation] Schematic failed:" remote w)).
  - unfold run_state. now rewrite checkOnlineStatus_eq.
  - exact Hl.
Qed.

Lemma perform_all_keeps_latch (cs : list Call) : forall w,
  forallb (fun c => negb (is_reset c)) cs = true ->
  sessionForceOffline w = true ->
  sessionForceOffline (perform_all lib cs w) = true.
Proof.
  unfold perform_all.
  induction cs as [|c cs IH]; intros w Hcs Hl; [exact Hl|].
  cbn [forallb] in Hcs. apply andb_true_iff in Hcs as [Hc Hcs].
  cbn [fold_left]. apply IH; [exact Hcs|].
  apply perform_keeps_latch; [now apply negb_true_iff|exact Hl].
Qed.

Lemma resetHandshake_eq (w : World) :
  resetHandshake w
  = (Returned tt,
     mkWorld false (env w) (calls w)
       (if development (env w)
        then (trace w ++ [Warned "SYSTEM MODE CHANGE"])%list
        else trace w)).
Proof.
  unfold resetHandshake, logModeChange, bind, write_latch, read_env, emit, ret.
  cbn [env sessionForceOffline calls trace].
  destruct (development (env w)); reflexivity.
Qed.

End SessionFacts.

(** ** Claims about the resilience layer *)

Section ResilienceClaims.

Import Service JS.
Local Open Scope float_scope.
Local Open Scope string_scope.

Lemma image_stage_leaves_latch label remote w :
  leaves_latch (image_stage label remote) w.
Proof.
  destruct (image_stage_frame label remote w) as (Hl & _ & Hr).
  split; [exact Hl|].
  unfold run_value. rewrite !checkOnlineStatus_eq. cbn [fst]. now rewrite Hr.
Qed.

(** The image functions of the service module, measured against the
    asset-path rule: whatever the attempt throws, the latch and the answer
    of the health check are what they were before the call. *)
Lemma image_functions_keep_latch protocol name remote w :
  Forall (fun stage => leaves_latch stage w)
    [ generatePlatingVisual protocol remote;
      generateDrinkVisual name remote;
      generateIngredientVisual name remote;
      generateSchematic protocol remote ]
  /\ forall retries delay,
       sessionForceOffline (run_state (withImageRetry remote retries delay) w)
       = sessionForceOffline w.
Proof.
  split.
  - repeat apply Forall_cons; [| | | |apply Forall_nil].
    + exact (image_stage_leaves_latch "[Image Generation] Plating visual failed:" remote w).
    + exact (image_stage_leaves_latch "[Image Generation] Drink visual failed:" remote w).
    + exact (image_stage_leaves_latch "[Image Generation] Ingredient visual failed:" remote w).
    + exact (image_stage_leaves_latch "[Image Generation] Schematic failed:" remote w).
  - intros retries delay. apply withImageRetry_latch_env.
Qed.

Lemma legacy_withRetry_quota {T} (fn : Attempt T) retries delay w e :
  sessionForceOffline w = false ->
  fn (calls w) = Thrown e ->
  isQuotaExceeded (errorMsg_of e) = true ->
  Legacy.withRetry fn retries delay w
  = (Thrown e,
     mkWorld true (env w) (S (calls w))
       ((trace w ++ [Invoked])
        ++ [Warned "[Gemini Handshake] Quota exceeded. Enabling session failover to Edge Compute."])%list).
Proof.
  intros Hlatch Hfn Hq.
  destruct retries; cbn [Legacy.withRetry];
    unfold bind at 1, read_latch; rewrite Hlatch;
    unfold try_catch at 1, await_call; rewrite Hfn, Hq;
    rewrite ?andb_false_r; reflexivity.
Qed.

(** C1. An image-generation call must not set the failover latch, whatever
    its attempt throws. The service module keeps to this (see
    [image_functions_keep_latch]). The repository's second copy of the
    module does not: its four image functions call [withRetry], so a
    quota error from the image service sets [sessionForceOffline] and
    turns the health check from [true] to [false]. *)
Theorem legacy_image_call_trips_latch :
  forall (protocol : NeuralProtocol) (name : string)
         (remote : Attempt GenerateContentResponse) (w : World) (e : JsError),
    run_value checkOnlineStatus w = Returned true ->
    remote (calls w) = Thrown e ->
    isQuotaExceeded (errorMsg_of e) = true ->
    Forall (fun stage : M string => trips_latch stage w)
      [ Legacy.generatePlatingVisual protocol remote;
        Legacy.generateDrinkVisual name remote;
        Legacy.generateIngredientVisual name remote;
        Legacy.generateSchematic protocol remote ].
Proof.
  intros protocol name remote w e Hon Hfn Hq.
  unfold run_value in Hon. rewrite checkOnlineStatus_eq in Hon. cbn [fst] in Hon.
  assert (Hr : reachable w = true) by congruence.
  pose proof (reachable_unlatched w Hr) as Hl.
  assert (Hstage : trips_latch (Legacy.image_stage remote) w).
  { assert (Ht : sessionForceOffline (run_state (Legacy.image_stage remote) w) = true).
    { unfold run_state. rewrite legacy_image_stage_eq, Hr.
      now rewrite (legacy_withRetry_quota remote 3 2000 w e Hl Hfn Hq). }
    repeat split; try assumption.
    unfold run_value. rewrite checkOnlineStatus_eq. cbn [fst]. f_equal.
    now apply latched_unreachable. }
  repeat apply Forall_cons; [| | | |apply Forall_nil]; exact Hstage.
Qed.

(** The failing input of C1: a fresh online session and an image service
    that answers 429. *)
Lemma legacy_image_call_trips_latch_witness :
  sessionForceOffline fresh_world = false
  /\ sessionForceOffline
       (run_state (Legacy.generatePlatingVisual offline_protocol remote_quota)
          fresh_world) = true.
Proof.
  pose proof (legacy_image_call_trips_latch offline_protocol "Chablis"
                remote_quota fresh_world
                (Error "429 RESOURCE_EXHAUSTED: quota exceeded")
                eq_refl eq_refl eq_refl) as H.
  apply Forall_inv in H. destruct H as (H1 & H2 & _). split; assumption.
Defined.

(** C2. [withRetry] implements the critical retry policy. With the latch
    set it throws at once and invokes nothing. With the latch clear: a
    quota error sets the latch and is rethrown after that single
    invocation; a transient error that is not a quota error, with retries
    left, is followed by a sleep of the current delay and a retry with the
    delay doubled and one retry fewer; any other error is rethrown after
    that single invocation. And once the latch is set, after any sequence
    of calls without a reset, a critical call still throws at once,
    leaving the world (its invocation count included) untouched. *)
Theorem withRetry_critical_policy :
  forall (T : Type) (fn : Attempt T) (retries : nat) (delay : float) (w : World),
    (sessionForceOffline w = true ->
       withRetry fn retries delay w
       = (Thrown (Error "SESSION_OFFLINE_FAILOVER"), w))
    /\ (sessionForceOffline w = false ->
        (forall v, fn (calls w) = Returned v ->
           withRetry fn retries delay w = (Returned v, after_call w))
        /\ (forall e, fn (calls w) = Thrown e ->
              isQuotaExceeded (errorMsg_of e) = true ->
              withRetry fn retries delay w = (Thrown e, tripped w)
              /\ sessionForceOffline (tripped w) = true
              /\ calls (tripped w) = S (calls w))
        /\ (forall e, fn (calls w) = Thrown e ->
              isQuotaExceeded (errorMsg_of e) = false ->
              isTransient (errorMsg_of e) = true ->
              withRetry fn (S retries) delay w
              = withRetry fn retries (delay * 2) (backed_off (S retries) delay w))
        /\ (forall e, fn (calls w) = Thrown e ->
              isQuotaExceeded (errorMsg_of e) = false ->
              isTransient (errorMsg_of e) = false \/ retries = 0%nat ->
              withRetry fn retries delay w = (Thrown e, after_call w)))
    /\ (sessionForceOffline w = true ->
        forall (lib : Collaborators) (cs : list Call),
          forallb (fun c => negb (is_reset c)) cs = true ->
          withRetry fn retries delay (perform_all lib cs w)
          = (Thrown (Error "SESSION_OFFLINE_FAILOVER"), perform_all lib cs w)).
Proof.
  intros T fn retries delay w. split; [|split].
  - apply withRetry_latched.
  - intros Hlatch. repeat split.
    + intros v Hfn. now apply withRetry_returned.
    + now apply withRetry_quota.
    + intros e. now apply withRetry_retry.
    + intros e. now apply withRetry_giveup.
  - intros Hlatch lib cs Hcs.
    apply withRetry_latched. now apply perform_all_keeps_latch.
Qed.

(** The policy on concrete sessions: a latched session; a quota error; a
    server error with retries left; an error of neither kind. *)
Lemma withRetry_critical_policy_witness :
  withRetry remote_ok 3 2000 latched_world
  = (Thrown (Error "SESSION_OFFLINE_FAILOVER"), latched_world)
  /\ withRetry remote_quota 3 2000 fresh_world
     = (Thrown (Error "429 RESOURCE_EXHAUSTED: quota exceeded"), tripped fresh_world)
  /\ withRetry remote_500 3 2000 fresh_world
     = withRetry remote_500 2 (2000 * 2) (backed_off 3 2000 fresh_world)
  /\ withRetry remote_denied 3 2000 fresh_world
     = (Thrown (Error "PERMISSION_DENIED"), after_call fresh_world)
  /\ withRetry remote_ok 3 2000
       (perform_all sample_lib
          [CallAuditRecall [] remote_ok; CallCheckOnlineStatus] latched_world)
     = (Thrown (Error "SESSION_OFFLINE_FAILOVER"),
        perform_all sample_lib
          [CallAuditRecall [] remote_ok; CallCheckOnlineStatus] latched_world).
Proof.
  split; [|split; [|split; [|split]]].
  - apply (withRetry_critical_policy _ remote_ok 3 2000 latched_world).
    reflexivity.
  - apply (withRetry_critical_policy _ remote_quota 3 2000 fresh_world);
      reflexivity.
  - apply (withRetry_critical_policy _ remote_500 2 2000 fresh_world)
      with (e := Error "500 Internal Server Error"); reflexivity.
  - apply (withRetry_critical_policy _ remote_denied 3 2000 fresh_world);
      [reflexivity | reflexivity | reflexivity | left; reflexivity].
  - apply (withRetry_critical_policy _ remote_ok 3 2000 latched_world);
      reflexivity.
Defined.

(** C3, as the specification states it, fails: a quota error inside
    [auditRecall] or [refineManifestWithEnsemble] sets the latch. *)
Lemma optional_stages_latch_on_quota :
  sessionForceOffline fresh_world = false
  /\ sessionForceOffline
       (run_state (auditRecall sample_lib [] remote_quota) fresh_world) = true
  /\ sessionForceOffline
       (run_state (refineManifestWithEnsemble sample_lib [] remote_quota) fresh_world)
     = true.
Proof. repeat split; vm_compute; reflexivity. Qed.

(** C3, amended. [auditRecall] and [refineManifestWithEnsemble] reach the
    remote service through [withRetry], as [synthesizeProtocol] does. Each
    sets the latch exactly when the health check passes and the attempts
    run into a quota error; in particular, when no attempt fails with a
    quota error, every failure leaves the latch as it was. *)
Theorem optional_stages_latch_iff_quota :
  forall (lib : Collaborators) (ingredients : list Ingredient)
         (remote : Attempt GenerateContentResponse) (w : World),
    sessionForceOffline (run_state (auditRecall lib ingredients remote) w)
    = sessionForceOffline w || (reachable w && meets_quota remote 3 (calls w))
    /\ sessionForceOffline
         (run_state (refineManifestWithEnsemble lib ingredients remote) w)
       = sessionForceOffline w || (reachable w && meets_quota remote 3 (calls w))
    /\ ((forall k e, remote k = Thrown e -> isQuotaExceeded (errorMsg_of e) = false) ->
        sessionForceOffline (run_state (auditRecall lib ingredients remote) w)
        = sessionForceOffline w
        /\ sessionForceOffline
             (run_state (refineManifestWithEnsemble lib ingredients remote) w)
           = sessionForceOffline w).
Proof.
  intros lib ingredients remote w.
  destruct (auditRecall_latch lib ingredients remote w) as [Ha _].
  destruct (refineManifestWithEnsemble_latch lib ingredients remote w) as [Hr _].
  split; [exact Ha|split; [exact Hr|]].
  intros Hnone.
  assert (Hm : forall retries k, meets_quota remote retries k = false).
  { induction retries as [|r IH]; intros k; cbn [meets_quota];
      destruct (remote k) as [v|e] eqn:Hk; try reflexivity;
      rewrite (Hnone k e Hk); cbn [orb]; rewrite ?IH; apply andb_false_r. }
  rewrite Ha, Hr, Hm, andb_false_r, orb_false_r. split; reflexivity.
Qed.

(** A server error that outlasts every retry leaves the latch clear. *)
Lemma optional_stages_latch_iff_quota_witness :
  sessionForceOffline (run_state (auditRecall sample_lib [] remote_500) fresh_world)
  = sessionForceOffline fresh_world
  /\ sessionForceOffline
       (run_state (refineManifestWithEnsemble sample_lib [] remote_500) fresh_world)
     = sessionForceOffline fresh_world.
Proof.
  apply (optional_stages_latch_iff_quota sample_lib [] remote_500 fresh_world).
  intros k e He. unfold remote_500 in He. injection He as <-. reflexivity.
Defined.

(** C6. [synthesizeProtocol] never throws. When the latch is already set
    it returns the offline protocol without invoking the remote call; when
    the critical remote call fails, for whatever reason, it returns the
    offline protocol, which is marked [isOffline = true]. After a
    quota-exceeded failure the latch is set and [checkOnlineStatus] answers
    [false] after any sequence of calls and changes of the surroundings
    that contains no reset; [resetHandshake] clears the latch again. *)
Theorem synthesizeProtocol_falls_back_offline :
  forall (lib : Collaborators)
         (ingredients : list Ingredient) (preferences : UserPreferences)
         (remote : Attempt GenerateContentResponse) (w : World),
    offline_generator_marks lib ->
    let offline := synthesizeOfflineProtocol lib ingredients preferences in
    let stage := synthesizeProtocol lib ingredients preferences remote in
    (exists protocol, run_value stage w = Returned protocol)
    /\ isOffline offline = Some true
    /\ (sessionForceOffline w = true -> stage w = (Returned offline, w))
    /\ (forall e, run_value (withRetry remote 3 2000) w = Thrown e ->
          run_value stage w = Returned offline)
    /\ (forall e,
          run_value checkOnlineStatus w = Returned true ->
          remote (calls w) = Thrown e ->
          isQuotaExceeded (errorMsg_of e) = true ->
          run_value stage w = Returned offline
          /\ sessionForceOffline (run_state stage w) = true
          /\ calls (run_state stage w) = S (calls w)
          /\ (forall cs,
                forallb (fun c => negb (is_reset c)) cs = true ->
                run_value checkOnlineStatus (perform_all lib cs (run_state stage w))
                = Returned false)
          /\ (forall cs,
                sessionForceOffline
                  (perform lib CallResetHandshake
                     (perform_all lib cs (run_state stage w))) = false)).
Proof.
  intros lib ingredients preferences remote w Hmarks offline stage.
  subst offline stage. unfold run_value, run_state.
  split; [|split; [|split; [|split]]].
  - rewrite synthesizeProtocol_eq.
    destruct (reachable w); [|now eexists].
    destruct (withRetry remote 3 2000 w) as [[r|e] w']; [|now eexists].
    destruct (JSON_parse_protocol lib _); [|now eexists].
    destruct (fuseResults lib _ _); now eexists.
  - apply Hmarks.
  - intros Hl. rewrite synthesizeProtocol_eq.
    now rewrite (latched_unreachable w Hl).
  - intros e Hfail. rewrite synthesizeProtocol_eq.
    destruct (reachable w); [|reflexivity].
    destruct (withRetry remote 3 2000 w) as [[r|e'] w']; [discriminate|reflexivity].
  - intros e Hon Hfn Hq.
    rewrite checkOnlineStatus_eq in Hon. cbn [fst] in Hon.
    assert (Hr : reachable w = true) by congruence.
    pose proof (reachable_unlatched w Hr) as Hl.
    rewrite synthesizeProtocol_eq, Hr, (withRetry_quota _ _ _ _ _ Hl Hfn Hq).
    cbn [fst snd logged sessionForceOffline calls tripped].
    repeat split.
    + intros cs Hcs. rewrite checkOnlineStatus_eq. cbn [fst]. f_equal.
      apply latched_unreachable. now apply perform_all_keeps_latch.
    + intros cs. cbn [perform]. unfold run_state. now rewrite resetHandshake_eq.
Qed.

(** Scenario D on concrete data: the remote synthesis answers 429. *)
Lemma synthesizeProtocol_falls_back_offline_witness :
  run_value (synthesizeProtocol sample_lib [] sample_preferences remote_quota) fresh_world
  = Returned offline_protocol
  /\ sessionForceOffline
       (run_state (synthesizeProtocol sample_lib [] sample_preferences remote_quota)
          fresh_world) = true
  /\ run_value checkOnlineStatus
       (perform_all sample_lib
          [CallPlatingVisual offline_protocol remote_ok;
           SurroundingsChange sample_env;
           CallAuditRecall [] remote_ok]
          (run_state (synthesizeProtocol sample_lib [] sample_preferences remote_quota)
             fresh_world))
     = Returned false.
Proof.
  assert (Hmarks : offline_generator_marks sample_lib) by (intros i p; reflexivity).
  destruct (synthesizeProtocol_falls_back_offline sample_lib [] sample_preferences
              remote_quota fresh_world Hmarks)
    as (_ & _ & _ & _ & Hquota).
  destruct (Hquota (Error "429 RESOURCE_EXHAUSTED: quota exceeded")
              eq_refl eq_refl eq_refl) as (Hv & Hl & _ & Hstay & _).
  split; [exact Hv|split; [exact Hl|]].
  apply Hstay. reflexivity.
Defined.

(** C7. [checkOnlineStatus] returns
    [(networkUp AND credentialPresent) AND NOT failoverLatched] and leaves
    the world as it found it: it answers [true] exactly when the latch is
    clear, the network is up and a credential resolves, and [false] when
    key resolution throws. *)
Theorem checkOnlineStatus_is_health_signal :
  forall w : World,
    checkOnlineStatus w
    = (Returned ((navigator_onLine (env w) && credentialPresent (env w))
                 && negb (sessionForceOffline w)), w)
    /\ (run_value checkOnlineStatus w = Returned true
        <-> sessionForceOffline w = false
            /\ navigator_onLine (env w) = true
            /\ exists key, run_value resolveGeminiApiKey w = Returned key)
    /\ (forall e, run_value resolveGeminiApiKey w = Thrown e ->
          run_value checkOnlineStatus w = Returned false)
    /\ run_state checkOnlineStatus w = w.
Proof.
  intros w. unfold run_value, run_state. rewrite checkOnlineStatus_eq.
  unfold reachable. cbn [fst snd].
  assert (Hcred : credentialPresent (env w) = true
                  <-> exists key, fst (resolveGeminiApiKey w) = Returned key).
  { destruct (resolveGeminiApiKey_reads w) as [(key & -> & _ & ->)|(e & -> & ->)];
      cbn [fst]; split; intros H; try reflexivity; try discriminate.
    - now exists key.
    - destruct H as [key H]. discriminate. }
  split; [reflexivity|split; [split|split; [|reflexivity]]].
  - intros [= Hb].
    apply andb_true_iff in Hb as [Hb Hl]. apply andb_true_iff in Hb as [Hon Hc].
    split; [now apply negb_true_iff|split; [exact Hon|now apply Hcred]].
  - intros (Hl & Hon & Hkey). apply Hcred in Hkey. now rewrite Hl, Hon, Hkey.
  - intros e He.
    destruct (credentialPresent (env w)) eqn:Hc.
    + destruct (proj1 Hcred eq_refl) as [key Hkey]. congruence.
    + now rewrite andb_false_r.
Qed.

(** The health check on a fresh online session, and with the store
    failing. *)
Lemma checkOnlineStatus_is_health_signal_witness :
  run_value checkOnlineStatus fresh_world = Returned true
  /\ run_value checkOnlineStatus
       (mkWorld false
          (mkEnv None (ReadFails (Error "SecurityError")) true false) 0 [])
     = Returned false.
Proof.
  split.
  - apply (checkOnlineStatus_is_health_signal fresh_world).
    split; [reflexivity|split; [reflexivity|]].
    exists "AIza-sample-key". reflexivity.
  - apply (checkOnlineStatus_is_health_signal
             (mkWorld false
                (mkEnv None (ReadFails (Error "SecurityError")) true false) 0 []))
      with (e := Error "SecurityError").
    reflexivity.
Defined.

(** C8. [auditRecall] and [refineManifestWithEnsemble] never throw. When
    the health check answers [false] they return the empty list and the
    input list, without touching the world; when the remote call fails
    they return the same fallbacks. *)
Theorem optional_stages_degrade :
  forall (lib : Collaborators) (ingredients : list Ingredient)
         (remote : Attempt GenerateContentResponse) (w : World),
    (exists hs, run_value (auditRecall lib ingredients remote) w = Returned hs)
    /\ (exists refined,
          run_value (refineManifestWithEnsemble lib ingredients remote) w
          = Returned refined)
    /\ (run_value checkOnlineStatus w = Returned false ->
        auditRecall lib ingredients remote w = (Returned [], w)
        /\ refineManifestWithEnsemble lib ingredients remote w
           = (Returned ingredients, w))
    /\ (forall e, run_value (withRetry remote 3 2000) w = Thrown e ->
          run_value (auditRecall lib ingredients remote) w = Returned []
          /\ run_value (refineManifestWithEnsemble lib ingredients remote) w
             = Returned ingredients).
Proof.
  intros lib ingredients remote w. unfold run_value.
  rewrite auditRecall_eq, refineManifestWithEnsemble_eq, checkOnlineStatus_eq.
  cbn [fst].
  destruct (reachable w).
  - destruct (withRetry remote 3 2000 w) as [[r|e'] w']; cbn [fst].
    + repeat split; try discriminate.
      * destruct (JSON_parse_hypotheses lib _); now eexists.
      * destruct (JSON_parse_ingredients lib _); now eexists.
    + repeat split; try discriminate; now eexists.
  - repeat split; now eexists.
Qed.

(** Both stages with the network down, and with a remote call that fails
    for good. *)
Lemma optional_stages_degrade_witness :
  auditRecall sample_lib [sample_ingredient "tomato" 0.6] remote_ok
    (perform sample_lib (SurroundingsChange (mkEnv None (ReadItem None) false false))
       fresh_world)
  = (Returned [],
     perform sample_lib (SurroundingsChange (mkEnv None (ReadItem None) false false))
       fresh_world)
  /\ run_value (refineManifestWithEnsemble sample_lib
                  [sample_ingredient "tomato" 0.6] remote_denied) fresh_world
     = Returned [sample_ingredient "tomato" 0.6].
Proof.
  split.
  - apply (optional_stages_degrade sample_lib [sample_ingredient "tomato" 0.6] remote_ok
             (perform sample_lib
                (SurroundingsChange (mkEnv None (ReadItem None) false false))
                fresh_world)).
    reflexivity.
  - apply (optional_stages_degrade sample_lib [sample_ingredient "tomato" 0.6]
             remote_denied fresh_world)
      with (e := Error "PERMISSION_DENIED").
    reflexivity.
Defined.

(** C9. [resetHandshake] always leaves the latch clear, never touches the
    surroundings and makes no remote call. With the latch already clear
    the latch keeps its value, and outside development builds the world
    is left exactly as it was (development builds add one telemetry line
    to the console). A second reset changes nothing the first one set.
    After a reset the health check is the conjunction of network and
    credential state. *)
Theorem resetHandshake_idempotent :
  forall w : World,
    let w1 := run_state resetHandshake w in
    run_value resetHandshake w = Returned tt
    /\ sessionForceOffline w1 = false
    /\ env w1 = env w
    /\ calls w1 = calls w
    /\ trace w1 = (if development (env w)
                   then trace w ++ [Warned "SYSTEM MODE CHANGE"]
                   else trace w)%list
    /\ (sessionForceOffline w = false ->
        sessionForceOffline w1 = sessionForceOffline w
        /\ (development (env w) = false -> w1 = w))
    /\ (sessionForceOffline (run_state resetHandshake w1) = sessionForceOffline w1
        /\ env (run_state resetHandshake w1) = env w1
        /\ calls (run_state resetHandshake w1) = calls w1)
    /\ run_value checkOnlineStatus w1
       = Returned (navigator_onLine (env w) && credentialPresent (env w)).
Proof.
  intros w w1. subst w1. unfold run_value, run_state.
  rewrite checkOnlineStatus_eq, !resetHandshake_eq. unfold reachable.
  cbn [fst snd sessionForceOffline env calls trace negb].
  do 5 (split; [reflexivity|]).
  split; [|split; [repeat split|now rewrite andb_true_r]].
  intros Hl. split; [now rewrite Hl|].
  intros Hdev. rewrite Hdev. destruct w as [latch e n tr].
  cbn in *. now subst latch.
Qed.

(** A reset of a fresh session in a production build is a no-op; a reset
    of a latched session restores the health check. *)
Lemma resetHandshake_idempotent_witness :
  run_state resetHandshake fresh_world = fresh_world
  /\ run_value checkOnlineStatus latched_world = Returned false
  /\ run_value checkOnlineStatus (run_state resetHandshake latched_world)
     = Returned true.
Proof.
  split; [|split].
  - apply (resetHandshake_idempotent fresh_world); reflexivity.
  - reflexivity.
  - exact (proj2 (proj2 (proj2 (proj2 (proj2 (proj2 (proj2
             (resetHandshake_idempotent latched_world)))))))).
Defined.

End ResilienceClaims.

(* ===================================================================== *)
(** * Further properties of the code *)
(* ===================================================================== *)

(** ** The retry wrappers, step by step *)

Section WrapperSteps.

Import Service JS.
Local Open Scope float_scope.
Local Open Scope string_scope.

Context {T : Type}.
Implicit Types (fn : Attempt T) (w : World) (retries : nat) (delay : float).

Lemma backed_off_retried retries delay w :
  backed_off retries delay w = retried "[Gemini Handshake]" retries delay w.
Proof. reflexivity. Qed.

Lemma withImageRetry_returned fn retries delay w v :
  fn (calls w) = Returned v ->
  withImageRetry fn retries delay w = (Returned v, after_call w).
Proof.
  intros Hfn.
  destruct retries; cbn [withImageRetry]; unfold try_catch, await_call;
    rewrite Hfn; reflexivity.
Qed.

Lemma withImageRetry_retry fn retries delay w e :
  fn (calls w) = Thrown e ->
  isImageTransient (errorMsg_of e) = true ->
  withImageRetry fn (S retries) delay w
  = withImageRetry fn retries (delay * 1.5)
      (retried "[Image Generation]" (S retries) delay w).
Proof.
  intros Hfn Ht.
  cbn [withImageRetry]. unfold try_catch at 1, await_call.
  rewrite Hfn, Ht. reflexivity.
Qed.

Lemma withImageRetry_giveup fn retries delay w e :
  fn (calls w) = Thrown e ->
  isImageTransient (errorMsg_of e) = false \/ retries = 0%nat ->
  withImageRetry fn retries delay w = (Thrown e, after_call w).
Proof.
  intros Hfn Hstop.
  destruct retries as [|r]; cbn [withImageRetry]; unfold try_catch at 1, await_call;
    rewrite Hfn.
  - reflexivity.
  - destruct Hstop as [Ht|Hr]; [|discriminate]. rewrite Ht. reflexivity.
Qed.

Lemma vision_withRetry_returned fn retries delay w v :
  fn (calls w) = Returned v ->
  Vision.withRetry fn retries delay w = (Returned v, after_call w).
Proof.
  intros Hfn.
  destruct retries; cbn [Vision.withRetry]; unfold try_catch, await_call;
    rewrite Hfn; reflexivity.
Qed.

Lemma vision_withRetry_retry fn retries delay w e :
  fn (calls w) = Thrown e ->
  isQuotaExceeded (errorMsg_of e) = false ->
  isTransient (errorMsg_of e) = true ->
  Vision.withRetry fn (S retries) delay w
  = Vision.withRetry fn retries (delay * 2)
      (retried "[Gemini Vision]" (S retries) delay w).
Proof.
  intros Hfn Hq Ht.
  cbn [Vision.withRetry]. unfold try_catch at 1, await_call.
  rewrite Hfn, Hq, Ht. reflexivity.
Qed.

Lemma vision_withRetry_giveup fn retries delay w e :
  fn (calls w) = Thrown e ->
  isQuotaExceeded (errorMsg_of e) = true
  \/ isTransient (errorMsg_of e) = false \/ retries = 0%nat ->
  Vision.withRetry fn retries delay w = (Thrown e, after_call w).
Proof.
  intros Hfn Hstop.
  destruct retries as [|r]; cbn [Vision.withRetry]; unfold try_catch at 1, await_call;
    rewrite Hfn.
  - reflexivity.
  - destruct Hstop as [Hq|[Ht|Hr]]; [| |discriminate].
    + rewrite Hq, andb_false_r. reflexivity.
    + rewrite Ht. reflexivity.
Qed.

Lemma sleeps_app (a b : list Event) : sleeps (a ++ b) = (sleeps a ++ sleeps b)%list.
Proof.
  induction a as [|ev a IH]; [reflexivity|].
  destruct ev; cbn [sleeps app]; now rewrite IH.
Qed.

Lemma sleeps_retried wrapper retries delay w :
  sleeps (trace (retried wrapper retries delay w)) = (sleeps (trace w) ++ [delay])%list.
Proof.
  unfold retried. cbn [trace]. rewrite !sleeps_app. cbn [sleeps].
  now rewrite !app_nil_r.
Qed.

Lemma sleeps_after_call w : sleeps (trace (after_call w)) = sleeps (trace w).
Proof.
  unfold after_call. cbn [trace]. rewrite sleeps_app. cbn [sleeps].
  apply app_nil_r.
Qed.

End WrapperSteps.

(** ** The retry wrappers, as a whole *)

Section WrapperFacts.

Import Service JS.
Local Open Scope float_scope.
Local Open Scope string_scope.

Lemma withRetry_calls_bound {T} (fn : Attempt T) retries : forall delay w,
  (calls w <= calls (run_state (withRetry fn retries delay) w) <= calls w + S retries)%nat.
Proof.
  unfold run_state.
  induction retries as [|r IH]; intros delay w.
  all: destruct (sessionForceOffline w) eqn:Hl;
    [rewrite withRetry_latched by assumption; cbn; lia|].
  all: destruct (fn (calls w)) as [v|e] eqn:Hfn;
    [rewrite (withRetry_returned _ _ _ _ _ Hl Hfn); cbn; lia|].
  all: destruct (isQuotaExceeded (errorMsg_of e)) eqn:Hq;
    [rewrite (withRetry_quota _ _ _ _ _ Hl Hfn Hq); cbn; lia|].
  - rewrite (withRetry_giveup _ _ _ _ _ Hl Hfn Hq) by (now right). cbn; lia.
  - destruct (isTransient (errorMsg_of e)) eqn:Ht.
    + rewrite (withRetry_retry _ _ _ _ _ Hl Hfn Hq Ht).
      pose proof (IH (delay * 2) (backed_off (S r) delay w)) as H.
      cbn [calls backed_off] in H. lia.
    + rewrite (withRetry_giveup _ _ _ _ _ Hl Hfn Hq) by (now left). cbn; lia.
Qed.

Lemma withImageRetry_calls_bound {T} (fn : Attempt T) retries : forall delay w,
  (calls w <= calls (run_state (withImageRetry fn retries delay) w)
   <= calls w + S retries)%nat.
Proof.
  unfold run_state.
  induction retries as [|r IH]; intros delay w.
  all: destruct (fn (calls w)) as [v|e] eqn:Hfn;
    [rewrite (withImageRetry_returned _ _ _ _ _ Hfn); cbn; lia|].
  - rewrite (withImageRetry_giveup _ _ _ _ _ Hfn) by (now right). cbn; lia.
  - destruct (isImageTransient (errorMsg_of e)) eqn:Ht.
    + rewrite (withImageRetry_retry _ _ _ _ _ Hfn Ht).
      pose proof (IH (delay * 1.5) (retried "[Image Generation]" (S r) delay w)) as H.
      cbn [calls retried] in H. lia.
    + rewrite (withImageRetry_giveup _ _ _ _ _ Hfn) by (now left). cbn; lia.
Qed.

Lemma vision_withRetry_calls_bound {T} (fn : Attempt T) retries : forall delay w,
  (calls w <= calls (run_state (Vision.withRetry fn retries delay) w)
   <= calls w + S retries)%nat.
Proof.
  unfold run_state.
  induction retries as [|r IH]; intros delay w.
  all: destruct (fn (calls w)) as [v|e] eqn:Hfn;
    [rewrite (vision_withRetry_returned _ _ _ _ _ Hfn); cbn; lia|].
  - rewrite (vision_withRetry_giveup _ _ _ _ _ Hfn) by (right; now right). cbn; lia.
  - destruct (isQuotaExceeded (errorMsg_of e)) eqn:Hq;
      [rewrite (vision_withRetry_giveup _ _ _ _ _ Hfn) by (now left); cbn; lia|].
    destruct (isTransient (errorMsg_of e)) eqn:Ht.
    + rewrite (vision_withRetry_retry _ _ _ _ _ Hfn Hq Ht).
      pose proof (IH (delay * 2) (retried "[Gemini Vision]" (S r) delay w)) as H.
      cbn [calls retried] in H. lia.
    + rewrite (vision_withRetry_giveup _ _ _ _ _ Hfn) by (right; now left). cbn; lia.
Qed.

(** X1. Each retry wrapper invokes the wrapped call at most [retries + 1]
    times, whatever the call does: the critical [withRetry], the image
    [withImageRetry] and the vision file's [withRetry]. *)
Theorem retry_wrappers_invocation_bound :
  forall (T : Type) (fn : Attempt T) (retries : nat) (delay : float) (w : World),
    (calls w <= calls (run_state (withRetry fn retries delay) w) <= calls w + S retries)%nat
    /\ (calls w <= calls (run_state (withImageRetry fn retries delay) w)
        <= calls w + S retries)%nat
    /\ (calls w <= calls (run_state (Vision.withRetry fn retries delay) w)
        <= calls w + S retries)%nat.
Proof.
  intros T fn retries delay w.
  split; [apply withRetry_calls_bound|].
  split; [apply withImageRetry_calls_bound|apply vision_withRetry_calls_bound].
Qed.

(** X2. When every invocation fails with a retryable error (transient, not
    quota) and the latch is clear, [withRetry] invokes the call exactly
    [retries + 1] times, rethrows the error of the last invocation, leaves
    the latch clear, and sleeps [retries] times with delays that start at
    [delay] and double each time: 2000, 4000, 8000 ms with the
    defaults. *)
Theorem withRetry_exhausts_budget :
  forall (T : Type) (fn : Attempt T) (retries : nat) (delay : float) (w : World),
    always_retryable fn ->
    sessionForceOffline w = false ->
    let w' := run_state (withRetry fn retries delay) w in
    (exists e, run_value (withRetry fn retries delay) w = Thrown e
               /\ fn (calls w + retries)%nat = Thrown e)
    /\ calls w' = (calls w + S retries)%nat
    /\ sessionForceOffline w' = false
    /\ sleeps (trace w') = (sleeps (trace w) ++ backoff_delays 2 retries delay)%list
    /\ backoff_delays 2 3 2000 = [2000; 4000; 8000].
Proof.
  intros T fn retries delay w Hfn Hl. cbn zeta. unfold run_state, run_value.
  revert delay w Hl.
  induction retries as [|r IH]; intros delay w Hl;
    destruct (Hfn (calls w)) as (e & He & Hq & Ht).
  - rewrite (withRetry_giveup _ _ _ _ _ Hl He Hq) by (now right).
    cbn [fst snd]. rewrite sleeps_after_call, Nat.add_0_r, app_nil_r.
    split; [now exists e|].
    split; [cbn; lia|]. split; [exact Hl|]. split; reflexivity.
  - rewrite (withRetry_retry _ _ _ _ _ Hl He Hq Ht).
    destruct (IH (delay * 2) (backed_off (S r) delay w) Hl)
      as ((e' & Hv & Hlast) & Hc & Hl' & Hs & Hd).
    split; [|split; [|split; [|split]]].
    + exists e'. split; [exact Hv|].
      cbn [calls backed_off] in Hlast.
      now replace (calls w + S r)%nat with (S (calls w) + r)%nat by lia.
    + rewrite Hc. cbn [calls backed_off]. lia.
    + exact Hl'.
    + rewrite Hs, backed_off_retried, sleeps_retried.
      cbn [backoff_delays]. now rewrite <- app_assoc.
    + exact Hd.
Qed.

(** A server that always answers 500, with the default budget. *)
Lemma withRetry_exhausts_budget_witness :
  calls (run_state (withRetry remote_500 3 2000) fresh_world) = 4%nat
  /\ sleeps (trace (run_state (withRetry remote_500 3 2000) fresh_world))
     = [2000; 4000; 8000].
Proof.
  assert (H : always_retryable remote_500).
  { intros k. exists (Error "500 Internal Server Error"). repeat split. }
  destruct (withRetry_exhausts_budget _ remote_500 3 2000 fresh_world H eq_refl)
    as (_ & Hc & _ & Hs & _).
  split; [exact Hc|exact Hs].
Defined.

(** X3. When every invocation fails with an error [withImageRetry]
    retries (its message contains 500, fetch or timeout), it invokes the
    call exactly [retries + 1] times, rethrows the error of the last
    invocation, never changes the latch, and sleeps [retries] times with
    delays that start at [delay] and grow by half each time: 1000 and
    1500 ms with the defaults. It does so whether or not the latch is
    set. *)
Theorem withImageRetry_exhausts_budget :
  forall (T : Type) (fn : Attempt T) (retries : nat) (delay : float) (w : World),
    always_image_retryable fn ->
    let w' := run_state (withImageRetry fn retries delay) w in
    (exists e, run_value (withImageRetry fn retries delay) w = Thrown e
               /\ fn (calls w + retries)%nat = Thrown e)
    /\ calls w' = (calls w + S retries)%nat
    /\ sessionForceOffline w' = sessionForceOffline w
    /\ sleeps (trace w') = (sleeps (trace w) ++ backoff_delays 1.5 retries delay)%list
    /\ backoff_delays 1.5 2 1000 = [1000; 1500].
Proof.
  intros T fn retries delay w Hfn. cbn zeta. unfold run_state, run_value.
  revert delay w.
  induction retries as [|r IH]; intros delay w;
    destruct (Hfn (calls w)) as (e & He & Ht).
  - rewrite (withImageRetry_giveup _ _ _ _ _ He) by (now right).
    cbn [fst snd]. rewrite sleeps_after_call, Nat.add_0_r, app_nil_r.
    split; [now exists e|].
    split; [cbn; lia|]. split; [reflexivity|]. split; reflexivity.
  - rewrite (withImageRetry_retry _ _ _ _ _ He Ht).
    destruct (IH (delay * 1.5) (retried "[Image Generation]" (S r) delay w))
      as ((e' & Hv & Hlast) & Hc & Hl' & Hs & Hd).
    split; [|split; [|split; [|split]]].
    + exists e'. split; [exact Hv|].
      cbn [calls retried] in Hlast.
      now replace (calls w + S r)%nat with (S (calls w) + r)%nat by lia.
    + rewrite Hc. cbn [calls retried]. lia.
    + exact Hl'.
    + rewrite Hs, sleeps_retried.
      cbn [backoff_delays]. now rewrite <- app_assoc.
    + exact Hd.
Qed.

(** An image service that always answers 500, in a latched session. *)
Lemma withImageRetry_exhausts_budget_witness :
  calls (run_state (withImageRetry remote_500 2 1000) latched_world) = 3%nat
  /\ sleeps (trace (run_state (withImageRetry remote_500 2 1000) latched_world))
     = [1000; 1500].
Proof.
  assert (H : always_image_retryable remote_500).
  { intros k. exists (Error "500 Internal Server Error"). repeat split. }
  destruct (withImageRetry_exhausts_budget _ remote_500 2 1000 latched_world H)
    as (_ & Hc & _ & Hs & _).
  split; [exact Hc|exact Hs].
Defined.

End WrapperFacts.

(** ** The two copies of the critical wrapper *)

Section LegacyFacts.

Import Service JS.
Local Open Scope float_scope.
Local Open Scope string_scope.

Context {T : Type}.
Implicit Types (fn : Attempt T) (w : World) (retries : nat) (delay : float).

Local Ltac run_legacy Hlatch Hfn :=
  cbn [Legacy.withRetry];
  unfold bind at 1, read_latch; rewrite Hlatch;
  unfold try_catch at 1, await_call; rewrite Hfn.

Lemma legacy_withRetry_latched fn retries delay w :
  sessionForceOffline w = true ->
  Legacy.withRetry fn retries delay w = (Thrown (Error "SESSION_OFFLINE_FAILOVER"), w).
Proof.
  intros Hlatch.
  destruct retries; cbn [Legacy.withRetry]; unfold bind at 1, read_latch;
    rewrite Hlatch; reflexivity.
Qed.

Lemma legacy_withRetry_returned fn retries delay w v :
  sessionForceOffline w = false ->
  fn (calls w) = Returned v ->
  Legacy.withRetry fn retries delay w = (Returned v, after_call w).
Proof.
  intros Hlatch Hfn. destruct retries; run_legacy Hlatch Hfn; reflexivity.
Qed.

Lemma legacy_withRetry_retry fn retries delay w e :
  sessionForceOffline w = false ->
  fn (calls w) = Thrown e ->
  isQuotaExceeded (errorMsg_of e) = false ->
  isTransient (errorMsg_of e) = true ->
  Legacy.withRetry fn (S retries) delay w
  = Legacy.withRetry fn retries (delay * 2) (backed_off (S retries) delay w).
Proof.
  intros Hlatch Hfn Hq Ht. run_legacy Hlatch Hfn. rewrite Hq, Ht. reflexivity.
Qed.

Lemma legacy_withRetry_giveup fn retries delay w e :
  sessionForceOffline w = false ->
  fn (calls w) = Thrown e ->
  isQuotaExceeded (errorMsg_of e) = false ->
  isTransient (errorMsg_of e) = false \/ retries = 0%nat ->
  Legacy.withRetry fn retries delay w = (Thrown e, after_call w).
Proof.
  intros Hlatch Hfn Hq Hstop.
  destruct retries as [|r]; run_legacy Hlatch Hfn; rewrite Hq.
  - reflexivity.
  - destruct Hstop as [Ht|Hr]; [|discriminate]. rewrite Ht. reflexivity.
Qed.

(** X4. The two copies of [withRetry] in the repository behave alike: for
    every call, budget and world they end in the same outcome and leave
    the same latch, surroundings and invocation count. They differ only in
    the [logModeChange] line the service module adds in development
    builds; outside development builds the two runs are identical. *)
Theorem legacy_withRetry_agrees :
  forall fn retries delay w,
    let old := Legacy.withRetry fn retries delay w in
    let new := Service.withRetry fn retries delay w in
    fst old = fst new
    /\ sessionForceOffline (snd old) = sessionForceOffline (snd new)
    /\ env (snd old) = env (snd new)
    /\ calls (snd old) = calls (snd new)
    /\ sleeps (trace (snd old)) = sleeps (trace (snd new))
    /\ (development (env w) = false -> old = new).
Proof.
  intros fn retries. cbn zeta.
  induction retries as [|r IH]; intros delay w.
  all: destruct (sessionForceOffline w) eqn:Hl;
    [rewrite legacy_withRetry_latched, withRetry_latched by assumption;
     repeat split|].
  all: destruct (fn (calls w)) as [v|e] eqn:Hfn;
    [rewrite (legacy_withRetry_returned _ _ _ _ _ Hl Hfn),
             (withRetry_returned _ _ _ _ _ Hl Hfn); repeat split|].
  all: destruct (isQuotaExceeded (errorMsg_of e)) eqn:Hq;
    [rewrite (legacy_withRetry_quota _ _ _ _ _ Hl Hfn Hq),
             (withRetry_quota _ _ _ _ _ Hl Hfn Hq);
     unfold tripped; cbn [fst snd sessionForceOffline env calls trace];
     split; [reflexivity|split; [reflexivity|split; [reflexivity|split;
       [reflexivity|split]]]];
     [destruct (development (env w)); rewrite ?sleeps_app; cbn [sleeps];
      rewrite ?app_nil_r; reflexivity
     |intros ->; reflexivity]|].
  - rewrite (legacy_withRetry_giveup _ _ _ _ _ Hl Hfn Hq),
            (withRetry_giveup _ _ _ _ _ Hl Hfn Hq) by (now right).
    repeat split.
  - destruct (isTransient (errorMsg_of e)) eqn:Ht.
    + rewrite (legacy_withRetry_retry _ _ _ _ _ Hl Hfn Hq Ht),
              (withRetry_retry _ _ _ _ _ Hl Hfn Hq Ht).
      destruct (IH (delay * 2) (backed_off (S r) delay w))
        as (H1 & H2 & H3 & H4 & H5 & H6).
      repeat split; assumption.
    + rewrite (legacy_withRetry_giveup _ _ _ _ _ Hl Hfn Hq),
              (withRetry_giveup _ _ _ _ _ Hl Hfn Hq) by (now left).
      repeat split.
Qed.

End LegacyFacts.

(** Both copies against a quota error in a production build. *)
Lemma legacy_withRetry_agrees_witness :
  Legacy.withRetry remote_quota 3 2000 fresh_world
  = Service.withRetry remote_quota 3 2000 fresh_world.
Proof.
  apply (legacy_withRetry_agrees remote_quota 3 2000 fresh_world). reflexivity.
Defined.

(** ** Whole sessions *)

Section SessionExtras.

Import Service ServiceRest JS.
Local Open Scope float_scope.
Local Open Scope string_scope.

Lemma never_quota_meets {T} (fn : Attempt T) :
  never_quota fn -> forall retries k, meets_quota fn retries k = false.
Proof.
  intros Hnone.
  induction retries as [|r IH]; intros k; cbn [meets_quota];
    destruct (fn k) as [v|e] eqn:Hk; try reflexivity;
    rewrite (Hnone k e Hk); cbn [orb]; rewrite ?IH; apply andb_false_r.
Qed.

Lemma perform_quota_free lib (c : Call) (w : World) :
  quota_free c ->
  sessionForceOffline w = false ->
  sessionForceOffline (perform lib c w) = false.
Proof.
  intros Hc Hl.
  destruct c; cbn [perform quota_free] in *.
  - destruct (synthesizeProtocol_latch lib ingredients preferences remote w) as [-> _].
    now rewrite Hl, never_quota_meets, andb_false_r.
  - destruct (auditRecall_latch lib ingredients remote w) as [-> _].
    now rewrite Hl, never_quota_meets, andb_false_r.
  - destruct (refineManifestWithEnsemble_latch lib ingredients remote w) as [-> _].
    now rewrite Hl, never_quota_meets, andb_false_r.
  - rewrite <- Hl.
    exact (proj1 (image_stage_frame "[Image Generation] Plating visual failed:" remote w)).
  - rewrite <- Hl.
    exact (proj1 (image_stage_frame "[Image Generation] Drink visual failed:" remote w)).
  - rewrite <- Hl.
    exact (proj1 (image_stage_frame "[Image Generation] Ingredient visual failed:" remote w)).
  - rewrite <- Hl.
    exact (proj1 (image_stage_frame "[Image Generation] Schematic failed:" remote w)).
  - unfold run_state. now rewrite checkOnlineStatus_eq.
  - unfold run_state. now rewrite resetHandshake_eq.
  - exact Hl.
Qed.

End SessionExtras.

(** ** The rest of the service module *)

Section ServiceRestFacts.

Import Service ServiceRest JS.
Local Open Scope float_scope.
Local Open Scope string_scope.

Variable host : Host.

Local Ltac enter_stage w Hon :=
  unfold bind at 1; rewrite checkOnlineStatus_eq;
  destruct (reachable w) eqn:Hon; cbn [negb];
  [ unfold try_catch, bind; rewrite (reachable_credential w Hon) | reflexivity ].

Lemma apiKeyToTest_eq key w :
  exists toTest,
    apiKeyToTest key w = (Returned toTest, w)
    /\ match toTest with Some k => truthy_str k | None => false end
       = key_to_test key (env w).
Proof.
  assert (Hres : exists toTest,
             resolvedKeyOrUndefined w = (Returned toTest, w)
             /\ match toTest with Some k => truthy_str k | None => false end
                = credentialPresent (env w)).
  { unfold resolvedKeyOrUndefined, try_catch, bind, ret.
    destruct (resolveGeminiApiKey_reads w) as [(k & -> & Hk & ->)|(e & -> & ->)].
    - exists (Some k). now split.
    - exists None. now split. }
  unfold apiKeyToTest, key_to_test.
  destruct key as [k|]; [destruct (truthy_str k) eqn:Hk|]; cbn [orb].
  - exists (Some k). now split.
  - exact Hres.
  - exact Hres.
Qed.

Lemma validateApiKey_eq key remote w :
  validateApiKey key remote w
  = if key_to_test key (env w) && navigator_onLine (env w) then
      match remote (calls w) with
      | Returned response =>
          if answers_ok response
          then (Returned true, run_state resetHandshake (after_call w))
          else (Returned false, after_call w)
      | Thrown _ => (Returned false, after_call w)
      end
    else (Returned false, w).
Proof.
  unfold validateApiKey, bind at 1.
  destruct (apiKeyToTest_eq key w) as (toTest & -> & ->).
  unfold bind at 1, read_env.
  destruct (key_to_test key (env w)); cbn [negb orb andb]; [|reflexivity].
  destruct (navigator_onLine (env w)); cbn [negb]; [|reflexivity].
  unfold try_catch, bind at 1, await_call.
  destruct (remote (calls w)) as [response|e]; [|reflexivity].
  unfold bind, run_state, ret.
  destruct (answers_ok response); [|reflexivity].
  fold (after_call w). now rewrite resetHandshake_eq.
Qed.

Lemma verifyTechnique_eq image instruction remote w :
  verifyTechnique host image instruction remote w
  = if reachable w then
      match withRetry remote 3 2000 w with
      | (Returned response, w') =>
          match JSON_parse_verdict host (or_str (text response) "{}") with
          | Returned verdict => (Returned verdict, w')
          | Thrown _ =>
              (Returned (mkVerdict (Some true) (Some "Handshake stable via local logic.")), w')
          end
      | (Thrown _, w') =>
          (Returned (mkVerdict (Some true) (Some "Handshake stable via local logic.")), w')
      end
    else (Returned (mkVerdict (Some true)
                      (Some "Technique verified via edge ensemble models.")), w).
Proof.
  unfold verifyTechnique. enter_stage w Hon.
  destruct (withRetry remote 3 2000 w) as [[response|e] w']; [|reflexivity].
  unfold lift. destruct (JSON_parse_verdict host _); reflexivity.
Qed.

Lemma generateVisualBlueprint_eq dishName description remote w :
  generateVisualBlueprint host dishName description remote w
  = if reachable w then
      match withImageRetry remote 2 1000 w with
      | (Returned response, w') =>
          match JSON_parse_blueprint host (or_str (text response) "null") with
          | Returned blueprint => (Returned blueprint, w')
          | Thrown _ =>
              (Returned (Some fallback_blueprint),
               logged (Warned "[Visual Blueprint] Generation failed:") w')
          end
      | (Thrown _, w') =>
          (Returned (Some fallback_blueprint),
           logged (Warned "[Visual Blueprint] Generation failed:") w')
      end
    else (Returned (Some offline_blueprint), w).
Proof.
  unfold generateVisualBlueprint. enter_stage w Hon.
  destruct (withImageRetry remote 2 1000 w) as [[response|e] w']; [|reflexivity].
  unfold lift. destruct (JSON_parse_blueprint host _); reflexivity.
Qed.

(** The general wrapper on a body that is one remote call is the wrapper
    of the service module. *)
Lemma withRetry_thunk_await {T} (fn : Attempt T) retries :
  forall delay w,
    withRetry_thunk (await_call fn) retries delay w = withRetry fn retries delay w.
Proof.
  induction retries as [|r IH]; intros delay w; [reflexivity|].
  cbn [withRetry_thunk withRetry].
  unfold bind, try_catch, read_latch.
  destruct (sessionForceOffline w); [reflexivity|].
  destruct (await_call fn w) as [[v|e] w1]; [reflexivity|].
  cbv zeta.
  destruct (isQuotaExceeded (errorMsg_of e)).
  - rewrite andb_false_r. reflexivity.
  - cbn [negb]. rewrite andb_true_r. unfold ret.
    destruct (isTransient (errorMsg_of e)); [|reflexivity].
    unfold sleep, emit. cbn [sessionForceOffline env calls trace].
    apply IH.
Qed.

Lemma invocations_app tr ev :
  ev <> Invoked -> invocations (tr ++ [ev]) = invocations tr.
Proof.
  intros Hev. induction tr as [|x rest IH]; cbn.
  - destruct ev; congruence.
  - destruct x; cbn; now rewrite IH.
Qed.

Local Ltac run_thunk Hlatch :=
  cbn [withRetry_thunk];
  unfold bind at 1, read_latch; rewrite Hlatch;
  unfold try_catch at 1, throw at 1.

Lemma withRetry_thunk_latched {T} (fn : M T) retries delay w :
  sessionForceOffline w = true ->
  withRetry_thunk fn retries delay w = (Thrown (Error "SESSION_OFFLINE_FAILOVER"), w).
Proof.
  intros Hlatch.
  destruct retries; cbn [withRetry_thunk]; unfold bind at 1, read_latch;
    rewrite Hlatch; reflexivity.
Qed.

Lemma withRetry_thunk_throw_quota {T} (e : JsError) retries delay w :
  sessionForceOffline w = false ->
  isQuotaExceeded (errorMsg_of e) = true ->
  exists tr,
    withRetry_thunk (T := T) (throw e) retries delay w
    = (Thrown e, mkWorld true (env w) (calls w) tr)
    /\ invocations tr = invocations (trace w).
Proof.
  intros Hlatch Hq.
  destruct retries; run_thunk Hlatch; rewrite Hq; rewrite ?andb_false_r;
    unfold bind, emit, write_latch, logModeChange, read_env, bind, emit, ret, throw;
    cbn [sessionForceOffline env calls trace];
    destruct (development (env w)); eexists; (split; [reflexivity|]);
    cbn [trace]; rewrite ?invocations_app by discriminate; reflexivity.
Qed.

Lemma withRetry_thunk_throw_retry {T} (e : JsError) retries delay w :
  sessionForceOffline w = false ->
  isQuotaExceeded (errorMsg_of e) = false ->
  isTransient (errorMsg_of e) = true ->
  withRetry_thunk (T := T) (throw e) (S retries) delay w
  = withRetry_thunk (throw e) retries (delay * 2)
      (mkWorld (sessionForceOffline w) (env w) (calls w)
         ((trace w ++ [WarnedRetrying "[Gemini Handshake]" delay (S retries)])
          ++ [Slept delay])%list).
Proof.
  intros Hlatch Hq Ht.
  run_thunk Hlatch. rewrite Hq, Ht.
  unfold bind, ret, sleep, emit.
  cbn [andb negb sessionForceOffline env calls trace]. now rewrite ?Hlatch.
Qed.

Lemma withRetry_thunk_throw_giveup {T} (e : JsError) retries delay w :
  sessionForceOffline w = false ->
  isQuotaExceeded (errorMsg_of e) = false ->
  isTransient (errorMsg_of e) = false \/ retries = 0%nat ->
  withRetry_thunk (T := T) (throw e) retries delay w = (Thrown e, w).
Proof.
  intros Hlatch Hq Hstop.
  destruct retries as [|r]; run_thunk Hlatch; rewrite Hq.
  - reflexivity.
  - destruct Hstop as [Ht|Hr]; [|discriminate].
    rewrite Ht. reflexivity.
Qed.

(** The wrapper around a body that throws [e] before it calls anything:
    it throws, whatever the budget, and no invocation is made. *)
Lemma withRetry_thunk_throw {T} (e : JsError) retries :
  forall delay w,
    exists e' w',
      withRetry_thunk (T := T) (throw e) retries delay w = (Thrown e', w')
      /\ calls w' = calls w
      /\ env w' = env w
      /\ invocations (trace w') = invocations (trace w)
      /\ sessionForceOffline w'
         = sessionForceOffline w || isQuotaExceeded (errorMsg_of e).
Proof.
  induction retries as [|r IH]; intros delay w.
  all: destruct (sessionForceOffline w) eqn:Hl;
    [rewrite withRetry_thunk_latched by assumption;
     exists (Error "SESSION_OFFLINE_FAILOVER"), w; now rewrite Hl|].
  all: destruct (isQuotaExceeded (errorMsg_of e)) eqn:Hq;
    [match goal with
     | |- context [withRetry_thunk _ ?n _ _] =>
         destruct (withRetry_thunk_throw_quota (T := T) e n delay w Hl Hq)
           as (tr & -> & Htr)
     end;
     eexists _, _; split; [reflexivity|]; now cbn|].
  - rewrite (withRetry_thunk_throw_giveup e 0 delay w Hl Hq) by (now right).
    exists e, w. now rewrite Hl.
  - destruct (isTransient (errorMsg_of e)) eqn:Ht.
    + rewrite (withRetry_thunk_throw_retry e r delay w Hl Hq Ht).
      destruct (IH (delay * 2)
                  (mkWorld (sessionForceOffline w) (env w) (calls w)
                     ((trace w ++ [WarnedRetrying "[Gemini Handshake]" delay (S r)])
                      ++ [Slept delay])%list))
        as (e' & w' & -> & Hc & He & Hi & Hlatch).
      exists e', w'. cbn [calls env trace sessionForceOffline] in *.
      rewrite !invocations_app in Hi by discriminate.
      now rewrite Hl in *.
    + rewrite (withRetry_thunk_throw_giveup e (S r) delay w Hl Hq) by (now left).
      exists e, w. now rewrite Hl.
Qed.

Lemma step_at_out_of_range protocol stepIndex :
  (stepIndex < 0 \/ Z.of_nat (List.length (instructions protocol)) <= stepIndex)%Z ->
  step_at protocol stepIndex = None.
Proof.
  intros Hrange. unfold step_at.
  destruct (stepIndex <? 0)%Z eqn:Hneg; [reflexivity|].
  apply Z.ltb_ge in Hneg. apply nth_error_None. lia.
Qed.

Lemma askSousChef_eq question protocol stepIndex remote w :
  askSousChef host question protocol stepIndex remote w
  = if reachable w then
      match match step_at protocol stepIndex with
            | Some _ => withRetry remote 3 2000 w
            | None => withRetry_thunk (throw (undefined_read host)) 3 2000 w
            end with
      | (Returned response, w') =>
          (Returned (or_str (text response)
                       "I'm unable to provide advice at this moment."), w')
      | (Thrown _, w') =>
          (Returned "Neural handshake interrupted. Falling back to fundamental technique rules.", w')
      end
    else (Returned "Local edge compute active. Focus on maintaining steady temperature and precision cuts for this technique.", w).
Proof.
  unfold askSousChef. enter_stage w Hon.
  destruct (step_at protocol stepIndex) as [step|]; cbn [sousChef_request].
  - rewrite withRetry_thunk_await.
    destruct (withRetry remote 3 2000 w) as [[response|e] w']; reflexivity.
  - destruct (withRetry_thunk (throw (undefined_read host)) 3 2000 w)
      as [[response|e] w']; reflexivity.
Qed.

(** X6. [validateApiKey] never throws. Without a key to test (none given
    and none resolving) or with the network down it answers [false] and
    does nothing. Otherwise it makes exactly one request, with no retry,
    and answers [true] exactly when the reply's text contains "ok" in any
    letter case, in which case the latch ends up clear; when it answers
    [false] the latch is as it was. It never looks at the latch. *)
Theorem validateApiKey_outcomes :
  forall (key : option string) (remote : Attempt GenerateContentResponse) (w : World),
    let after_ := run_state (validateApiKey key remote) w in
    (exists b, run_value (validateApiKey key remote) w = Returned b)
    /\ (key_to_test key (env w) && navigator_onLine (env w) = false ->
        validateApiKey key remote w = (Returned false, w))
    /\ (key_to_test key (env w) && navigator_onLine (env w) = true ->
        calls after_ = S (calls w))
    /\ (run_value (validateApiKey key remote) w = Returned true
        <-> key_to_test key (env w) && navigator_onLine (env w) = true
            /\ exists response,
                 remote (calls w) = Returned response
                 /\ answers_ok response = true)
    /\ (run_value (validateApiKey key remote) w = Returned true ->
        sessionForceOffline after_ = false)
    /\ (run_value (validateApiKey key remote) w = Returned false ->
        sessionForceOffline after_ = sessionForceOffline w)
    /\ env after_ = env w.
Proof.
  intros key remote w. cbn zeta. unfold run_value, run_state.
  rewrite validateApiKey_eq.
  destruct (key_to_test key (env w) && navigator_onLine (env w)).
  - destruct (remote (calls w)) as [response|e] eqn:Hfn;
      [destruct (answers_ok response) eqn:Hok|];
      unfold run_state; rewrite ?resetHandshake_eq; cbn [fst snd].
    + split; [now eexists|]. split; [discriminate|]. split; [reflexivity|].
      split; [split; [intros _; split; [reflexivity|now exists response]
                     |reflexivity]|].
      split; [reflexivity|]. split; [discriminate|reflexivity].
    + split; [now eexists|]. split; [discriminate|]. split; [reflexivity|].
      split; [split; [discriminate|]|].
      * intros (_ & r & [= <-] & Hr). congruence.
      * split; [discriminate|]. split; reflexivity.
    + split; [now eexists|]. split; [discriminate|]. split; [reflexivity|].
      split; [split; [discriminate|]|].
      * intros (_ & r & Hr & _). discriminate.
      * split; [discriminate|]. split; reflexivity.
  - cbn [fst snd]. split; [now eexists|]. split; [reflexivity|].
    split; [discriminate|]. split; [split; [discriminate|]|].
    + intros (H & _). discriminate.
    + split; [discriminate|]. split; reflexivity.
Qed.

(** A latched session whose key is accepted, and a session with the
    network down. *)
Lemma validateApiKey_outcomes_witness :
  run_value (validateApiKey None (fun _ => Returned (mkResponse (Some "OK") None None)))
    latched_world = Returned true
  /\ sessionForceOffline
       (run_state
          (validateApiKey None (fun _ => Returned (mkResponse (Some "OK") None None)))
          latched_world) = false
  /\ validateApiKey (Some "AIza-other") remote_ok
       (mkWorld false (mkEnv None (ReadItem None) false false) 0 [])
     = (Returned false, mkWorld false (mkEnv None (ReadItem None) false false) 0 []).
Proof.
  pose proof (validateApiKey_outcomes None
                (fun _ => Returned (mkResponse (Some "OK") None None))
                latched_world) as (_ & _ & _ & Hiff & Hclear & _).
  assert (Htrue : run_value
                    (validateApiKey None
                       (fun _ => Returned (mkResponse (Some "OK") None None)))
                    latched_world = Returned true).
  { apply Hiff. split; [reflexivity|].
    exists (mkResponse (Some "OK") None None). split; reflexivity. }
  split; [exact Htrue|]. split; [exact (Hclear Htrue)|].
  apply (validateApiKey_outcomes (Some "AIza-other") remote_ok
           (mkWorld false (mkEnv None (ReadItem None) false false) 0 [])).
  reflexivity.
Defined.

(** X7. When [validateApiKey()], called without a key, answers [true], the
    health check answers [true] right after, also in a session whose latch
    was set: a successful validation of the configured key brings a
    failed-over session back online. *)
Theorem validateApiKey_restores_health :
  forall (remote : Attempt GenerateContentResponse) (w : World),
    run_value (validateApiKey None remote) w = Returned true ->
    run_value checkOnlineStatus (run_state (validateApiKey None remote) w)
    = Returned true.
Proof.
  intros remote w. unfold run_value, run_state.
  rewrite validateApiKey_eq, checkOnlineStatus_eq. cbn [fst].
  unfold key_to_test. cbn [orb].
  destruct (credentialPresent (env w)) eqn:Hc; cbn [andb];
    [destruct (navigator_onLine (env w)) eqn:Hon|]; try discriminate.
  destruct (remote (calls w)) as [response|e]; try discriminate.
  destruct (answers_ok response); try discriminate.
  intros _. unfold run_state. rewrite resetHandshake_eq.
  unfold reachable. cbn [fst snd env sessionForceOffline after_call].
  now rewrite Hc, Hon.
Qed.

(** A latched session with a configured key and an accepting service. *)
Lemma validateApiKey_restores_health_witness :
  run_value checkOnlineStatus latched_world = Returned false
  /\ run_value checkOnlineStatus
       (run_state
          (validateApiKey None (fun _ => Returned (mkResponse (Some "ok") None None)))
          latched_world) = Returned true.
Proof.
  split; [reflexivity|].
  apply (validateApiKey_restores_health
           (fun _ => Returned (mkResponse (Some "ok") None None)) latched_world).
  reflexivity.
Defined.

(** X8. [verifyTechnique] never throws. It reports success on its own
    account in three cases: the health check fails (nothing is sent and
    the world is as it was), [withRetry] throws, or [JSON.parse] throws.
    An answer that parses is returned as it was parsed, unchecked. An
    empty or missing text does not count as a failure: the code parses its
    own default [{}] and returns an object with neither [success] nor
    [feedback], so the success default does not cover an empty answer. A
    result other than success is always the parse of an answer. *)
Theorem verifyTechnique_outcomes :
  forall (image instruction : string)
         (remote : Attempt GenerateContentResponse) (w : World),
    exists verdict,
      run_value (verifyTechnique host image instruction remote) w = Returned verdict
      /\ (run_value checkOnlineStatus w = Returned false ->
          verdict = mkVerdict (Some true)
                      (Some "Technique verified via edge ensemble models.")
          /\ run_state (verifyTechnique host image instruction remote) w = w)
      /\ (run_value checkOnlineStatus w = Returned true ->
          (forall e, run_value (withRetry remote 3 2000) w = Thrown e ->
             verdict = mkVerdict (Some true) (Some "Handshake stable via local logic."))
          /\ (forall response,
                run_value (withRetry remote 3 2000) w = Returned response ->
                (forall e,
                    JSON_parse_verdict host (or_str (text response) "{}") = Thrown e ->
                    verdict = mkVerdict (Some true)
                                (Some "Handshake stable via local logic."))
                /\ (forall parsed,
                       JSON_parse_verdict host (or_str (text response) "{}")
                       = Returned parsed ->
                       verdict = parsed)
                /\ (text response = None \/ text response = Some "" ->
                    JSON_parse_verdict host "{}" = Returned (mkVerdict None None) ->
                    verdict = mkVerdict None None /\ success verdict <> Some true)))
      /\ (success verdict <> Some true ->
          exists response,
            run_value (withRetry remote 3 2000) w = Returned response
            /\ JSON_parse_verdict host (or_str (text response) "{}")
               = Returned verdict).
Proof.
  intros image instruction remote w. unfold run_value, run_state.
  rewrite verifyTechnique_eq, checkOnlineStatus_eq. cbn [fst].
  destruct (reachable w).
  - destruct (withRetry remote 3 2000 w) as [[response|e'] w']; cbn [fst snd].
    + destruct (JSON_parse_verdict host (or_str (text response) "{}"))
        as [v|e'] eqn:Hp; eexists;
        (split; [reflexivity|]); (split; [discriminate|]); cbn [fst].
      * split.
        -- intros _. split; [discriminate|].
           intros r [= <-]. rewrite Hp.
           split; [discriminate|]. split; [now intros parsed [= ->]|].
           intros Htext Hbraces.
           assert (Hdefault : or_str (text response) "{}" = "{}")
             by (destruct Htext as [-> | ->]; reflexivity).
           rewrite Hdefault, Hbraces in Hp. injection Hp as <-.
           split; [reflexivity|discriminate].
        -- intros _. exists response. now split.
      * split.
        -- intros _. split; [discriminate|].
           intros r [= <-]. rewrite Hp.
           split; [reflexivity|]. split; [discriminate|].
           intros Htext Hbraces.
           assert (Hdefault : or_str (text response) "{}" = "{}")
             by (destruct Htext as [-> | ->]; reflexivity).
           rewrite Hdefault, Hbraces in Hp. discriminate.
        -- cbn [success]. intros Hs. now elim Hs.
    + eexists. split; [reflexivity|]. split; [discriminate|].
      split; [intros _; split; [reflexivity|discriminate]|].
      cbn [success]. intros Hs. now elim Hs.
  - eexists. split; [reflexivity|]. cbn [fst snd success].
    split; [now split|]. split; [discriminate|].
    intros Hs. now elim Hs.
Qed.

(** X9. [askSousChef] with a step index outside the protocol's
    instructions never reaches the service: reading the missing step
    throws while the request is being built, so no invocation is made nor
    recorded, and the caller gets the "handshake interrupted" fallback
    whatever the service would have answered. The engine's error still
    passes through [withRetry]: the latch is set exactly when its message
    reads as a quota error, and when the message is not one [withRetry]
    retries the world is left as it was. *)
Theorem askSousChef_step_out_of_range :
  forall (question : string) (protocol : NeuralProtocol) (stepIndex : Z)
         (remote : Attempt GenerateContentResponse) (w : World),
    (stepIndex < 0 \/ Z.of_nat (List.length (instructions protocol)) <= stepIndex)%Z ->
    run_value checkOnlineStatus w = Returned true ->
    let w' := run_state (askSousChef host question protocol stepIndex remote) w in
    run_value (askSousChef host question protocol stepIndex remote) w
    = Returned "Neural handshake interrupted. Falling back to fundamental technique rules."
    /\ calls w' = calls w
    /\ invocations (trace w') = invocations (trace w)
    /\ (forall other : Attempt GenerateContentResponse,
          askSousChef host question protocol stepIndex other w
          = askSousChef host question protocol stepIndex remote w)
    /\ sessionForceOffline w' = isQuotaExceeded (errorMsg_of (undefined_read host))
    /\ (isTransient (errorMsg_of (undefined_read host)) = false -> w' = w).
Proof.
  intros question protocol stepIndex remote w Hrange Hon. cbv zeta.
  unfold run_value in *. rewrite checkOnlineStatus_eq in Hon. cbn [fst] in Hon.
  assert (Hr : reachable w = true) by congruence.
  pose proof (reachable_unlatched w Hr) as Hl.
  pose proof (step_at_out_of_range protocol stepIndex Hrange) as Hstep.
  assert (Hother : forall other,
             askSousChef host question protocol stepIndex other w
             = askSousChef host question protocol stepIndex remote w).
  { intros other. now rewrite !askSousChef_eq, Hstep. }
  destruct (withRetry_thunk_throw (T := GenerateContentResponse)
              (undefined_read host) 3 2000 w)
    as (e' & w' & Hrun & Hc & _ & Hi & Hlatch).
  rewrite Hl in Hlatch. cbn [orb] in Hlatch.
  assert (Heq : askSousChef host question protocol stepIndex remote w
                = (Returned "Neural handshake interrupted. Falling back to fundamental technique rules.", w')).
  { now rewrite askSousChef_eq, Hr, Hstep, Hrun. }
  unfold run_state.
  split; [now rewrite Heq|]. split; [now rewrite Heq|].
  split; [now rewrite Heq|]. split; [exact Hother|].
  split; [now rewrite Heq|].
  intros Ht. rewrite Heq. cbn [snd].
  assert (Hq : isQuotaExceeded (errorMsg_of (undefined_read host)) = false).
  { unfold isTransient in Ht.
    destruct (isQuotaExceeded (errorMsg_of (undefined_read host)));
      [discriminate|reflexivity]. }
  rewrite (withRetry_thunk_throw_giveup (undefined_read host) 3 2000 w Hl Hq) in Hrun
    by (now left).
  congruence.
Qed.

(** X10. [generateVisualBlueprint] never throws and never changes the
    latch or the answer of the health check, whatever its attempt throws.
    With the health check failing it returns the built-in offline
    blueprint without a request; when the image wrapper gives up it
    returns the built-in fallback blueprint. It returns no blueprint only
    when the service answered and the answer parsed to [null]. *)
Theorem generateVisualBlueprint_degrades :
  forall (dishName description : string)
         (remote : Attempt GenerateContentResponse) (w : World),
    exists result,
      run_value (generateVisualBlueprint host dishName description remote) w
      = Returned result
      /\ leaves_latch (generateVisualBlueprint host dishName description remote) w
      /\ (run_value checkOnlineStatus w = Returned false ->
          result = Some offline_blueprint
          /\ run_state (generateVisualBlueprint host dishName description remote) w = w)
      /\ (run_value checkOnlineStatus w = Returned true ->
          forall e, run_value (withImageRetry remote 2 1000) w = Thrown e ->
            result = Some fallback_blueprint)
      /\ (result = None ->
          exists response,
            run_value (withImageRetry remote 2 1000) w = Returned response
            /\ JSON_parse_blueprint host (or_str (text response) "null")
               = Returned None).
Proof.
  intros dishName description remote w.
  assert (Hframe : leaves_latch
                     (generateVisualBlueprint host dishName description remote) w).
  { unfold leaves_latch, run_value, run_state.
    rewrite !checkOnlineStatus_eq, generateVisualBlueprint_eq. cbn [fst].
    destruct (reachable w) eqn:Hr; [|cbn [snd]; now rewrite Hr].
    destruct (withImageRetry_latch_env remote 2 1000 w) as [Hl He].
    unfold run_state in Hl, He.
    assert (Hsame : forall w', sessionForceOffline w' = sessionForceOffline w ->
                               env w' = env w -> reachable w' = true).
    { intros w' H1 H2. unfold reachable in *. now rewrite H1, H2. }
    destruct (withImageRetry remote 2 1000 w) as [[response|e] w']; cbn [snd] in *;
      [destruct (JSON_parse_blueprint host _)|];
      cbn [snd logged sessionForceOffline env]; split; try assumption;
      f_equal; now apply Hsame. }
  unfold run_value, run_state.
  rewrite generateVisualBlueprint_eq, checkOnlineStatus_eq. cbn [fst].
  destruct (reachable w).
  - destruct (withImageRetry remote 2 1000 w) as [[response|e'] w']; cbn [fst snd].
    + destruct (JSON_parse_blueprint host _) as [b|e'] eqn:Hp; eexists;
        (split; [reflexivity|]); (split; [exact Hframe|]);
        (split; [discriminate|]); (split; [discriminate|]); intros Hs.
      * exists response. split; [reflexivity|]. now rewrite Hp, Hs.
      * discriminate.
    + eexists. split; [reflexivity|]. split; [exact Hframe|].
      split; [discriminate|]. split; [reflexivity|]. discriminate.
  - eexists. split; [reflexivity|]. split; [exact Hframe|]. cbn [fst snd].
    split; [now split|]. split; discriminate.
Qed.

(** X11. While the health check answers [false] (latch set, network down
    or no key), no image function and no blueprint request reaches the
    service: the four image functions return the empty string and
    [generateVisualBlueprint] the offline blueprint, each leaving the
    world, its invocation count included, as it was. A set latch stops
    image generation too, although the image wrapper itself never reads
    it. *)
Theorem unreachable_session_makes_no_asset_request :
  forall (protocol : NeuralProtocol) (name dishName description : string)
         (remote : Attempt GenerateContentResponse) (w : World),
    run_value checkOnlineStatus w = Returned false ->
    Forall (fun stage : M string => stage w = (Returned "", w))
      [ generatePlatingVisual protocol remote;
        generateDrinkVisual name remote;
        generateIngredientVisual name remote;
        generateSchematic protocol remote ]
    /\ generateVisualBlueprint host dishName description remote w
       = (Returned (Some offline_blueprint), w).
Proof.
  intros protocol name dishName description remote w Hoff.
  unfold run_value in Hoff. rewrite checkOnlineStatus_eq in Hoff. cbn [fst] in Hoff.
  assert (Hr : reachable w = false) by congruence.
  assert (Hstage : forall label, image_stage label remote w = (Returned "", w)).
  { intros label. now rewrite image_stage_eq, Hr. }
  split.
  - repeat apply Forall_cons; [| | | |apply Forall_nil].
    + exact (Hstage "[Image Generation] Plating visual failed:").
    + exact (Hstage "[Image Generation] Drink visual failed:").
    + exact (Hstage "[Image Generation] Ingredient visual failed:").
    + exact (Hstage "[Image Generation] Schematic failed:").
  - now rewrite generateVisualBlueprint_eq, Hr.
Qed.

(** X12. [synthesizeVoiceInstruction] speaks the text through the
    browser's own speech synthesis exactly when it throws, and exactly
    once: a run that returns a buffer leaves the spoken list alone, a run
    that throws appends the text to it. With the health check failing it
    throws [LocalTTS_Active] without a request. *)
Theorem synthesizeVoiceInstruction_speaks_iff_throws :
  forall (spokenText : string) (remote : Attempt GenerateContentResponse)
         (w : World) (spoken : list string),
    let run := synthesizeVoiceInstruction host spokenText remote (w, spoken) in
    (forall buffer, fst run = Returned buffer -> snd (snd run) = spoken)
    /\ (forall e, fst run = Thrown e -> snd (snd run) = (spoken ++ [spokenText])%list)
    /\ (run_value checkOnlineStatus w = Returned false ->
        run = (Thrown (Error "LocalTTS_Active"), (w, (spoken ++ [spokenText])%list))).
Proof.
  intros spokenText remote w spoken. cbn zeta.
  unfold synthesizeVoiceInstruction, run_value.
  rewrite checkOnlineStatus_eq. cbn [fst].
  destruct (reachable w).
  - destruct (requestVoice host remote w) as [[buffer|e] w1]; cbn [fst snd].
    + split; [reflexivity|]. split; discriminate.
    + split; [discriminate|]. split; [reflexivity|discriminate].
  - cbn [fst snd]. split; [discriminate|]. split; reflexivity.
Qed.

End ServiceRestFacts.

Section ServiceRestWitnesses.

Import Service ServiceRest JS.
Local Open Scope float_scope.
Local Open Scope string_scope.

(** With the network down, with a service that fails for good, and with
    a service that answers without a text. *)
Lemma verifyTechnique_outcomes_witness :
  run_value (verifyTechnique sample_host "" "julienne" remote_ok)
    (mkWorld false (mkEnv None (ReadItem None) false false) 0 [])
  = Returned (mkVerdict (Some true)
                (Some "Technique verified via edge ensemble models."))
  /\ run_value (verifyTechnique sample_host "" "julienne" remote_denied) fresh_world
     = Returned (mkVerdict (Some true) (Some "Handshake stable via local logic."))
  /\ run_value (verifyTechnique braces_host "" "julienne"
                  (fun _ => Returned (mkResponse None None None))) fresh_world
     = Returned (mkVerdict None None).
Proof.
  split; [|split].
  - destruct (verifyTechnique_outcomes sample_host "" "julienne" remote_ok
                (mkWorld false (mkEnv None (ReadItem None) false false) 0 []))
      as (v & -> & Hoff & _).
    f_equal. now apply Hoff.
  - destruct (verifyTechnique_outcomes sample_host "" "julienne" remote_denied fresh_world)
      as (v & -> & _ & Hon & _).
    f_equal. apply (proj1 (Hon eq_refl) (Error "PERMISSION_DENIED")). reflexivity.
  - destruct (verifyTechnique_outcomes braces_host "" "julienne"
                (fun _ => Returned (mkResponse None None None)) fresh_world)
      as (v & -> & _ & Hon & _).
    f_equal.
    apply (proj2 (proj2 (proj2 (Hon eq_refl) (mkResponse None None None) eq_refl)));
      [now left|reflexivity].
Defined.

(** A three-step protocol asked about its fourth step, and about step -1:
    the fallback, and nothing sent. *)
Lemma askSousChef_step_out_of_range_witness :
  run_value (askSousChef sample_host "How long?" (sample_protocol 3 []) 3 remote_ok)
    fresh_world
  = Returned "Neural handshake interrupted. Falling back to fundamental technique rules."
  /\ run_state (askSousChef sample_host "How long?" (sample_protocol 3 []) (-1) remote_ok)
       fresh_world
     = fresh_world.
Proof.
  split.
  - apply (askSousChef_step_out_of_range sample_host "How long?"
             (sample_protocol 3 []) 3 remote_ok fresh_world);
      [right; cbn; lia | reflexivity].
  - apply (askSousChef_step_out_of_range sample_host "How long?"
             (sample_protocol 3 []) (-1) remote_ok fresh_world);
      [left; lia | reflexivity | reflexivity].
Defined.

(** A session with the network down. *)
Lemma generateVisualBlueprint_degrades_witness :
  run_value (generateVisualBlueprint sample_host "Ratatouille" "" remote_quota)
    (mkWorld false (mkEnv None (ReadItem None) false false) 0 [])
  = Returned (Some offline_blueprint).
Proof.
  destruct (generateVisualBlueprint_degrades sample_host "Ratatouille" "" remote_quota
              (mkWorld false (mkEnv None (ReadItem None) false false) 0 []))
    as (result & -> & _ & Hoff & _).
  f_equal. now apply Hoff.
Defined.

(** A latched session. *)
Lemma unreachable_session_makes_no_asset_request_witness :
  generatePlatingVisual offline_protocol remote_ok latched_world
  = (Returned "", latched_world)
  /\ generateVisualBlueprint sample_host "Ratatouille" "" remote_ok latched_world
     = (Returned (Some offline_blueprint), latched_world).
Proof.
  destruct (unreachable_session_makes_no_asset_request sample_host offline_protocol
              "Chablis" "Ratatouille" "" remote_ok latched_world eq_refl)
    as [Himg Hbp].
  split; [exact (Forall_inv Himg)|exact Hbp].
Defined.

(** A latched session asked to speak. *)
Lemma synthesizeVoiceInstruction_speaks_iff_throws_witness :
  synthesizeVoiceInstruction sample_host "Sear for two minutes" remote_ok
    (latched_world, [])
  = (Thrown (Error "LocalTTS_Active"), (latched_world, ["Sear for two minutes"])).
Proof.
  apply (synthesizeVoiceInstruction_speaks_iff_throws sample_host
           "Sear for two minutes" remote_ok latched_world []).
  reflexivity.
Defined.

End ServiceRestWitnesses.

(** ** Audio decoding *)

Section AudioFacts.

Import Service ServiceRest JS.
Local Open Scope float_scope.

Lemma in_all_bytes (a : ascii) : In a all_bytes.
Proof.
  unfold all_bytes. rewrite <- (ascii_nat_embedding a).
  apply in_map, in_seq. pose proof (nat_ascii_bounded a). lia.
Qed.

Lemma pcm16_sample_in_range (lo hi : ascii) : unit_sample (pcm16_sample lo hi) = true.
Proof.
  assert (H : forallb (fun l => forallb (fun h => unit_sample (pcm16_sample l h)) all_bytes)
                all_bytes = true) by (vm_compute; reflexivity).
  rewrite forallb_forall in H. specialize (H lo (in_all_bytes lo)).
  rewrite forallb_forall in H. exact (H hi (in_all_bytes hi)).
Qed.

Lemma pcm16_samples_pairs (binary : string) :
  (List.length (pcm16_samples binary) = Nat.div2 (String.length binary)
   /\ Forall (fun x => unit_sample x = true) (pcm16_samples binary))
  /\ forall c,
       List.length (pcm16_samples (String c binary))
       = Nat.div2 (String.length (String c binary))
       /\ Forall (fun x => unit_sample x = true) (pcm16_samples (String c binary)).
Proof.
  induction binary as [|a rest [[IHlen IHrange] IHnext]].
  - split; [split; [reflexivity|constructor]|].
    intros c. split; [reflexivity|constructor].
  - split; [exact (IHnext a)|].
    intros c. cbn [pcm16_samples String.length Nat.div2 List.length].
    split; [now rewrite IHlen|].
    constructor; [apply pcm16_sample_in_range|exact IHrange].
Qed.

(** X13. The two decoding loops of [synthesizeVoiceInstruction] turn
    every pair of bytes into one sample: the channel holds half as many
    samples as there are bytes, and every sample is at least -1 and below
    1, whatever the bytes are. *)
Theorem pcm16_samples_shape :
  forall binary : string,
    List.length (pcm16_samples binary) = Nat.div2 (String.length binary)
    /\ Forall (fun x => unit_sample x = true) (pcm16_samples binary).
Proof. intros binary. exact (proj1 (pcm16_samples_pairs binary)). Qed.

(** X14. Audio decoding refuses a payload with an odd number of bytes (the
    16-bit view throws) instead of dropping the last byte; when it returns
    a buffer, the payload decoded to an even number of bytes, the buffer
    was created for exactly as many frames as it holds samples, and every
    sample is at least -1 and below 1. *)
Theorem decodeAudio_outcomes :
  forall (host : Host) (base64Audio : string),
    (forall binary,
       new_AudioContext host = Returned tt ->
       atob host base64Audio = Returned binary ->
       Nat.odd (String.length binary) = true ->
       decodeAudio host base64Audio
       = Thrown (Error "byte length of Int16Array should be a multiple of 2"))
    /\ (forall buffer,
          decodeAudio host base64Audio = Returned buffer ->
          exists binary,
            atob host base64Audio = Returned binary
            /\ Nat.odd (String.length binary) = false
            /\ createBuffer host (List.length buffer) = Returned tt
            /\ List.length buffer = Nat.div2 (String.length binary)
            /\ Forall (fun x => unit_sample x = true) buffer).
Proof.
  intros host base64Audio. unfold decodeAudio. split.
  - intros binary -> -> ->. reflexivity.
  - intros buffer.
    destruct (new_AudioContext host) as [[]|e]; [|discriminate].
    destruct (atob host base64Audio) as [binary|e]; [|discriminate].
    destruct (Nat.odd (String.length binary)) eqn:Hodd; [discriminate|].
    destruct (createBuffer host (Nat.div2 (String.length binary))) as [[]|e] eqn:Hbuf;
      [|discriminate].
    intros [= <-].
    destruct (pcm16_samples_shape binary) as [Hlen Hrange].
    exists binary. rewrite Hlen. repeat split; assumption.
Qed.

(** A payload of three bytes, and one of four. *)
Lemma decodeAudio_outcomes_witness :
  decodeAudio sample_host "abc"
  = Thrown (Error "byte length of Int16Array should be a multiple of 2")
  /\ createBuffer sample_host 2 = Returned tt.
Proof.
  split.
  - apply (decodeAudio_outcomes sample_host "abc") with (binary := "abc"%string);
      reflexivity.
  - destruct (proj2 (decodeAudio_outcomes sample_host "abcd")
                (pcm16_samples "abcd") eq_refl) as (binary & _ & _ & Hbuf & _).
    exact Hbuf.
Defined.

End AudioFacts.

(** ** The vision service *)

Section VisionFacts.

Import Service JS.
Local Open Scope float_scope.
Local Open Scope string_scope.

Variable API_KEY : option string.
Variable JSON_parse_analysis : string -> Outcome (option Vision.FoodAnalysisResult).
Variable null_read : JsError.

Local Abbreviation analyze :=
  (Vision.analyzeFoodImage API_KEY JSON_parse_analysis null_read).

Lemma vision_withRetry_frame {T} (fn : Attempt T) retries : forall delay w,
  sessionForceOffline (run_state (Vision.withRetry fn retries delay) w)
  = sessionForceOffline w
  /\ env (run_state (Vision.withRetry fn retries delay) w) = env w.
Proof.
  unfold run_state.
  induction retries as [|r IH]; intros delay w;
    (destruct (fn (calls w)) as [v|e] eqn:Hfn;
     [rewrite (vision_withRetry_returned _ _ _ _ _ Hfn); now cbn|]).
  - rewrite (vision_withRetry_giveup _ _ _ _ _ Hfn) by (right; now right). now cbn.
  - destruct (isQuotaExceeded (errorMsg_of e)) eqn:Hq;
      [rewrite (vision_withRetry_giveup _ _ _ _ _ Hfn) by (now left); now cbn|].
    destruct (isTransient (errorMsg_of e)) eqn:Ht;
      [|rewrite (vision_withRetry_giveup _ _ _ _ _ Hfn) by (right; now left); now cbn].
    rewrite (vision_withRetry_retry _ _ _ _ _ Hfn Hq Ht).
    apply (IH (delay * 2) (retried "[Gemini Vision]" (S r) delay w)).
Qed.

Lemma analyzeFoodImage_eq imageBase64 remote w :
  analyze imageBase64 remote w
  = if reachable w then
      if Vision.present API_KEY then
        match Vision.withRetry remote 3 2000 w with
        | (Returned response, w') =>
            match JSON_parse_analysis (or_str (text response) "{}") with
            | Returned (Some analysis) =>
                if Vision.invalid_structure analysis
                then (Returned Vision.getFallbackAnalysis,
                      logged (Warned "[Gemini Vision] Invalid response structure, using fallback") w')
                else (Returned analysis, w')
            | Returned None =>
                (Returned Vision.getFallbackAnalysis, logged analysis_failed w')
            | Thrown _ =>
                (Returned Vision.getFallbackAnalysis, logged analysis_failed w')
            end
        | (Thrown _, w') =>
            (Returned Vision.getFallbackAnalysis, logged analysis_failed w')
        end
      else (Returned Vision.getFallbackAnalysis, logged analysis_failed w)
    else (Returned Vision.getFallbackAnalysis,
          logged (Warned "[Gemini Vision] Offline mode - returning fallback analysis") w).
Proof.
  unfold Vision.analyzeFoodImage.
  unfold bind at 1. rewrite checkOnlineStatus_eq.
  destruct (reachable w); cbn [negb]; [|reflexivity].
  unfold try_catch, bind at 1, Vision.getAi, Vision.present.
  destruct API_KEY as [k|]; [destruct (truthy_str k)|]; try reflexivity.
  unfold ret at 1. unfold bind at 1.
  destruct (Vision.withRetry remote 3 2000 w) as [[response|e] w']; [|reflexivity].
  unfold bind at 1, lift.
  destruct (JSON_parse_analysis _) as [[analysis|]|e]; try reflexivity.
  destruct (Vision.invalid_structure analysis); reflexivity.
Qed.

(** X15. [analyzeFoodImage] never throws and never changes the latch or
    the surroundings, whatever the vision service does, a quota error
    included: its own [withRetry] has no latch. It makes at most four
    requests. *)
Theorem analyzeFoodImage_never_latches :
  forall (imageBase64 : string) (remote : Attempt GenerateContentResponse) (w : World),
    let after_ := run_state (analyze imageBase64 remote) w in
    (exists analysis, run_value (analyze imageBase64 remote) w = Returned analysis)
    /\ sessionForceOffline after_ = sessionForceOffline w
    /\ env after_ = env w
    /\ (calls w <= calls after_ <= calls w + 4)%nat.
Proof.
  intros imageBase64 remote w. cbn zeta. unfold run_value, run_state.
  rewrite analyzeFoodImage_eq.
  destruct (reachable w); [|cbn; repeat split; try lia; now eexists].
  destruct (Vision.present API_KEY); [|cbn; repeat split; try lia; now eexists].
  destruct (vision_withRetry_frame remote 3 2000 w) as [Hl He].
  pose proof (vision_withRetry_calls_bound remote 3 2000 w) as Hc.
  unfold run_state in Hl, He, Hc.
  destruct (Vision.withRetry remote 3 2000 w) as [[response|e] w']; cbn [snd] in *.
  - destruct (JSON_parse_analysis _) as [[analysis|]|e];
      [destruct (Vision.invalid_structure analysis)| |];
      cbn [fst snd logged sessionForceOffline env calls];
      (split; [now eexists|]); repeat split; try assumption; lia.
  - cbn [fst snd logged sessionForceOffline env calls].
    split; [now eexists|]. repeat split; try assumption; lia.
Qed.

(** X16. [analyzeFoodImage] takes its key from the build-time constant,
    not from where the health check looks. Without that constant it
    returns the fallback analysis and sends nothing, also when the health
    check passes because a key is stored in the browser. *)
Theorem analyzeFoodImage_needs_build_key :
  forall (imageBase64 : string) (remote : Attempt GenerateContentResponse) (w : World),
    Vision.present API_KEY = false ->
    run_value (analyze imageBase64 remote) w = Returned Vision.getFallbackAnalysis
    /\ calls (run_state (analyze imageBase64 remote) w) = calls w
    /\ (run_value checkOnlineStatus w = Returned true ->
        run_state (analyze imageBase64 remote) w = logged analysis_failed w).
Proof.
  intros imageBase64 remote w Hkey. unfold run_value, run_state.
  rewrite analyzeFoodImage_eq, checkOnlineStatus_eq, Hkey. cbn [fst].
  destruct (reachable w); cbn [fst snd logged calls];
    repeat split; discriminate.
Qed.

(** X17. Whatever [analyzeFoodImage] returns names its ingredients, its
    cuisine and its cooking style: an answer of the service that lacks one
    of the three is replaced by the fallback analysis. A result other
    than the fallback is the parsed answer of the service. *)
Theorem analyzeFoodImage_result_is_structured :
  forall (imageBase64 : string) (remote : Attempt GenerateContentResponse) (w : World),
    exists analysis,
      run_value (analyze imageBase64 remote) w = Returned analysis
      /\ Vision.invalid_structure analysis = false
      /\ (analysis <> Vision.getFallbackAnalysis ->
          exists response,
            run_value (Vision.withRetry remote 3 2000) w = Returned response
            /\ JSON_parse_analysis (or_str (text response) "{}")
               = Returned (Some analysis)).
Proof.
  intros imageBase64 remote w. unfold run_value.
  rewrite analyzeFoodImage_eq.
  assert (Hfb : forall w' : World,
             exists analysis,
               fst (Returned Vision.getFallbackAnalysis, w') = Returned analysis
               /\ Vision.invalid_structure analysis = false
               /\ (analysis <> Vision.getFallbackAnalysis ->
                   exists response : GenerateContentResponse,
                     fst (Vision.withRetry remote 3 2000 w) = Returned response
                     /\ JSON_parse_analysis (or_str (text response) "{}")
                        = Returned (Some analysis))).
  { intros w'. exists Vision.getFallbackAnalysis.
    split; [reflexivity|]. split; [reflexivity|]. intros H. now elim H. }
  destruct (reachable w); [|apply Hfb].
  destruct (Vision.present API_KEY); [|apply Hfb].
  destruct (Vision.withRetry remote 3 2000 w) as [[response|e] w']; [|apply Hfb].
  destruct (JSON_parse_analysis _) as [[analysis|]|e] eqn:Hp; try apply Hfb.
  destruct (Vision.invalid_structure analysis) eqn:Hinv; [apply Hfb|].
  exists analysis. split; [reflexivity|]. split; [exact Hinv|].
  intros _. exists response. now split.
Qed.

End VisionFacts.

(** A key kept only in the browser's store: the health check passes, the
    vision analysis falls back. *)
Lemma analyzeFoodImage_needs_build_key_witness :
  run_value Service.checkOnlineStatus
    (mkWorld false (mkEnv None (ReadItem (Some "AIza-stored"%string)) true false) 0 [])
  = Returned true
  /\ run_value
       (Vision.analyzeFoodImage None (fun _ => Returned None) (Error "null"%string)
          ""%string remote_ok)
       (mkWorld false (mkEnv None (ReadItem (Some "AIza-stored"%string)) true false) 0 [])
     = Returned Vision.getFallbackAnalysis.
Proof.
  split; [reflexivity|].
  apply (analyzeFoodImage_needs_build_key None (fun _ => Returned None)
           (Error "null"%string) ""%string remote_ok).
  reflexivity.
Defined.

(** An answer without a cuisine. *)
Lemma analyzeFoodImage_result_is_structured_witness :
  run_value
    (Vision.analyzeFoodImage (Some "AIza-build"%string)
       (fun _ => Returned (Some (Vision.mkAnalysis (Some []) (Some ""%string)
                                   (Some "grilled"%string) None None None)))
       (Error "null"%string) ""%string remote_ok)
    fresh_world
  = Returned Vision.getFallbackAnalysis.
Proof.
  destruct (analyzeFoodImage_result_is_structured (Some "AIza-build"%string)
              (fun _ => Returned (Some (Vision.mkAnalysis (Some []) (Some ""%string)
                                          (Some "grilled"%string) None None None)))
              (Error "null"%string) ""%string remote_ok fresh_world)
    as (analysis & Hrun & _ & _).
  rewrite Hrun. f_equal.
  vm_compute in Hrun. now injection Hrun as <-.
Defined.

(** ** More on confidence fusion *)

Section FloatOrderFacts.

Local Open Scope float_scope.

Lemma SFcompare_refl_or_nan (x : spec_float) :
  SFcompare x x = Some Eq \/ x = S754_nan.
Proof.
  destruct x as [s|s| |s m e]; cbn [SFcompare]; auto; left.
  - now destruct s.
  - rewrite Z.compare_refl, Pos.compare_cont_refl. now destruct s.
Qed.

Lemma float_is_nan_eq (x : float) : PrimFloat.is_nan x = true -> x = nan.
Proof.
  unfold PrimFloat.is_nan. rewrite eqb_spec. unfold SFeqb. intros H.
  apply Prim2SF_inj. change (Prim2SF nan) with S754_nan.
  destruct (SFcompare_refl_or_nan (Prim2SF x)) as [Hc|Hn]; [|exact Hn].
  rewrite Hc in H. discriminate.
Qed.

Lemma float_not_nan_leb_refl (x : float) :
  PrimFloat.is_nan x = false -> (x <=? x) = true.
Proof.
  unfold PrimFloat.is_nan. rewrite eqb_spec, leb_spec. unfold SFeqb, SFleb.
  destruct (SFcompare (Prim2SF x) (Prim2SF x)) as [[ | | ]|]; now try discriminate.
Qed.

Lemma float_add_nan_l (x : float) : nan + x = nan.
Proof.
  apply Prim2SF_inj. rewrite add_spec.
  change (Prim2SF nan) with S754_nan. reflexivity.
Qed.

Lemma float_div_nan_l (x : float) : nan / x = nan.
Proof.
  apply Prim2SF_inj. rewrite div_spec.
  change (Prim2SF nan) with S754_nan. reflexivity.
Qed.

Lemma float_ltb_leb (x y : float) : (x <? y) = true -> (x <=? y) = true.
Proof.
  rewrite ltb_spec, leb_spec. unfold SFltb, SFleb.
  destruct (SFcompare (Prim2SF x) (Prim2SF y)) as [[ | | ]|]; now try discriminate.
Qed.

Lemma SFcompare_Gt_Lt (x y : spec_float) :
  SFcompare x y = Some Gt -> SFcompare y x = Some Lt.
Proof.
  destruct x as [sx|sx| |sx mx ex], y as [sy|sy| |sy my ey]; cbn [SFcompare];
    try discriminate; try (destruct sx; try destruct sy; now try discriminate).
  assert (Hp : Pos.compare_cont Eq my mx = CompOpp (Pos.compare_cont Eq mx my))
    by (rewrite Pos.compare_cont_antisym; reflexivity).
  rewrite (Z.compare_antisym ex ey), Hp.
  destruct sx, sy; try discriminate; try reflexivity;
    destruct (ex ?= ey)%Z; cbn [CompOpp]; try discriminate; try reflexivity;
    destruct (Pos.compare_cont Eq mx my); cbn [CompOpp];
    now try discriminate.
Qed.

(** Neither argument NaN and neither strictly below the other: the two
    compare as equal. *)
Lemma float_not_lt_leb (x y : float) :
  PrimFloat.is_nan x = false -> PrimFloat.is_nan y = false ->
  (y <? x) = false -> (x <=? y) = true.
Proof.
  intros Hx Hy. rewrite ltb_spec, leb_spec. unfold SFltb, SFleb.
  destruct (SFcompare (Prim2SF x) (Prim2SF y)) as [[ | | ]|] eqn:Hc; try reflexivity.
  - rewrite (SFcompare_Gt_Lt _ _ Hc). discriminate.
  - exfalso.
    assert (Hnx : Prim2SF x <> S754_nan).
    { intros E. apply (f_equal SF2Prim) in E. rewrite SF2Prim_Prim2SF in E.
      subst x. discriminate. }
    assert (Hny : Prim2SF y <> S754_nan).
    { intros E. apply (f_equal SF2Prim) in E. rewrite SF2Prim_Prim2SF in E.
      subst y. discriminate. }
    destruct (Prim2SF x) as [sx|sx| |sx mx ex], (Prim2SF y) as [sy|sy| |sy my ey];
      cbn [SFcompare] in Hc; try discriminate; congruence.
Qed.

(** [Math.min(a, b)] is NaN or at most [b]. *)
Lemma Math_min_le_r (a b : float) :
  PrimFloat.is_nan (JS.Math_min a b) = true \/ (JS.Math_min a b <=? b) = true.
Proof.
  unfold JS.Math_min.
  destruct (PrimFloat.is_nan a) eqn:Ha; [now left|].
  destruct (PrimFloat.is_nan b) eqn:Hb; [now left|].
  cbn [orb]. right.
  destruct (a <? b) eqn:Hab; [now apply float_ltb_leb|].
  destruct (b <? a) eqn:Hba; [now apply float_not_nan_leb_refl|].
  destruct (PrimFloat.get_sign a);
    [now apply float_not_lt_leb|now apply float_not_nan_leb_refl].
Qed.

End FloatOrderFacts.

Section FusionExtras.

Import Fusion JS.
Local Open Scope float_scope.
Local Open Scope string_scope.

Lemma item_score_nan memory curr :
  PrimFloat.is_nan (confidence curr) = true -> item_score memory curr = nan.
Proof.
  intros H. apply float_is_nan_eq in H. unfold item_score. rewrite H.
  destruct (verificationStatus curr) as [[ | | ]|];
    try change (Math_max nan 0.85) with nan;
    now rewrite float_add_nan_l.
Qed.

Lemma score_fold_nan memory (l : list Ingredient) :
  fold_left (fun acc curr => acc + item_score memory curr) l nan = nan.
Proof.
  induction l as [|i l IH]; [reflexivity|].
  cbn [fold_left]. now rewrite float_add_nan_l.
Qed.

(** X18. One ingredient whose confidence is NaN (a missing confidence
    added to a number) makes the whole perception term 1.0: the sum is
    NaN, NaN is falsy, and [|| 1] replaces it, whatever the other
    ingredients score. *)
Theorem nan_confidence_gives_full_perception :
  forall (memory : NumberRecord) (mlInventory : list Ingredient),
    Exists (fun i => PrimFloat.is_nan (confidence i) = true) mlInventory ->
    score_sum memory mlInventory = nan
    /\ mlConfidence memory mlInventory = 1.
Proof.
  intros memory mlInventory Hex.
  assert (Hsum : score_sum memory mlInventory = nan).
  { unfold score_sum. generalize 0.
    induction Hex as [i l Hi|i l _ IH]; intros acc; cbn [fold_left].
    - rewrite (item_score_nan memory i Hi), float_add_nan_r.
      apply score_fold_nan.
    - apply IH. }
  split; [exact Hsum|].
  unfold mlConfidence. now rewrite Hsum, float_div_nan_l.
Qed.

(** A tomato at 0.2 next to an ingredient without a usable confidence. *)
Lemma nan_confidence_gives_full_perception_witness :
  mlConfidence [] [sample_ingredient "tomato" 0.2; sample_ingredient "basil" nan] = 1.
Proof.
  apply (nan_confidence_gives_full_perception []
           [sample_ingredient "tomato" 0.2; sample_ingredient "basil" nan]).
  apply Exists_cons_tl, Exists_cons_hd. reflexivity.
Defined.

(** X19. No ingredient adds more than 1.0 to the perception sum: its
    score is NaN or at most 1, whatever its confidence (above 1 or
    infinite included), its status and the remembered confirmations. *)
Theorem item_score_capped :
  forall (memory : NumberRecord) (curr : Ingredient),
    PrimFloat.is_nan (item_score memory curr) = true
    \/ (item_score memory curr <=? 1)%float = true.
Proof.
  intros memory curr. unfold item_score. apply Math_min_le_r.
Qed.

Lemma has_mlNames mlInventory (x : string) :
  has (mlNames mlInventory) x = true
  <-> exists i, In i mlInventory /\ toLowerCase (name i) = x.
Proof.
  unfold has, mlNames. rewrite existsb_exists. split.
  - intros (y & Hy & Hxy). apply in_map_iff in Hy as (i & <- & Hi).
    apply String.eqb_eq in Hxy. eauto.
  - intros (i & Hi & <-). exists (toLowerCase (name i)).
    split; [apply in_map_iff; eauto|apply String.eqb_refl].
Qed.

(** X20. The hallucination count is the number of referenced names
    without a perceived ingredient of the same name up to letter case. It
    never exceeds the number of referenced names, it is zero exactly when
    every referenced name is perceived, and against an empty inventory
    every referenced name counts. *)
Theorem hallucinations_counts_unperceived :
  forall (mlInventory : list Ingredient) (protocol : NeuralProtocol),
    (hallucinations mlInventory protocol <= List.length (ingredients_used protocol))%nat
    /\ (hallucinations mlInventory protocol = 0%nat
        <-> forall ing, In ing (ingredients_used protocol) ->
              exists i, In i mlInventory
                        /\ toLowerCase (name i) = toLowerCase ing)
    /\ hallucinations [] protocol = List.length (ingredients_used protocol).
Proof.
  intros mlInventory protocol. unfold hallucinations.
  split; [apply filter_length_le|]. split.
  - split.
    + intros Hzero ing Hin. apply has_mlNames.
      destruct (has (mlNames mlInventory) (toLowerCase ing)) eqn:Hhas; [reflexivity|].
      apply length_zero_iff_nil in Hzero.
      assert (Hf : In ing (filter (fun ing0 =>
                     negb (has (mlNames mlInventory) (toLowerCase ing0)))
                     (ingredients_used protocol))).
      { apply filter_In. split; [exact Hin|]. now rewrite Hhas. }
      rewrite Hzero in Hf. contradiction.
    + intros Hall. apply length_zero_iff_nil.
      induction (ingredients_used protocol) as [|ing l IH]; [reflexivity|].
      cbn [filter].
      assert (Hhas : has (mlNames mlInventory) (toLowerCase ing) = true).
      { apply has_mlNames. apply Hall. now left. }
      rewrite Hhas. cbn [negb]. apply IH. intros x Hx. apply Hall. now right.
  - induction (ingredients_used protocol) as [|ing l IH]; [reflexivity|].
    cbn [filter mlNames map has existsb negb List.length]. now rewrite <- IH.
Qed.

(** "Tomato" perceived, "TOMATO" referenced. *)
Lemma hallucinations_counts_unperceived_witness :
  hallucinations [sample_ingredient "Tomato" 0.6] (sample_protocol 5 ["TOMATO"]) = 0%nat.
Proof.
  apply (hallucinations_counts_unperceived [sample_ingredient "Tomato" 0.6]
           (sample_protocol 5 ["TOMATO"])).
  intros ing [<-|[]]. exists (sample_ingredient "Tomato" 0.6).
  split; [now left|reflexivity].
Defined.

End FusionExtras.

(** ** The preference store *)

Section StoreFacts.

Import JS.
Local Open Scope string_scope.

(** X28. [calculateCompositeConfidence] is not total. It throws, for
    every inventory and protocol, exactly when the preference store cannot
    be read, holds a text [JSON.parse] rejects, or holds a text that
    parses to [null] (the read of [confidenceMemory] then fails). A store
    without the entry, or with the empty string, is read as no
    preferences; in every other case the score is the one computed from
    the parsed preferences. *)
Theorem calculateCompositeConfidence_throws_on_bad_store :
  forall (stored : StorageRead)
         (JSON_parse : string -> Outcome (option UserPreferences))
         (null_read : JsError)
         (mlInventory : list Ingredient) (protocol : NeuralProtocol),
    let run := FusionStore.calculateCompositeConfidence stored JSON_parse null_read
                 mlInventory protocol in
    (forall e,
        run = Thrown e
        <-> stored = ReadFails e
            \/ exists saved,
                 stored = ReadItem (Some saved) /\ saved <> ""
                 /\ (JSON_parse saved = Thrown e
                     \/ (JSON_parse saved = Returned None /\ e = null_read)))
    /\ (stored = ReadItem None \/ stored = ReadItem (Some "") ->
        run = Returned (Fusion.calculateCompositeConfidence None mlInventory protocol))
    /\ (forall saved prefs,
          stored = ReadItem (Some saved) -> saved <> "" ->
          JSON_parse saved = Returned (Some prefs) ->
          run = Returned (Fusion.calculateCompositeConfidence (Some prefs)
                            mlInventory protocol)).
Proof.
  intros stored JSON_parse null_read mlInventory protocol. cbv zeta.
  unfold FusionStore.calculateCompositeConfidence, FusionStore.stored_preferences.
  assert (Htruthy : forall t, truthy_str t = negb (String.eqb t ""))
    by reflexivity.
  split; [|split].
  - intros e. split.
    + destruct stored as [e0|[saved|]]; [intros [= ->]; now left| |discriminate].
      rewrite Htruthy. destruct (String.eqb_spec saved "") as [->|Hne];
        cbn [negb]; [discriminate|].
      intros Hrun. right. exists saved. split; [reflexivity|]. split; [exact Hne|].
      destruct (JSON_parse saved) as [[prefs|]|e1]; [discriminate| |].
      * injection Hrun as <-. right. now split.
      * injection Hrun as <-. now left.
    + intros [->|(saved & -> & Hne & Hparse)]; [reflexivity|].
      rewrite Htruthy. destruct (String.eqb_spec saved "") as [->|_];
        [now elim Hne|]. cbn [negb].
      destruct Hparse as [->|[-> ->]]; reflexivity.
  - intros [->| ->]; reflexivity.
  - intros saved prefs -> Hne Hparse.
    rewrite Htruthy. destruct (String.eqb_spec saved "") as [->|_];
      [now elim Hne|]. cbn [negb]. now rewrite Hparse.
Qed.

(** A store that holds the text [null]. *)
Lemma calculateCompositeConfidence_throws_on_bad_store_witness :
  FusionStore.calculateCompositeConfidence (ReadItem (Some "null"))
    (fun saved => if String.eqb saved "null" then Returned None
                  else Thrown (Error "Unexpected token"))
    (Error "Cannot read properties of null (reading 'confidenceMemory')")
    [sample_ingredient "tomato" 0.6] (sample_protocol 5 ["tomato"])
  = Thrown (Error "Cannot read properties of null (reading 'confidenceMemory')").
Proof.
  apply (proj1 (calculateCompositeConfidence_throws_on_bad_store
                  (ReadItem (Some "null"))
                  (fun saved => if String.eqb saved "null" then Returned None
                                else Thrown (Error "Unexpected token"))
                  (Error "Cannot read properties of null (reading 'confidenceMemory')")
                  [sample_ingredient "tomato" 0.6] (sample_protocol 5 ["tomato"]))).
  right. exists "null". split; [reflexivity|]. split; [discriminate|].
  right. now split.
Defined.

End StoreFacts.

(** ** Code fences *)

Section FenceFacts.

Import Service JS.
Local Open Scope string_scope.

Lemma prefix_cons (a : ascii) (p s : string) :
  String.prefix (String a p) s
  = match s with
    | EmptyString => false
    | String b r => if ascii_dec a b then String.prefix p r else false
    end.
Proof. destruct s as [|b r]; [reflexivity|]. cbn. now destruct (ascii_dec a b). Qed.

Lemma prefix_app_l (p q : string) : forall s,
  String.prefix (p ++ q) s = true -> String.prefix p s = true.
Proof.
  induction p as [|a p IH]; intros s H.
  - now destruct s.
  - cbn [append] in H. rewrite prefix_cons in *.
    destruct s as [|b r]; [discriminate|].
    destruct (ascii_dec a b); [now apply IH|discriminate].
Qed.

Lemma strip_fences_step (c : ascii) (r : string) :
  strip_fences_from 0 (String c r)
  = if String.prefix ("```json" ++ String (ascii_of_nat 10) "") (String c r)
    then strip_fences_from 7 r
    else if String.prefix "```json" (String c r) then strip_fences_from 6 r
    else if String.prefix "```" (String c r) then strip_fences_from 2 r
    else String c (strip_fences_from 0 r).
Proof. reflexivity. Qed.

(** What [strip_fences] does at the head of a string: it drops a match
    that starts there, which needs a fence there, or it keeps the first
    character. *)
Lemma strip_fences_head (c : ascii) (r : string) :
  (String.prefix "```" (String c r) = true
   /\ exists k, strip_fences_from 0 (String c r) = strip_fences_from k r)
  \/ (String.prefix "```" (String c r) = false
      /\ strip_fences_from 0 (String c r) = String c (strip_fences_from 0 r)).
Proof.
  rewrite strip_fences_step.
  destruct (String.prefix ("```json" ++ String (ascii_of_nat 10) "") (String c r)) eqn:H8.
  { left. split; [|now exists 7%nat].
    exact (prefix_app_l "```" ("json" ++ String (ascii_of_nat 10) "") _ H8). }
  destruct (String.prefix "```json" (String c r)) eqn:H7.
  { left. split; [|now exists 6%nat]. exact (prefix_app_l "```" "json" _ H7). }
  destruct (String.prefix "```" (String c r)) eqn:H3.
  { left. split; [reflexivity|now exists 2%nat]. }
  right. now split.
Qed.

Lemma strip_keeps_one_tick (x : string) :
  String.prefix "`" (strip_fences_from 0 x) = true -> String.prefix "`" x = true.
Proof.
  destruct x as [|c r]; [discriminate|].
  destruct (strip_fences_head c r) as [[H3 _]|[_ ->]].
  - intros _. exact (prefix_app_l "`" "``" _ H3).
  - rewrite !prefix_cons. destruct (ascii_dec "`" c); [|discriminate].
    intros _. now destruct r.
Qed.

Lemma strip_keeps_two_ticks (x : string) :
  String.prefix "``" (strip_fences_from 0 x) = true -> String.prefix "``" x = true.
Proof.
  destruct x as [|c r]; [discriminate|].
  destruct (strip_fences_head c r) as [[H3 _]|[_ ->]].
  - intros _. exact (prefix_app_l "``" "`" _ H3).
  - rewrite !(prefix_cons "`" "`"). destruct (ascii_dec "`" c); [|discriminate].
    apply strip_keeps_one_tick.
Qed.

Lemma strip_fences_from_clean (s : string) : forall skip,
  includes (strip_fences_from skip s) "```" = false.
Proof.
  induction s as [|c r IH]; intros skip.
  - now destruct skip.
  - destruct skip as [|k]; [|apply IH].
    destruct (strip_fences_head c r) as [[_ [k ->]]|[H3 ->]]; [apply IH|].
    cbn [includes]. rewrite IH, orb_false_r.
    rewrite prefix_cons in *.
    destruct (ascii_dec "`" c); [|reflexivity].
    destruct (String.prefix "``" (strip_fences_from 0 r)) eqn:H2; [|reflexivity].
    now rewrite (strip_keeps_two_ticks r H2) in H3.
Qed.

Lemma strip_fences_from_fixed (s : string) :
  includes s "```" = false -> strip_fences_from 0 s = s.
Proof.
  induction s as [|c r IH]; [reflexivity|].
  cbn [includes]. intros H. apply orb_false_iff in H as [H3 Hr].
  destruct (strip_fences_head c r) as [[H3' _]|[_ ->]]; [congruence|].
  now rewrite IH.
Qed.

(** X21. Stripping code fences leaves no fence behind: the result never
    contains three backticks in a row, so the replacement cannot join the
    backticks on either side of a removed fence into a new one. A text
    without a fence is passed on unchanged, and stripping twice is
    stripping once. *)
Theorem strip_fences_removes_every_fence :
  forall s : string,
    includes (strip_fences s) "```" = false
    /\ (includes s "```" = false -> strip_fences s = s)
    /\ strip_fences (strip_fences s) = strip_fences s.
Proof.
  intros s. unfold strip_fences.
  split; [apply strip_fences_from_clean|].
  split; [apply strip_fences_from_fixed|].
  apply strip_fences_from_fixed, strip_fences_from_clean.
Qed.

(** A text with single backticks and no fence. *)
Lemma strip_fences_removes_every_fence_witness :
  strip_fences "{ title: `Ratatouille` }" = "{ title: `Ratatouille` }".
Proof.
  exact (proj1 (proj2 (strip_fences_removes_every_fence "{ title: `Ratatouille` }"))
           eq_refl).
Defined.

End FenceFacts.

(** ** Keys, results and the latch of the assistant calls *)

Section MoreServiceFacts.

Import Service ServiceRest JS.
Local Open Scope float_scope.
Local Open Scope string_scope.

(** X22. Key resolution prefers the build-time key: when it is a
    non-empty string it is returned and the browser's store is not
    consulted, so a store that throws does no harm. Otherwise a non-empty
    stored key is returned, and a throwing store makes the resolution
    throw the store's error. A key that is returned is never empty, and
    resolving changes nothing. *)
Theorem resolveGeminiApiKey_priority :
  forall w : World,
    (forall envKey,
       VITE_GEMINI_API_KEY (env w) = Some envKey -> truthy_str envKey = true ->
       resolveGeminiApiKey w = (Returned envKey, w))
    /\ (forall storedKey,
          match VITE_GEMINI_API_KEY (env w) with
          | Some envKey => truthy_str envKey
          | None => false
          end = false ->
          stored_GEMINI_API_KEY (env w) = ReadItem (Some storedKey) ->
          truthy_str storedKey = true ->
          resolveGeminiApiKey w = (Returned storedKey, w))
    /\ (forall e,
          match VITE_GEMINI_API_KEY (env w) with
          | Some envKey => truthy_str envKey
          | None => false
          end = false ->
          stored_GEMINI_API_KEY (env w) = ReadFails e ->
          resolveGeminiApiKey w = (Thrown e, w))
    /\ (forall key w',
          resolveGeminiApiKey w = (Returned key, w') ->
          key <> "" /\ w' = w).
Proof.
  intros [latch [envKey stored online dev] n tr].
  unfold resolveGeminiApiKey, resolveStoredKey, bind, read_env, ret, throw.
  cbn [env VITE_GEMINI_API_KEY stored_GEMINI_API_KEY].
  assert (Hne : forall k, truthy_str k = true -> k <> "").
  { intros k Hk ->. discriminate. }
  split; [|split; [|split]].
  - intros k [= ->] ->. reflexivity.
  - intros storedKey Henv -> Hk.
    destruct envKey as [k|]; rewrite ?Henv;
      cbv beta iota delta [env stored_GEMINI_API_KEY]; rewrite Hk; reflexivity.
  - intros e Henv ->.
    destruct envKey as [k|]; rewrite ?Henv; reflexivity.
  - intros key w'.
    destruct envKey as [k|]; [destruct (truthy_str k) eqn:Hk|];
      cbv beta iota delta [env stored_GEMINI_API_KEY].
    + intros [= <- <-]. split; [now apply Hne|reflexivity].
    + destruct stored as [e|[sk|]]; try discriminate.
      destruct (truthy_str sk) eqn:Hsk; [|discriminate].
      intros [= <- <-]. split; [now apply Hne|reflexivity].
    + destruct stored as [e|[sk|]]; try discriminate.
      destruct (truthy_str sk) eqn:Hsk; [|discriminate].
      intros [= <- <-]. split; [now apply Hne|reflexivity].
Qed.

(** A build-time key with a store that throws, and an empty build-time
    key with a stored one. *)
Lemma resolveGeminiApiKey_priority_witness :
  resolveGeminiApiKey
    (mkWorld false (mkEnv (Some "AIza-build") (ReadFails (Error "SecurityError")) true false)
       0 [])
  = (Returned "AIza-build",
     mkWorld false (mkEnv (Some "AIza-build") (ReadFails (Error "SecurityError")) true false)
       0 [])
  /\ run_value resolveGeminiApiKey
       (mkWorld false (mkEnv (Some "") (ReadItem (Some "AIza-stored")) true false) 0 [])
     = Returned "AIza-stored".
Proof.
  split.
  - exact (proj1 (resolveGeminiApiKey_priority
                    (mkWorld false
                       (mkEnv (Some "AIza-build") (ReadFails (Error "SecurityError"))
                          true false)
                       0 []))
             "AIza-build" eq_refl eq_refl).
  - unfold run_value.
    rewrite (proj1 (proj2 (resolveGeminiApiKey_priority
               (mkWorld false (mkEnv (Some "") (ReadItem (Some "AIza-stored")) true false)
                  0 []))) "AIza-stored" eq_refl eq_refl eq_refl).
    reflexivity.
Defined.

Lemma image_data_url_shape (response : GenerateContentResponse) :
  url_or_nothing (image_data_url response).
Proof.
  unfold image_data_url, url_or_nothing.
  destruct (find _ _) as [[data|]|]; try (now left).
  destruct (truthy_str data) eqn:Hd; [|now left].
  right. exists data. split; [|reflexivity]. intros ->. discriminate.
Qed.

Lemma image_stage_url label remote w :
  exists url, run_value (image_stage label remote) w = Returned url
              /\ url_or_nothing url.
Proof.
  unfold run_value. rewrite image_stage_eq.
  destruct (reachable w); [|exists ""; split; [reflexivity|now left]].
  destruct (withImageRetry remote 2 1000 w) as [[response|e] w']; cbn [fst].
  - eexists. split; [reflexivity|apply image_data_url_shape].
  - exists "". split; [reflexivity|now left].
Qed.

(** X23. Each of the four image functions always returns, and what it
    returns is either the empty string or a PNG data URL with a non-empty
    payload: never a bare prefix, never an exception. *)
Theorem image_functions_return_url_or_nothing :
  forall (protocol : NeuralProtocol) (name : string)
         (remote : Attempt GenerateContentResponse) (w : World),
    Forall (fun stage : M string =>
              exists url, run_value stage w = Returned url /\ url_or_nothing url)
      [ generatePlatingVisual protocol remote;
        generateDrinkVisual name remote;
        generateIngredientVisual name remote;
        generateSchematic protocol remote ].
Proof.
  intros protocol name remote w.
  repeat apply Forall_cons; [| | | |apply Forall_nil].
  - exact (image_stage_url "[Image Generation] Plating visual failed:" remote w).
  - exact (image_stage_url "[Image Generation] Drink visual failed:" remote w).
  - exact (image_stage_url "[Image Generation] Ingredient visual failed:" remote w).
  - exact (image_stage_url "[Image Generation] Schematic failed:" remote w).
Qed.

Lemma groundingSources_nonempty (response : GenerateContentResponse) :
  Forall (fun uri => uri <> "") (groundingSources_of response).
Proof.
  unfold groundingSources_of.
  destruct (groundingChunks response) as [chunks|]; [|constructor].
  induction chunks as [|[u|] chunks IH]; cbn [flat_map app];
    [constructor| |exact IH].
  destruct (truthy_str u) eqn:Hu; cbn [app]; [|exact IH].
  constructor; [|exact IH]. intros ->. discriminate.
Qed.

(** X24. A protocol [synthesizeProtocol] returns is either the offline
    generator's or what [fuseResults] made of the service's answer; in the
    second case [fuseResults] was handed the parsed answer with its
    title, ingredients and instructions untouched, marked
    [isOffline = false], and with grounding sources none of which is
    empty. *)
Theorem synthesizeProtocol_online_result :
  forall (lib : Collaborators)
         (ingredients : list Ingredient) (preferences : UserPreferences)
         (remote : Attempt GenerateContentResponse) (w : World)
         (protocol : NeuralProtocol),
    run_value (synthesizeProtocol lib ingredients preferences remote) w
    = Returned protocol ->
    protocol = synthesizeOfflineProtocol lib ingredients preferences
    \/ exists response parsed raw,
         run_value (withRetry remote 3 2000) w = Returned response
         /\ JSON_parse_protocol lib
              (or_str (option_map strip_fences (text response)) "{}")
            = Returned parsed
         /\ fuseResults lib ingredients raw = Returned protocol
         /\ isOffline raw = Some false
         /\ Forall (fun uri => uri <> "") (groundingSources raw)
         /\ title raw = title parsed
         /\ ingredients_used raw = ingredients_used parsed
         /\ instructions raw = instructions parsed.
Proof.
  intros lib ingredients preferences remote w protocol. unfold run_value.
  rewrite synthesizeProtocol_eq.
  destruct (reachable w); [|intros [= <-]; now left].
  destruct (withRetry remote 3 2000 w) as [[response|e] w']; cbn [fst];
    [|intros [= <-]; now left].
  destruct (JSON_parse_protocol lib _) as [parsed|e] eqn:Hp;
    [|intros [= <-]; now left].
  destruct (fuseResults lib ingredients _) as [fused|e] eqn:Hf;
    [|intros [= <-]; now left].
  intros [= <-]. right.
  exists response, parsed. eexists.
  split; [reflexivity|]. split; [exact Hp|]. split; [exact Hf|].
  cbn [isOffline groundingSources title ingredients_used instructions].
  split; [reflexivity|]. split; [apply groundingSources_nonempty|].
  repeat split.
Qed.

(** A service whose answer parses and fuses. *)
Lemma synthesizeProtocol_online_result_witness :
  exists raw,
    fuseResults accepting_lib [] raw
    = Returned (mkProtocol "abc123xyz" "Dish" "A dish" ["tomato"] (sample_steps 4) []
                  (Some false))
    /\ isOffline raw = Some false.
Proof.
  destruct (synthesizeProtocol_online_result accepting_lib [] sample_preferences
              remote_ok fresh_world
              (mkProtocol "abc123xyz" "Dish" "A dish" ["tomato"] (sample_steps 4) []
                 (Some false)) eq_refl)
    as [Hoff|(response & parsed & raw & _ & _ & Hf & Hm & _)].
  - discriminate.
  - exists raw. now split.
Defined.

End MoreServiceFacts.

(** ** The assistant calls and the latch *)

Section AssistantLatch.

Import Service ServiceRest JS.
Local Open Scope float_scope.
Local Open Scope string_scope.

Variable host : Host.

Lemma requestVoice_latch remote w :
  reachable w = true ->
  sessionForceOffline (run_state (requestVoice host remote) w)
  = sessionForceOffline w || meets_quota remote 3 (calls w).
Proof.
  intros Hr. unfold run_state, requestVoice, bind.
  rewrite (reachable_credential w Hr).
  destruct (withRetry_latch_env remote 3 2000 w) as [Hl _]. unfold run_state in Hl.
  destruct (withRetry remote 3 2000 w) as [[response|e] w']; cbn [snd] in *;
    [|exact Hl].
  destruct (first_part_data response) as [b64|]; [destruct (truthy_str b64)|];
    exact Hl.
Qed.

(** X25. The technique check, the sous-chef question and the voice
    request reach the service through the critical [withRetry] as recipe
    synthesis does, so each of them sets the session latch exactly when
    the health check passes and its attempts run into a quota error: a
    rate limit met while asking the sous-chef takes the whole session
    offline. *)
Theorem assistant_calls_latch_on_quota :
  forall (image instruction question spokenText : string)
         (protocol : NeuralProtocol) (stepIndex : Z) (step : ProtocolStep)
         (remote : Attempt GenerateContentResponse)
         (w : World) (spoken : list string),
    step_at protocol stepIndex = Some step ->
    sessionForceOffline (run_state (verifyTechnique host image instruction remote) w)
    = latch_after_critical remote w
    /\ sessionForceOffline
         (run_state (askSousChef host question protocol stepIndex remote) w)
       = latch_after_critical remote w
    /\ sessionForceOffline
         (fst (snd (synthesizeVoiceInstruction host spokenText remote (w, spoken))))
       = latch_after_critical remote w.
Proof.
  intros image instruction question spokenText protocol stepIndex step remote
    w spoken Hstep.
  unfold latch_after_critical. split; [|split].
  - eapply proj1, critical_stage_latch with
      (on_success := fun response w' =>
         match JSON_parse_verdict host (or_str (text response) "{}") with
         | Returned verdict => (Returned verdict, w')
         | Thrown _ =>
             (Returned (mkVerdict (Some true) (Some "Handshake stable via local logic.")), w')
         end)
      (on_failure := fun w' =>
         (Returned (mkVerdict (Some true) (Some "Handshake stable via local logic.")), w')).
    + intros r w'. destruct (JSON_parse_verdict host _); now cbn.
    + now cbn.
    + apply verifyTechnique_eq.
  - eapply proj1, critical_stage_latch with
      (on_success := fun response w' =>
         (Returned (or_str (text response)
                      "I'm unable to provide advice at this moment."), w'))
      (on_failure := fun w' =>
         (Returned "Neural handshake interrupted. Falling back to fundamental technique rules.", w')).
    + now cbn.
    + now cbn.
    + rewrite askSousChef_eq, Hstep. reflexivity.
  - unfold synthesizeVoiceInstruction. rewrite checkOnlineStatus_eq.
    destruct (reachable w) eqn:Hr; cbn [andb fst snd];
      [|now rewrite orb_false_r].
    pose proof (requestVoice_latch remote w Hr) as Hl. unfold run_state in Hl.
    destruct (requestVoice host remote w) as [[buffer|e] w1]; exact Hl.
Qed.

End AssistantLatch.

(** A rate limit met while asking about the second step. *)
Lemma assistant_calls_latch_on_quota_witness :
  sessionForceOffline fresh_world = false
  /\ sessionForceOffline
       (run_state
          (ServiceRest.askSousChef sample_host "How long?"%string (sample_protocol 3 [])
             1 remote_quota)
          fresh_world) = true.
Proof.
  split; [reflexivity|].
  destruct (assistant_calls_latch_on_quota sample_host ""%string ""%string
              "How long?"%string ""%string (sample_protocol 3 []) 1
              (mkStep 1 "Prepare" "knife") remote_quota fresh_world [] eq_refl)
    as (_ & Hask & _).
  rewrite Hask. reflexivity.
Defined.

(** ** The latch across the whole module *)

Section WholeModule.

Import Service ServiceRest JS.
Local Open Scope float_scope.
Local Open Scope string_scope.

Variable lib : Collaborators.
Variable host : Host.

Lemma verifyTechnique_latch image instruction remote w :
  sessionForceOffline (run_state (verifyTechnique host image instruction remote) w)
  = latch_after_critical remote w.
Proof.
  unfold latch_after_critical.
  eapply proj1, critical_stage_latch with
    (on_success := fun response w' =>
       match JSON_parse_verdict host (or_str (text response) "{}") with
       | Returned verdict => (Returned verdict, w')
       | Thrown _ =>
           (Returned (mkVerdict (Some true) (Some "Handshake stable via local logic.")), w')
       end)
    (on_failure := fun w' =>
       (Returned (mkVerdict (Some true) (Some "Handshake stable via local logic.")), w')).
  - intros r w'. destruct (JSON_parse_verdict host _); now cbn.
  - now cbn.
  - apply verifyTechnique_eq.
Qed.

Lemma askSousChef_latch question protocol stepIndex remote w :
  sessionForceOffline (run_state (askSousChef host question protocol stepIndex remote) w)
  = match step_at protocol stepIndex with
    | Some _ => latch_after_critical remote w
    | None =>
        sessionForceOffline w
        || (reachable w && isQuotaExceeded (errorMsg_of (undefined_read host)))
    end.
Proof.
  unfold run_state. rewrite askSousChef_eq.
  destruct (reachable w) eqn:Hr.
  - destruct (step_at protocol stepIndex) as [step|].
    + unfold latch_after_critical. rewrite Hr. cbn [andb].
      destruct (withRetry_latch_env remote 3 2000 w) as [Hl _].
      unfold run_state in Hl.
      destruct (withRetry remote 3 2000 w) as [[response|e] w']; exact Hl.
    + destruct (withRetry_thunk_throw (T := GenerateContentResponse)
                  (undefined_read host) 3 2000 w)
        as (e' & w' & -> & _ & _ & _ & Hlatch).
      exact Hlatch.
  - cbn [snd andb]. unfold latch_after_critical. rewrite Hr.
    destruct (step_at protocol stepIndex); now rewrite orb_false_r.
Qed.

Lemma synthesizeVoiceInstruction_latch spokenText remote w spoken :
  sessionForceOffline
    (fst (snd (synthesizeVoiceInstruction host spokenText remote (w, spoken))))
  = latch_after_critical remote w.
Proof.
  unfold latch_after_critical, synthesizeVoiceInstruction.
  rewrite checkOnlineStatus_eq.
  destruct (reachable w) eqn:Hr; cbn [andb fst snd]; [|now rewrite orb_false_r].
  pose proof (requestVoice_latch host remote w Hr) as Hl. unfold run_state in Hl.
  destruct (requestVoice host remote w) as [[buffer|e] w1]; exact Hl.
Qed.

Lemma validateApiKey_latch key remote w :
  sessionForceOffline w = false ->
  sessionForceOffline (run_state (validateApiKey key remote) w) = false.
Proof.
  intros Hl. unfold run_state. rewrite validateApiKey_eq.
  destruct (key_to_test key (env w) && navigator_onLine (env w)); [|exact Hl].
  destruct (remote (calls w)) as [response|e]; [|exact Hl].
  destruct (answers_ok response); [|exact Hl].
  cbn [snd]. unfold run_state. now rewrite resetHandshake_eq.
Qed.

Lemma generateVisualBlueprint_latch dishName description remote w :
  sessionForceOffline
    (run_state (generateVisualBlueprint host dishName description remote) w)
  = sessionForceOffline w.
Proof.
  unfold run_state. rewrite generateVisualBlueprint_eq.
  destruct (reachable w); [|reflexivity].
  destruct (withImageRetry_latch_env remote 2 1000 w) as [Hl _].
  unfold run_state in Hl.
  destruct (withImageRetry remote 2 1000 w) as [[response|e] w']; cbn [snd] in *;
    [destruct (JSON_parse_blueprint host _)|]; exact Hl.
Qed.

Lemma request_quota_free (r : Request) (session : World * list string) :
  quota_free_request host r ->
  sessionForceOffline (fst session) = false ->
  sessionForceOffline (fst (request lib host r session)) = false.
Proof.
  destruct session as [w spoken]. cbn [fst snd]. intros Hr Hl.
  destruct r; cbn [request quota_free_request fst snd] in *.
  - now apply perform_quota_free.
  - unfold run_state.
    destruct (resolveGeminiApiKey_reads w) as [(k & -> & _)|(e & -> & _)]; exact Hl.
  - now apply validateApiKey_latch.
  - rewrite verifyTechnique_latch. unfold latch_after_critical.
    now rewrite Hl, never_quota_meets, andb_false_r.
  - now rewrite generateVisualBlueprint_latch.
  - rewrite askSousChef_latch.
    destruct (step_at protocol stepIndex) as [step|].
    + unfold latch_after_critical.
      now rewrite Hl, never_quota_meets, andb_false_r.
    + now rewrite Hl, Hr, andb_false_r.
  - rewrite synthesizeVoiceInstruction_latch. unfold latch_after_critical.
    now rewrite Hl, never_quota_meets, andb_false_r.
Qed.

(** X5. The latch is set by nothing but a quota error met inside
    [withRetry]. Take any sequence of calls of the functions the service
    module exports (the staged operations, the image functions, the
    blueprint, the technique check, the sous-chef, the voice, key
    validation and resolution, the health check, the reset) and of changes
    of the surroundings, in a session that starts with the latch clear.
    If nothing that reaches [withRetry] ends in an error it classifies as
    quota exceeded, the latch is clear after the whole sequence: image and
    blueprint calls that do hit a quota error, failed validations and a
    network that goes away do not set it. *)
Theorem latch_needs_critical_quota :
  forall (rs : list Request) (w : World) (spoken : list string),
    sessionForceOffline w = false ->
    Forall (quota_free_request host) rs ->
    sessionForceOffline (fst (requests lib host rs (w, spoken))) = false.
Proof.
  intros rs w spoken Hl Hrs.
  change w with (fst (w, spoken)) in Hl.
  generalize dependent (w, spoken). clear w spoken.
  unfold requests.
  induction rs as [|r rs IH]; intros session Hl; [exact Hl|].
  inversion Hrs as [|r' rs' Hr Hrest]; subst.
  cbn [fold_left]. apply IH; [exact Hrest|].
  now apply request_quota_free.
Qed.

End WholeModule.

(** A session in which the recipe service and the sous-chef's service
    answer 500 throughout, the image and blueprint services answer 429,
    the sous-chef is asked about a step that does not exist and the
    network goes away. *)
Lemma latch_needs_critical_quota_witness :
  sessionForceOffline
    (fst (requests sample_lib sample_host
            [ Staged (Service.CallSynthesizeProtocol [] sample_preferences remote_500);
              Staged (Service.CallPlatingVisual offline_protocol remote_quota);
              CallVisualBlueprint "Ratatouille" "" remote_quota;
              CallAskSousChef "How long?" (sample_protocol 3 []) 1 remote_500;
              CallAskSousChef "How long?" (sample_protocol 3 []) 7 remote_quota;
              CallVerifyTechnique "" "julienne" remote_500;
              CallValidateApiKey None remote_quota;
              CallVoiceInstruction "Sear for two minutes" remote_500;
              Staged (Service.SurroundingsChange (mkEnv None (ReadItem None) false false));
              Staged (Service.CallAuditRecall [] remote_500) ]%string
            (fresh_world, []))) = false.
Proof.
  assert (H500 : never_quota remote_500).
  { intros k e He. unfold remote_500 in He. injection He as <-. reflexivity. }
  apply latch_needs_critical_quota; [reflexivity|].
  repeat apply Forall_cons; try apply Forall_nil;
    solve [exact I | exact H500 | reflexivity].
Defined.

(** ** Progress steps *)

Section ProgressFacts.

Import Progress.
Local Open Scope string_scope.

(** X26. [updateStep] changes nothing but the status of the steps with
    the given id: the list keeps its length, its ids and its labels in
    order; every step with that id gets the new status and every other
    step keeps its own; an id that names no step leaves the list as it
    was; and applying the same update twice is applying it once. *)
Theorem updateStep_only_sets_status :
  forall (id : string) (newStatus : StepStatus) (prev : list AnalysisStep),
    map step_id (updateStep id newStatus prev) = map step_id prev
    /\ map label (updateStep id newStatus prev) = map label prev
    /\ (forall n s, nth_error prev n = Some s ->
          nth_error (updateStep id newStatus prev) n
          = Some (mkAnalysisStep (step_id s) (label s)
                    (if String.eqb (step_id s) id then newStatus else status s)))
    /\ (~ In id (map step_id prev) -> updateStep id newStatus prev = prev)
    /\ updateStep id newStatus (updateStep id newStatus prev)
       = updateStep id newStatus prev.
Proof.
  intros id newStatus prev. unfold updateStep.
  split; [|split; [|split; [|split]]].
  - rewrite map_map. apply map_ext. intros s.
    now destruct (String.eqb (step_id s) id).
  - rewrite map_map. apply map_ext. intros s.
    now destruct (String.eqb (step_id s) id).
  - intros n s Hn. rewrite nth_error_map, Hn. cbn [option_map].
    destruct (String.eqb (step_id s) id); [reflexivity|now destruct s].
  - intros Hnot. rewrite <- (map_id prev) at 2. apply map_ext_in.
    intros s Hs. destruct (String.eqb (step_id s) id) eqn:He; [|reflexivity].
    apply String.eqb_eq in He. elim Hnot. rewrite <- He. now apply in_map.
  - rewrite map_map. apply map_ext. intros s.
    destruct (String.eqb (step_id s) id) eqn:He; cbn [step_id label];
      now rewrite He.
Qed.

(** The synthesis steps, updated for an id they do not have. *)
Lemma updateStep_only_sets_status_witness :
  updateStep "vision" complete SYNTHESIS_STEPS = SYNTHESIS_STEPS.
Proof.
  assert (Hnot : ~ In "vision" (map step_id SYNTHESIS_STEPS)).
  { cbn. intros H. repeat (destruct H as [H|H]; [discriminate|]). exact H. }
  exact (proj1 (proj2 (proj2 (proj2
           (updateStep_only_sets_status "vision" complete SYNTHESIS_STEPS)))) Hnot).
Defined.

End ProgressFacts.

(** ** Recovery *)

Section RecoveryFacts.

Import Service JS.
Local Open Scope float_scope.
Local Open Scope string_scope.

(** X27. Retrying recovers: when the first [k] invocations fail with
    retryable errors and the next one succeeds, with [k] within the retry
    budget, the wrapper returns that value after exactly [k + 1]
    invocations and [k] sleeps with growing delays, and the latch is as it
    was. This holds for the critical [withRetry] (latch clear, delays
    doubling) and for [withImageRetry] (delays growing by half). *)
Theorem retry_wrappers_recover :
  forall (T : Type) (fn : Attempt T) (k : nat) (v : T)
         (retries : nat) (delay : float) (w : World),
    (k <= retries)%nat ->
    fn (calls w + k)%nat = Returned v ->
    ((forall j, (j < k)%nat ->
        exists e, fn (calls w + j)%nat = Thrown e
                  /\ isQuotaExceeded (errorMsg_of e) = false
                  /\ isTransient (errorMsg_of e) = true) ->
     sessionForceOffline w = false ->
     let w' := run_state (withRetry fn retries delay) w in
     run_value (withRetry fn retries delay) w = Returned v
     /\ calls w' = (calls w + S k)%nat
     /\ sessionForceOffline w' = false
     /\ sleeps (trace w') = (sleeps (trace w) ++ backoff_delays 2 k delay)%list)
    /\ ((forall j, (j < k)%nat ->
           exists e, fn (calls w + j)%nat = Thrown e
                     /\ isImageTransient (errorMsg_of e) = true) ->
        let w' := run_state (withImageRetry fn retries delay) w in
        run_value (withImageRetry fn retries delay) w = Returned v
        /\ calls w' = (calls w + S k)%nat
        /\ sessionForceOffline w' = sessionForceOffline w
        /\ sleeps (trace w') = (sleeps (trace w) ++ backoff_delays 1.5 k delay)%list).
Proof.
  intros T fn k. induction k as [|k IH]; intros v retries delay w Hk Hv.
  - rewrite Nat.add_0_r in Hv. split.
    + intros _ Hl. cbn zeta. unfold run_value, run_state.
      rewrite (withRetry_returned _ _ _ _ _ Hl Hv). cbn [fst snd].
      rewrite sleeps_after_call, app_nil_r.
      repeat split; try assumption. cbn; lia.
    + intros _. cbn zeta. unfold run_value, run_state.
      rewrite (withImageRetry_returned _ _ _ _ _ Hv). cbn [fst snd].
      rewrite sleeps_after_call, app_nil_r.
      repeat split. cbn; lia.
  - destruct retries as [|r]; [lia|]. split.
    + intros Hfail Hl. cbn zeta. unfold run_value, run_state.
      destruct (Hfail 0%nat ltac:(lia)) as (e & He & Hq & Ht).
      rewrite Nat.add_0_r in He.
      rewrite (withRetry_retry _ _ _ _ _ Hl He Hq Ht).
      destruct (IH v r (delay * 2) (backed_off (S r) delay w) ltac:(lia)) as [Hcrit _].
      { cbn [calls backed_off].
        now replace (S (calls w) + k)%nat with (calls w + S k)%nat by lia. }
      destruct Hcrit as (H1 & H2 & H3 & H4); [|exact Hl|].
      { intros j Hj. cbn [calls backed_off].
        replace (S (calls w) + j)%nat with (calls w + S j)%nat by lia.
        apply Hfail. lia. }
      unfold run_value, run_state in *.
      split; [exact H1|]. split; [rewrite H2; cbn [calls backed_off]; lia|].
      split; [exact H3|].
      rewrite H4, backed_off_retried, sleeps_retried. cbn [backoff_delays].
      now rewrite <- app_assoc.
    + intros Hfail. cbn zeta. unfold run_value, run_state.
      destruct (Hfail 0%nat ltac:(lia)) as (e & He & Ht).
      rewrite Nat.add_0_r in He.
      rewrite (withImageRetry_retry _ _ _ _ _ He Ht).
      destruct (IH v r (delay * 1.5) (retried "[Image Generation]" (S r) delay w)
                  ltac:(lia)) as [_ Himg].
      { cbn [calls retried].
        now replace (S (calls w) + k)%nat with (calls w + S k)%nat by lia. }
      destruct Himg as (H1 & H2 & H3 & H4).
      { intros j Hj. cbn [calls retried].
        replace (S (calls w) + j)%nat with (calls w + S j)%nat by lia.
        apply Hfail. lia. }
      unfold run_value, run_state in *.
      split; [exact H1|]. split; [rewrite H2; cbn [calls retried]; lia|].
      split; [exact H3|].
      rewrite H4, sleeps_retried. cbn [backoff_delays].
      now rewrite <- app_assoc.
Qed.

End RecoveryFacts.

(** Two 500 answers, then a reply: two sleeps of 2000 and 4000 ms. *)
Lemma retry_wrappers_recover_witness :
  run_value (Service.withRetry remote_flaky 3 2000) fresh_world = Returned sample_response
  /\ sleeps (trace (run_state (Service.withRetry remote_flaky 3 2000) fresh_world))
     = [2000; 4000]%float.
Proof.
  destruct (retry_wrappers_recover _ remote_flaky 2 sample_response 3 2000%float
              fresh_world ltac:(lia) eq_refl) as [Hcrit _].
  destruct Hcrit as (Hv & _ & _ & Hs); [|reflexivity|].
  - intros j Hj. exists (Error "500 Internal Server Error").
    destruct j as [|[|j]]; [repeat split..|lia].
  - split; [exact Hv|exact Hs].
Defined.
